(** * GabLira: presence monitoring, nightly penalties and the TTL cache

    A shallow embedding of the hooks [useCache], [useMonitoringSystem] and
    [useUserManager] and of the settings screen's [reducePenalty], together
    with the part of the database schema they rely on; then of the
    monitoring hook's timers, [updateUserStatus], the settings screen's
    list, the home screen's verse of the day, the sections of the verses
    screen, [useRealtimeUpdates] and the device label.

    Conventions of the embedding:
    - JavaScript numbers that hold counters, milliseconds and latencies are
      integers ([Z]); a timestamp is the number of milliseconds since the
      epoch, where the source carries its ISO rendering;
    - a calendar date ([toISOString().split('T')[0]]) is the number of the
      UTC day since the epoch: two instants have the same rendering exactly
      when they have the same day number;
    - identifiers generated by [gen_random_uuid()] are drawn from a counter;
    - the text a user types is a JavaScript string, kept as its UTF-16
      code units; labels, keys and day names are plain strings;
    - [null] is [None]. *)

From stdpp Require Import gmap strings list pretty.
From Stdlib Require Import ZArith Lia.

Open Scope string_scope.
Open Scope list_scope.
Open Scope Z_scope.

(** ** The clock *)

(** A [Date]: the instant and the offset of the local time zone, both in
    milliseconds. *)
Record Date := { epochMs : Z; tzOffsetMs : Z }.

Definition getHours (d : Date) : Z := ((epochMs d + tzOffsetMs d) / 3600000) mod 24.
Definition getMinutes (d : Date) : Z := ((epochMs d + tzOffsetMs d) / 60000) mod 60.

(** [toISOString().split('T')[0]]: the UTC calendar date. *)
Definition isoDate (d : Date) : Z := epochMs d / 86400000.

(** ** The penalty window (useMonitoringSystem.isInPenaltyPeriod) *)

Definition penaltyStart : Z := 22 * 60 + 30.
Definition penaltyEnd : Z := 5 * 60 + 30.

(** The body of [isInPenaltyPeriod] once the clock has been read. *)
Definition isInPenaltyPeriodAt (hour minute : Z) : bool :=
  let currentTime := hour * 60 + minute in
  (penaltyStart <=? currentTime) || (currentTime <=? penaltyEnd).

Definition isInPenaltyPeriodOn (now : Date) : bool :=
  isInPenaltyPeriodAt (getHours now) (getMinutes now).

(** ** The TTL cache (useCache) *)

Module useCache.

Record CacheItem (T : Type) := mkItem { data : T; timestamp : Z; ttl : Z }.
Arguments mkItem {T} _ _ _.
Arguments data {T} _.
Arguments timestamp {T} _.
Arguments ttl {T} _.

(** The hook keeps the entries in a ref and mirrors them in a state
    variable on every change. *)
Record Hook (T : Type) := mkHook {
  cacheRef : gmap string (CacheItem T);
  cache : gmap string (CacheItem T) }.
Arguments mkHook {T} _ _.
Arguments cacheRef {T} _.
Arguments cache {T} _.

Definition initial {T : Type} : Hook T := mkHook ∅ ∅.

Definition default_ttl : Z := 5 * 60 * 1000.

Section Operations.
Context {T : Type}.

(** [get]: [None] is the source's [null] for a missing or expired entry. *)
Definition get (key : string) (now : Z) (h : Hook T) : option T * Hook T :=
  match cacheRef h !! key with
  | None => (None, h)
  | Some item =>
      if now - timestamp item >? ttl item
      then let r := delete key (cacheRef h) in (None, mkHook r r)
      else (Some (data item), h)
  end.

(** [set]; the callers modelled here always pass the ttl (its default is
  [default_ttl]). *)
Definition set (key : string) (v : T) (ttl_ms : Z) (now : Z) (h : Hook T) : Hook T :=
  let item := mkItem v now ttl_ms in
  let r := <[key := item]> (cacheRef h) in
  mkHook r r.

Definition remove (key : string) (h : Hook T) : Hook T :=
  let r := delete key (cacheRef h) in mkHook r r.

Definition clear (h : Hook T) : Hook T := mkHook ∅ ∅.

End Operations.

End useCache.

(** ** Rows of the database (types/database.ts and the schema migration) *)

Definition uuid := N.

Record User := mkUser {
  id : uuid;
  device_name : string;
  penalty_count : Z;
  last_seen : Z;
  is_online : bool;
  created_at : Z;
  updated_at : Z }.

Record Penalty := mkPenalty {
  penalty_id : uuid;
  penalty_user_id : uuid;
  penalty_date : Z;
  removed_by : option uuid;
  removed_at : option Z;
  penalty_created_at : Z }.

Record Activity := mkActivity {
  activity_id : uuid;
  activity_user_id : uuid;
  ping_timestamp : Z;
  response_time : Z;
  activity_is_online : bool;
  activity_created_at : Z }.

(** The [Update] shapes: an absent field is left alone. *)
Record UserUpdate := mkUserUpdate {
  set_penalty_count : option Z;
  set_last_seen : option Z;
  set_is_online : option bool;
  set_updated_at : option Z }.

Record PenaltyUpdate := mkPenaltyUpdate {
  set_removed_by : option uuid;
  set_removed_at : option Z }.

Record Database := mkDatabase {
  users : list User;
  penalties : list Penalty;
  user_activity : list Activity;
  next_uuid : N }.

(** ** The remote store and the device, as the hooks see them *)

(** Every request the hooks send, with the filters and payload of the
    source's query builder chain. *)
Inductive Request :=
| NetInfoFetch
| PenaltiesSelectActive (user_id : uuid) (date : Z)
| PenaltiesInsert (user_id : uuid) (date : Z)
| PenaltiesSelectLatestActive (user_id : uuid)
| PenaltiesUpdate (pid : uuid) (patch : PenaltyUpdate)
| UsersSelectId (uid : uuid)
| UsersSelectByDevice (name : string)
| UsersSelectAll
| UsersInsert (name : string) (online : bool) (seen : Z)
| UsersUpdate (uid : uuid) (patch : UserUpdate) (returning : bool)
| UserActivityInsert (user_id : uuid) (at_ms : Z) (latency : Z) (online : bool).

(** How an external call can go wrong: the client resolves with an
    [error] object, or the promise rejects. *)
Inductive Fault := ReturnsError (code : string) | Rejects.

(** What the environment answers to one call: how long it took and
    whether it failed. *)
Record Reply := mkReply { elapsed : Z; fault : option Fault }.

Definition ok_reply : Reply := mkReply 0 None.

Record NetInfoState := mkNetInfo {
  isConnected : option bool;
  isInternetReachable : option bool }.

(** What a [catch] clause receives. *)
Inductive Thrown := PostgrestError (code : string) | Rejected.

Record Env := mkEnv {
  now : Z;
  tz : Z;
  replies : list Reply;
  netinfo : NetInfoState }.

Record Effects := mkEffects {
  calls : list (Request * Reply);
  console : list (string * Thrown);
  alerts : list (string * string);
  penaltyAdded : nat }.

(** The refs of [useMonitoringSystem]. *)
Record Monitoring := mkMonitoring { isMountedRef : bool; lastPingRef : Z }.

(** The state of one [useUserManager] instance, with its [useCache]. *)
Record UserManager := mkUserManager {
  currentUser : option User;
  loading : bool;
  mountedRef : bool;
  userCache : useCache.Hook (option User) }.

(** The state of the settings screen that [loadUsers] touches. *)
Record Settings := mkSettings {
  users_state : list User;
  settings_loading : bool;
  refreshing : bool;
  listCache : useCache.Hook (list User) }.

Record World := mkWorld {
  db : Database;
  env : Env;
  eff : Effects;
  monitoring : Monitoring;
  userManager : UserManager;
  settings : Settings }.

Definition with_db (f : Database -> Database) (w : World) : World :=
  mkWorld (f (db w)) (env w) (eff w) (monitoring w) (userManager w) (settings w).
Definition with_env (f : Env -> Env) (w : World) : World :=
  mkWorld (db w) (f (env w)) (eff w) (monitoring w) (userManager w) (settings w).
Definition with_eff (f : Effects -> Effects) (w : World) : World :=
  mkWorld (db w) (env w) (f (eff w)) (monitoring w) (userManager w) (settings w).
Definition with_monitoring (f : Monitoring -> Monitoring) (w : World) : World :=
  mkWorld (db w) (env w) (eff w) (f (monitoring w)) (userManager w) (settings w).
Definition with_userManager (f : UserManager -> UserManager) (w : World) : World :=
  mkWorld (db w) (env w) (eff w) (monitoring w) (f (userManager w)) (settings w).
Definition with_settings (f : Settings -> Settings) (w : World) : World :=
  mkWorld (db w) (env w) (eff w) (monitoring w) (userManager w) (f (settings w)).

(** [new Date()] *)
Definition newDate (w : World) : Date := Build_Date (now (env w)) (tz (env w)).

(** The world at another instant (time passing between two calls). *)
Definition at_time (t : Z) (w : World) : World :=
  with_env (fun e => mkEnv t (tz e) (replies e) (netinfo e)) w.

(** ** Asynchronous code: state and exceptions *)

Inductive Completion (A : Type) := Returns (a : A) | Throws (e : Thrown).
Arguments Returns {A} _.
Arguments Throws {A} _.

Definition Async (A : Type) : Type := World -> Completion A * World.

Definition ret {A} (a : A) : Async A := fun w => (Returns a, w).

Definition bind {A B} (c : Async A) (k : A -> Async B) : Async B :=
  fun w => match c w with
           | (Returns a, w') => k a w'
           | (Throws e, w') => (Throws e, w')
           end.

Definition throw {A} (e : Thrown) : Async A := fun w => (Throws e, w).

Definition try_catch {A} (body : Async A) (handler : Thrown -> Async A) : Async A :=
  fun w => match body w with
           | (Returns a, w') => (Returns a, w')
           | (Throws e, w') => handler e w'
           end.

Definition try_finally {A} (body : Async A) (finalizer : Async unit) : Async A :=
  fun w => match body w with
           | (r, w') => match finalizer w' with
                        | (Returns _, w'') => (r, w'')
                        | (Throws e, w'') => (Throws e, w'')
                        end
           end.

Definition gets {A} (f : World -> A) : Async A := fun w => (Returns (f w), w).
Definition modify (f : World -> World) : Async unit := fun w => (Returns tt, f w).
Definition when (b : bool) (c : Async unit) : Async unit := if b then c else ret tt.

Declare Scope async_scope.
Delimit Scope async_scope with async.
Notation "x <- c ;; k" := (bind c (fun x => k))
  (at level 100, c at next level, right associativity) : async_scope.
Notation "c ;; k" := (bind c (fun _ => k))
  (at level 100, right associativity) : async_scope.
Open Scope async_scope.

(** The state a computation ends in, and how it completes. *)
Definition exec {A} (c : Async A) (w : World) : World := snd (c w).
Definition completion {A} (c : Async A) (w : World) : Completion A := fst (c w).

(** [Date.now()] *)
Definition Date_now : Async Z := gets (fun w => now (env w)).

Definition console_error (msg : string) (e : Thrown) : Async unit :=
  modify (with_eff (fun o =>
    mkEffects (calls o) (console o ++ [(msg, e)]) (alerts o) (penaltyAdded o))).

Definition Alert_alert (title message : string) : Async unit :=
  modify (with_eff (fun o =>
    mkEffects (calls o) (console o) (alerts o ++ [(title, message)]) (penaltyAdded o))).

(** The reply the next external call will get: the head of the script (a
    call beyond the script succeeds at once). *)
Definition next_reply (w : World) : Reply := hd ok_reply (replies (env w)).

(** The world once the call [rq] has been answered: the reply is
    consumed, the clock has advanced by the time the call took, and the
    exchange is recorded. *)
Definition answered (rq : Request) (w : World) : World :=
  with_eff (fun o =>
    mkEffects (calls o ++ [(rq, next_reply w)]) (console o) (alerts o) (penaltyAdded o))
  (with_env (fun e =>
    mkEnv (now e + elapsed (next_reply w)) (tz e) (tl (replies e)) (netinfo e)) w).

(** One external call. *)
Definition exchange (rq : Request) : Async Reply :=
  fun w => (Returns (next_reply w), answered rq w).

(** [NetInfo.fetch()] *)
Definition NetInfo_fetch : Async NetInfoState :=
  r <- exchange NetInfoFetch ;;
  match fault r with
  | Some _ => throw Rejected
  | None => gets (fun w => netinfo (env w))
  end.

(** *** The store: PostgREST semantics over the schema *)

(** The [{ data, error }] pair a query resolves with. *)
Record Response (A : Type) := mkResponse { data : option A; error : option string }.
Arguments mkResponse {A} _ _.
Arguments data {A} _.
Arguments error {A} _.

Definition ok {A} (a : A) : Response A := mkResponse (Some a) None.
Definition no_content {A} : Response A := mkResponse None None.
Definition failed {A} (code : string) : Response A := mkResponse None (Some code).

(** [.single()]: exactly one row, or error PGRST116 ("multiple (or no)
    rows returned"). *)
Definition single {A} (rows : list A) : Response A :=
  match rows with
  | [row] => ok row
  | _ => failed "PGRST116"
  end.

(** A request served by the store: a scripted fault pre-empts it and
    leaves the tables alone; otherwise [serve] computes the response and
    the new tables at the server's clock. *)
Definition remote {A} (rq : Request)
    (serve : Z -> Database -> Response A * Database) : Async (Response A) :=
  r <- exchange rq ;;
  match fault r with
  | Some Rejects => throw Rejected
  | Some (ReturnsError code) => ret (failed code)
  | None =>
      fun w => let '(resp, d) := serve (now (env w)) (db w) in
               (Returns resp, with_db (fun _ => d) w)
  end.

Definition user_exists (uid : uuid) (d : Database) : bool :=
  existsb (fun u => N.eqb (id u) uid) (users d).

Definition is_active (p : Penalty) : bool :=
  match removed_by p with None => true | Some _ => false end.

Definition active_on (uid : uuid) (day : Z) (p : Penalty) : bool :=
  N.eqb (penalty_user_id p) uid && (penalty_date p =? day) && is_active p.

Definition active_of (uid : uuid) (p : Penalty) : bool :=
  N.eqb (penalty_user_id p) uid && is_active p.

(** [from('penalties').select('*').eq('user_id', uid).eq('penalty_date', day)
    .is('removed_by', null).single()] *)
Definition penalties_select_active (uid : uuid) (day : Z) : Async (Response Penalty) :=
  remote (PenaltiesSelectActive uid day)
    (fun _ d => (single (List.filter (active_on uid day) (penalties d)), d)).

(** [from('penalties').insert({ user_id, penalty_date })]: the row gets a
    fresh id, [created_at = now()] and no reducer; the foreign key on
    [user_id] is checked (23503). *)
Definition penalties_insert (uid : uuid) (day : Z) : Async (Response unit) :=
  remote (PenaltiesInsert uid day)
    (fun t d =>
       if user_exists uid d
       then (no_content,
             mkDatabase (users d)
               (penalties d ++ [mkPenalty (next_uuid d) uid day None None t])
               (user_activity d) (N.succ (next_uuid d)))
       else (failed "23503", d)).

(** [.order('created_at', { ascending: false }).limit(1)]: a row with the
    greatest [created_at]. *)
Fixpoint latest (rows : list Penalty) : option Penalty :=
  match rows with
  | [] => None
  | p :: rest =>
      match latest rest with
      | Some q => if penalty_created_at q >? penalty_created_at p then Some q else Some p
      | None => Some p
      end
  end.

(** [from('penalties').select('*').eq('user_id', uid).is('removed_by', null)
    .order('created_at', { ascending: false }).limit(1).single()] *)
Definition penalties_select_latest_active (uid : uuid) : Async (Response Penalty) :=
  remote (PenaltiesSelectLatestActive uid)
    (fun _ d =>
       (single (option_list (latest (List.filter (active_of uid) (penalties d)))), d)).

Definition apply_penalty_update (patch : PenaltyUpdate) (p : Penalty) : Penalty :=
  mkPenalty (penalty_id p) (penalty_user_id p) (penalty_date p)
    (match set_removed_by patch with Some r => Some r | None => removed_by p end)
    (match set_removed_at patch with Some t => Some t | None => removed_at p end)
    (penalty_created_at p).

(** [from('penalties').update(patch).eq('id', pid)] *)
Definition penalties_update (pid : uuid) (patch : PenaltyUpdate) : Async (Response unit) :=
  remote (PenaltiesUpdate pid patch)
    (fun _ d =>
       (no_content,
        mkDatabase (users d)
          (map (fun p => if N.eqb (penalty_id p) pid then apply_penalty_update patch p else p)
               (penalties d))
          (user_activity d) (next_uuid d))).

(** An update of [users]; the trigger [update_users_updated_at] then
    stamps [updated_at] with the server's [now()]. *)
Definition apply_user_update (t : Z) (patch : UserUpdate) (u : User) : User :=
  mkUser (id u) (device_name u)
    (default (penalty_count u) (set_penalty_count patch))
    (default (last_seen u) (set_last_seen patch))
    (default (is_online u) (set_is_online patch))
    (created_at u)
    t.

Definition update_users (t : Z) (uid : uuid) (patch : UserUpdate) (d : Database) : Database :=
  mkDatabase
    (map (fun u => if N.eqb (id u) uid then apply_user_update t patch u else u) (users d))
    (penalties d) (user_activity d) (next_uuid d).

(** [from('users').update(patch).eq('id', uid)] *)
Definition users_update (uid : uuid) (patch : UserUpdate) : Async (Response unit) :=
  remote (UsersUpdate uid patch false)
    (fun t d => (no_content, update_users t uid patch d)).

(** [from('users').update(patch).eq('id', uid).select().single()] *)
Definition users_update_returning (uid : uuid) (patch : UserUpdate) : Async (Response User) :=
  remote (UsersUpdate uid patch true)
    (fun t d =>
       let d' := update_users t uid patch d in
       (single (List.filter (fun u => N.eqb (id u) uid) (users d')), d')).

(** [from('users').select('id').eq('id', uid).single()] *)
Definition users_select_id (uid : uuid) : Async (Response uuid) :=
  remote (UsersSelectId uid)
    (fun _ d => (single (map id (List.filter (fun u => N.eqb (id u) uid) (users d))), d)).

(** [from('users').select('*').eq('device_name', name).single()] *)
Definition users_select_by_device (name : string) : Async (Response User) :=
  remote (UsersSelectByDevice name)
    (fun _ d => (single (List.filter (fun u => String.eqb (device_name u) name) (users d)), d)).

(** [from('users').insert({ device_name, is_online, last_seen }).select().single()]:
    [device_name] is UNIQUE (23505); the other columns take their
    defaults, [penalty_count] among them (DEFAULT 0). *)
Definition users_insert (name : string) (online : bool) (seen : Z) : Async (Response User) :=
  remote (UsersInsert name online seen)
    (fun t d =>
       if existsb (fun u => String.eqb (device_name u) name) (users d)
       then (failed "23505", d)
       else let u := mkUser (next_uuid d) name 0 seen online t t in
            (ok u,
             mkDatabase (users d ++ [u]) (penalties d) (user_activity d)
               (N.succ (next_uuid d)))).

Fixpoint insert_by_name (u : User) (l : list User) : list User :=
  match l with
  | [] => [u]
  | v :: rest =>
      if String.leb (device_name u) (device_name v) then u :: l
      else v :: insert_by_name u rest
  end.

(** [from('users').select('*').order('device_name')] *)
Definition users_select_all : Async (Response (list User)) :=
  remote UsersSelectAll
    (fun _ d => (ok (fold_right insert_by_name [] (users d)), d)).

(** [from('user_activity').insert({ user_id, ping_timestamp, response_time,
    is_online })], with the foreign key on [user_id]. *)
Definition user_activity_insert (uid : uuid) (at_ms latency : Z) (online : bool)
    : Async (Response unit) :=
  remote (UserActivityInsert uid at_ms latency online)
    (fun t d =>
       if user_exists uid d
       then (no_content,
             mkDatabase (users d) (penalties d)
               (user_activity d ++ [mkActivity (next_uuid d) uid at_ms latency online t])
               (N.succ (next_uuid d)))
       else (failed "23503", d)).

(** [if (error) throw error] *)
Definition throw_if_error {A} (r : Response A) : Async unit :=
  match error r with
  | Some code => throw (PostgrestError code)
  | None => ret tt
  end.

(** [if (error && error.code !== 'PGRST116') throw error] *)
Definition throw_unless_no_rows {A} (r : Response A) : Async unit :=
  match error r with
  | Some code => if negb (String.eqb code "PGRST116") then throw (PostgrestError code) else ret tt
  | None => ret tt
  end.

(** ** useMonitoringSystem *)

(** [isInPenaltyPeriod()]: reads the local clock. *)
Definition isInPenaltyPeriod : Async bool :=
  gets (fun w => isInPenaltyPeriodOn (newDate w)).

(** [onPenaltyAdded?.()]: the optional callback belongs to the caller and
    is not awaited; the model records that it was fired. *)
Definition fire_onPenaltyAdded (onPenaltyAdded : bool) : Async unit :=
  when onPenaltyAdded
    (modify (with_eff (fun o =>
       mkEffects (calls o) (console o) (alerts o) (S (penaltyAdded o))))).

Definition addPenalty (currentUser : option User) (onPenaltyAdded : bool) : Async unit :=
  match currentUser with
  | None => ret tt
  | Some cu =>
      inPeriod <- isInPenaltyPeriod ;;
      mounted <- gets (fun w => isMountedRef (monitoring w)) ;;
      if negb inPeriod || negb mounted then ret tt
      else
        try_catch
          (today <- gets (fun w => isoDate (newDate w)) ;;
           existing <- penalties_select_active (id cu) today ;;
           throw_unless_no_rows existing ;;
           match data existing with
           | Some _ => ret tt
           | None =>
               inserted <- penalties_insert (id cu) today ;;
               throw_if_error inserted ;;
               updated <- users_update (id cu)
                            (mkUserUpdate (Some (penalty_count cu + 1)) None None None) ;;
               throw_if_error updated ;;
               mounted' <- gets (fun w => isMountedRef (monitoring w)) ;;
               when mounted' (fire_onPenaltyAdded onPenaltyAdded)
           end)
          (fun e => console_error "Error adding penalty:" e)
  end.

(** JavaScript truthiness of a [boolean | null]. *)
Definition truthy (b : option bool) : bool := default false b.

Definition has_error {A} (r : Response A) : bool :=
  match error r with Some _ => true | None => false end.

Definition pingServer (currentUser : option User) (onPenaltyAdded : bool) : Async unit :=
  match currentUser with
  | None => ret tt
  | Some cu =>
      mounted <- gets (fun w => isMountedRef (monitoring w)) ;;
      if negb mounted then ret tt
      else
        t0 <- Date_now ;;
        lastPing <- gets (fun w => lastPingRef (monitoring w)) ;;
        if t0 - lastPing <? 15000 then ret tt
        else
          modify (with_monitoring (fun m => mkMonitoring (isMountedRef m) t0)) ;;
          try_catch
            (startTime <- Date_now ;;
             netInfo <- NetInfo_fetch ;;
             if truthy (isConnected netInfo) && truthy (isInternetReachable netInfo)
             then
               probe <- users_select_id (id cu) ;;
               t1 <- Date_now ;;
               let responseTime := t1 - startTime in
               (if has_error probe || (responseTime >? 1000)
                then
                  stamp <- Date_now ;;
                  _ <- user_activity_insert (id cu) stamp responseTime
                         (negb (has_error probe)) ;;
                  ret tt
                else ret tt) ;;
               (if has_error probe
                then
                  seen <- Date_now ;;
                  _ <- users_update (id cu) (mkUserUpdate None (Some seen) (Some false) None) ;;
                  ret tt
                else
                  seen <- Date_now ;;
                  _ <- users_update (id cu) (mkUserUpdate None (Some seen) (Some true) None) ;;
                  ret tt) ;;
               inPeriod <- isInPenaltyPeriod ;;
               if negb (has_error probe) && inPeriod
               then addPenalty currentUser onPenaltyAdded
               else ret tt
             else
               seen <- Date_now ;;
               _ <- users_update (id cu) (mkUserUpdate None (Some seen) (Some false) None) ;;
               ret tt)
            (fun e => console_error "Ping error:" e)
  end.

(** [addPenalty] invoked one call after the other, each call completing
    before the next starts; every call comes with the props of the render
    it belongs to and the instant it starts at. *)
Fixpoint addPenalty_sequence (invocations : list (option User * bool * Z)) (w : World) : World :=
  match invocations with
  | [] => w
  | (cu, cb, t) :: rest => addPenalty_sequence rest (exec (addPenalty cu cb) (at_time t w))
  end.

(** ** useUserManager *)

Definition setLoading (b : bool) : Async unit :=
  modify (with_userManager (fun m =>
    mkUserManager (currentUser m) b (mountedRef m) (userCache m))).

Definition setCurrentUser (u : option User) : Async unit :=
  modify (with_userManager (fun m =>
    mkUserManager u (loading m) (mountedRef m) (userCache m))).

Definition getCache (key : string) : Async (option (option User)) := fun w =>
  let '(v, h) := useCache.get key (now (env w)) (userCache (userManager w)) in
  (Returns v,
   with_userManager (fun m => mkUserManager (currentUser m) (loading m) (mountedRef m) h) w).

Definition setCache (key : string) (v : option User) (ttl_ms : Z) : Async unit := fun w =>
  (Returns tt,
   with_userManager (fun m =>
     mkUserManager (currentUser m) (loading m) (mountedRef m)
       (useCache.set key v ttl_ms (now (env w)) (userCache m))) w).

Definition userCacheKey (deviceName : string) : string := "user_" ++ deviceName.

Definition two_minutes : Z := 2 * 60 * 1000.

Definition initializeUser (deviceName : string) : Async unit :=
  if String.eqb deviceName "" || String.eqb deviceName "Unknown Device" then ret tt
  else
    try_finally
      (try_catch
         (mounted <- gets (fun w => mountedRef (userManager w)) ;;
          when mounted (setLoading true) ;;
          let cacheKey := userCacheKey deviceName in
          cachedUser <- getCache cacheKey ;;
          match cachedUser with
          | Some (Some cached) =>
              mounted1 <- gets (fun w => mountedRef (userManager w)) ;;
              when mounted1 (setCurrentUser (Some cached) ;; setLoading false)
          | _ =>
              found <- users_select_by_device deviceName ;;
              throw_unless_no_rows found ;;
              match data found with
              | Some existingUser =>
                  seen <- Date_now ;;
                  updated <- users_update_returning (id existingUser)
                               (mkUserUpdate None (Some seen) (Some true) None) ;;
                  throw_if_error updated ;;
                  setCache cacheKey (data updated) two_minutes ;;
                  mounted2 <- gets (fun w => mountedRef (userManager w)) ;;
                  when mounted2 (setCurrentUser (data updated))
              | None =>
                  seen <- Date_now ;;
                  created <- users_insert deviceName true seen ;;
                  throw_if_error created ;;
                  setCache cacheKey (data created) two_minutes ;;
                  mounted2 <- gets (fun w => mountedRef (userManager w)) ;;
                  when mounted2 (setCurrentUser (data created))
              end
          end)
         (fun e => console_error "Error initializing user:" e))
      (mounted <- gets (fun w => mountedRef (userManager w)) ;;
       when mounted (setLoading false)).

Definition refreshUser (deviceName : string) : Async unit :=
  setCache (userCacheKey deviceName) None 0 ;;
  initializeUser deviceName.

(** ** The settings screen *)

Definition setUsers (l : list User) : Async unit :=
  modify (with_settings (fun s =>
    mkSettings l (settings_loading s) (refreshing s) (listCache s))).

Definition setListLoading (b : bool) : Async unit :=
  modify (with_settings (fun s =>
    mkSettings (users_state s) b (refreshing s) (listCache s))).

Definition getListCache (key : string) : Async (option (list User)) := fun w =>
  let '(v, h) := useCache.get key (now (env w)) (listCache (settings w)) in
  (Returns v,
   with_settings (fun s => mkSettings (users_state s) (settings_loading s) (refreshing s) h) w).

Definition setListCache (key : string) (v : list User) (ttl_ms : Z) : Async unit := fun w =>
  (Returns tt,
   with_settings (fun s =>
     mkSettings (users_state s) (settings_loading s) (refreshing s)
       (useCache.set key v ttl_ms (now (env w)) (listCache s))) w).

Definition loadUsers : Async unit :=
  isRefreshing <- gets (fun w => refreshing (settings w)) ;;
  try_finally
    (try_catch
       (cachedUsers <- getListCache "users_list" ;;
        match cachedUsers, isRefreshing with
        | Some cached, false => setUsers cached
        | _, _ =>
            when (negb isRefreshing) (setListLoading true) ;;
            listed <- users_select_all ;;
            throw_if_error listed ;;
            let usersData := default [] (data listed) in
            setUsers usersData ;;
            setListCache "users_list" usersData (60 * 1000)
        end)
       (fun e => console_error "Error loading users:" e ;;
                 Alert_alert "Error" "Failed to load users"))
    (when (negb isRefreshing) (setListLoading false)).

(** The buttons of the confirmation dialog. *)
Inductive AlertButton := Cancel | Reduce.

(** [reducePenalty(user)], with the button the user answers the
    confirmation dialog with (should it be shown); [deviceName] is the
    device label the screen's [useUserManager] instance works for. *)
Definition reducePenalty (deviceName : string) (user : User) (pressed : AlertButton)
    : Async unit :=
  me <- gets (fun w => currentUser (userManager w)) ;;
  match me with
  | None => ret tt
  | Some reducer =>
      if penalty_count user =? 0
      then Alert_alert "No Penalties" "This user has no penalties to reduce"
      else if penalty_count user =? 0
      then Alert_alert "No Penalties" "This user has no penalties to reduce"
      else
        Alert_alert "Reduce Penalty"
          ("Reduce one penalty for " ++ device_name user ++ "?") ;;
        match pressed with
        | Cancel => ret tt
        | Reduce =>
            try_catch
              (found <- penalties_select_latest_active (id user) ;;
               throw_unless_no_rows found ;;
               match data found with
               | None => Alert_alert "Error" "No penalties found to reduce"
               | Some penalty =>
                   stamp <- Date_now ;;
                   marked <- penalties_update (penalty_id penalty)
                               (mkPenaltyUpdate (Some (id reducer)) (Some stamp)) ;;
                   throw_if_error marked ;;
                   stamp' <- Date_now ;;
                   counted <- users_update (id user)
                                (mkUserUpdate (Some (Z.max 0 (penalty_count user - 1)))
                                   None None (Some stamp')) ;;
                   throw_if_error counted ;;
                   Alert_alert "Success" "Penalty reduced successfully!" ;;
                   loadUsers ;;
                   refreshUser deviceName
               end)
              (fun e => console_error "Error reducing penalty:" e ;;
                        Alert_alert "Error" "Failed to reduce penalty")
        end
  end.

(** ** Observations used in the statements *)

(** The active penalty records of a participant for a day. *)
Definition active_records (uid : uuid) (day : Z) (d : Database) : list Penalty :=
  List.filter (active_on uid day) (penalties d).

(** The [penalty_count] the store holds for a participant. *)
Definition stored_penalty_count (uid : uuid) (d : Database) : option Z :=
  penalty_count <$> List.find (fun u => N.eqb (id u) uid) (users d).

(** No scripted reply fails. *)
Definition no_faults (w : World) : Prop :=
  Forall (fun r => fault r = None) (replies (env w)).

(** A reply that is no failure for the request it answers: nothing went
    wrong, or the look-up of today's record found no single row. *)
Definition benign (call : Request * Reply) : bool :=
  match fault call.2 with
  | None => true
  | Some (ReturnsError code) =>
      match call.1 with
      | PenaltiesSelectActive _ _ => String.eqb code "PGRST116"
      | _ => false
      end
  | Some Rejects => false
  end.

(** The call was answered by a rejected promise. *)
Definition rejected (call : Request * Reply) : bool :=
  match fault call.2 with
  | Some Rejects => true
  | _ => false
  end.

Definition is_activity_insert (call : Request * Reply) : bool :=
  match call.1 with
  | UserActivityInsert _ _ _ _ => true
  | _ => false
  end.

(** Whether the existence read of a probe, answered by [r], comes back
    without [error]: the call did not fail and exactly one row has the
    id. *)
Definition probe_succeeds (uid : uuid) (r : Reply) (d : Database) : bool :=
  match fault r with
  | None => Nat.eqb (length (List.filter (fun u => N.eqb (id u) uid) (users d))) 1
  | Some _ => false
  end.

(** What [loadUsers] and [refreshUser] leave alone: the penalty records,
    and the count of every participant the store knows. *)
Definition same_penalty_data (d d' : Database) : Prop :=
  penalties d' = penalties d
  /\ forall uid c, stored_penalty_count uid d = Some c -> stored_penalty_count uid d' = Some c.

(** ** Sample data *)

(** 22:31 and 12:00 on the first day of the epoch, in UTC. *)
Definition t_22_31 : Z := (22 * 60 + 31) * 60000.
Definition t_12_00 : Z := (12 * 60) * 60000.

Definition alice : User := mkUser 1%N "DeviceA" 5 0 false 0 0.
Definition bob : User := mkUser 2%N "DeviceB" 2 0 true 0 0.

(** A snapshot of [alice] taken before somebody reduced or added
    penalties: it still says 3. *)
Definition alice_stale : User := mkUser 1%N "DeviceA" 3 0 false 0 0.

Definition sample_db : Database := mkDatabase [alice; bob] [] [] 10%N.

Definition online : NetInfoState := mkNetInfo (Some true) (Some true).
Definition offline : NetInfoState := mkNetInfo (Some false) (Some false).

Definition sample_world (t : Z) (script : list Reply) (net : NetInfoState) : World :=
  mkWorld sample_db
    (mkEnv t 0 script net)
    (mkEffects [] [] [] 0)
    (mkMonitoring true (-100000))
    (mkUserManager (Some bob) false true useCache.initial)
    (mkSettings [] false false useCache.initial).

(** Three penalty records: two active ones of [alice], the later one
    created at 200, and one of [bob]. *)
Definition sample_penalties : list Penalty :=
  [mkPenalty 7%N 1%N 0 None None 100;
   mkPenalty 8%N 1%N 1 None None 200;
   mkPenalty 9%N 2%N 1 None None 300].

Definition penalized_world : World :=
  with_db (fun d => mkDatabase (users d) sample_penalties (user_activity d) (next_uuid d))
    (sample_world t_12_00 [] online).

(** ** Further parts of the hooks and screens *)

(** *** useMonitoringSystem: timers and app state *)

(** What an interval runs. *)
Inductive TimerTask := PingTask | PenaltyCheckTask.

(** The interval refs of the hook, the intervals the runtime has
    registered (handle, task, period in ms) and the next handle it will
    hand out; [appStateListener] tells whether the effect's listener is
    registered. *)
Record Timers := mkTimers {
  pingIntervalRef : option nat;
  penaltyCheckRef : option nat;
  intervals : list (nat * (TimerTask * Z));
  next_handle : nat;
  appStateListener : bool }.

Definition no_timers : Timers := mkTimers None None [] 1 false.

(** [setInterval(task, period)] *)
Definition setInterval (task : TimerTask) (period : Z) (tm : Timers) : nat * Timers :=
  (next_handle tm,
   mkTimers (pingIntervalRef tm) (penaltyCheckRef tm)
     (intervals tm ++ [(next_handle tm, (task, period))])
     (S (next_handle tm)) (appStateListener tm)).

(** [clearInterval(handle)] *)
Definition clearInterval (handle : nat) (tm : Timers) : Timers :=
  mkTimers (pingIntervalRef tm) (penaltyCheckRef tm)
    (List.filter (fun i => negb (Nat.eqb (fst i) handle)) (intervals tm))
    (next_handle tm) (appStateListener tm).

(** The timer part of [startMonitoring]. *)
Definition start_timers (tm : Timers) : Timers :=
  let tm1 := match pingIntervalRef tm with
             | Some h => clearInterval h tm
             | None => tm
             end in
  let tm2 := match penaltyCheckRef tm1 with
             | Some h => clearInterval h tm1
             | None => tm1
             end in
  let '(ping, tm3) := setInterval PingTask 30000 tm2 in
  let tm4 := mkTimers (Some ping) (penaltyCheckRef tm3) (intervals tm3)
               (next_handle tm3) (appStateListener tm3) in
  let '(check, tm5) := setInterval PenaltyCheckTask 120000 tm4 in
  mkTimers (pingIntervalRef tm5) (Some check) (intervals tm5)
    (next_handle tm5) (appStateListener tm5).

(** [startMonitoring()]: the intervals, then the initial ping. *)
Definition startMonitoring (currentUser : option User) (onPenaltyAdded : bool)
    (tm : Timers) : Async Timers :=
  let tm' := start_timers tm in
  pingServer currentUser onPenaltyAdded ;;
  ret tm'.

Definition stopMonitoring (tm : Timers) : Timers :=
  let tm1 := match pingIntervalRef tm with
             | Some h =>
                 let c := clearInterval h tm in
                 mkTimers None (penaltyCheckRef c) (intervals c) (next_handle c)
                   (appStateListener c)
             | None => tm
             end in
  match penaltyCheckRef tm1 with
  | Some h =>
      let c := clearInterval h tm1 in
      mkTimers (pingIntervalRef c) None (intervals c) (next_handle c) (appStateListener c)
  | None => tm1
  end.

(** What the penalty check interval runs every two minutes. *)
Definition penaltyCheck (currentUser : option User) (onPenaltyAdded : bool) : Async unit :=
  inPeriod <- isInPenaltyPeriod ;;
  if inPeriod then addPenalty currentUser onPenaltyAdded else ret tt.

(** An interval fires. *)
Definition fire (task : TimerTask) (currentUser : option User) (onPenaltyAdded : bool)
    : Async unit :=
  match task with
  | PingTask => pingServer currentUser onPenaltyAdded
  | PenaltyCheckTask => penaltyCheck currentUser onPenaltyAdded
  end.

(** [handleAppStateChange(nextAppState)] *)
Definition handleAppStateChange (nextAppState : string) (currentUser : option User)
    (onPenaltyAdded : bool) (tm : Timers) : Async Timers :=
  if String.eqb nextAppState "active"
  then startMonitoring currentUser onPenaltyAdded tm
  else if String.eqb nextAppState "background" || String.eqb nextAppState "inactive"
  then ret (stopMonitoring tm)
  else ret tm.

Definition setMounted (b : bool) : Async unit :=
  modify (with_monitoring (fun m => mkMonitoring b (lastPingRef m))).

(** The hook's effect: what runs when [currentUser] is set or changes ... *)
Definition monitoringEffect (currentUser : option User) (onPenaltyAdded : bool)
    (tm : Timers) : Async Timers :=
  setMounted true ;;
  match currentUser with
  | None => ret tm
  | Some _ =>
      tm' <- startMonitoring currentUser onPenaltyAdded tm ;;
      ret (mkTimers (pingIntervalRef tm') (penaltyCheckRef tm') (intervals tm')
             (next_handle tm') true)
  end.

(** ... and its cleanup. *)
Definition monitoringCleanup (tm : Timers) : Async Timers :=
  let tm' := stopMonitoring tm in
  setMounted false ;;
  ret (mkTimers (pingIntervalRef tm') (penaltyCheckRef tm') (intervals tm')
         (next_handle tm') false).

(** What can happen to a mounted hook with a participant. *)
Inductive MonitorEvent :=
| Start
| Stop
| AppState (nextAppState : string).

Definition timers_after (ev : MonitorEvent) (tm : Timers) : Timers :=
  match ev with
  | Start => start_timers tm
  | Stop => stopMonitoring tm
  | AppState s =>
      if String.eqb s "active" then start_timers tm
      else if String.eqb s "background" || String.eqb s "inactive" then stopMonitoring tm
      else tm
  end.

(** The refs know every registered interval, and only those. *)
Definition timers_tracked (tm : Timers) : Prop :=
  map fst (intervals tm)
  = option_list (pingIntervalRef tm) ++ option_list (penaltyCheckRef tm)
  /\ Forall (fun i => (fst i < next_handle tm)%nat) (intervals tm).

(** *** useUserManager.updateUserStatus *)

Definition updateUserStatus (isOnline : bool) : Async unit :=
  me <- gets (fun w => currentUser (userManager w)) ;;
  match me with
  | None => ret tt
  | Some cu =>
      try_catch
        (seen <- Date_now ;;
         updated <- users_update_returning (id cu)
                      (mkUserUpdate None (Some seen) (Some isOnline) None) ;;
         throw_if_error updated ;;
         setCache (userCacheKey (device_name cu)) (data updated) two_minutes ;;
         mounted <- gets (fun w => mountedRef (userManager w)) ;;
         when mounted (setCurrentUser (data updated)))
        (fun e => console_error "Error updating user status:" e)
  end.

(** *** The settings screen: pull to refresh *)

Definition setRefreshing (b : bool) : Async unit :=
  modify (with_settings (fun s =>
    mkSettings (users_state s) (settings_loading s) b (listCache s))).

(** [loadUsers] as the closure of one render: [isRefreshing] is the value
    of the [refreshing] state in that render. *)
Definition loadUsers_of_render (isRefreshing : bool) : Async unit :=
  try_finally
    (try_catch
       (cachedUsers <- getListCache "users_list" ;;
        match cachedUsers, isRefreshing with
        | Some cached, false => setUsers cached
        | _, _ =>
            when (negb isRefreshing) (setListLoading true) ;;
            listed <- users_select_all ;;
            throw_if_error listed ;;
            let usersData := default [] (data listed) in
            setUsers usersData ;;
            setListCache "users_list" usersData (60 * 1000)
        end)
       (fun e => console_error "Error loading users:" e ;;
                 Alert_alert "Error" "Failed to load users"))
    (when (negb isRefreshing) (setListLoading false)).

(** [onRefresh] of the settings screen: the [loadUsers] it awaits is the
    one of the render it was created in, whatever [setRefreshing] has
    scheduled. *)
Definition settings_onRefresh : Async unit :=
  rendered <- gets (fun w => refreshing (settings w)) ;;
  setRefreshing true ;;
  loadUsers_of_render rendered ;;
  setRefreshing false.

(** *** What a tick may touch *)

(** A row of [users] unless it is the participant's own. *)
Definition others (uid : uuid) (x : User) : option User :=
  if N.eqb (id x) uid then None else Some x.

(** From [d] to [d'] only the participant's own row of [users] has
    changed, and [penalties] and [user_activity] have only gained records
    of that participant. *)
Definition only_own_rows (uid : uuid) (d d' : Database) : Prop :=
  map (others uid) (users d') = map (others uid) (users d)
  /\ (exists added,
        penalties d' = penalties d ++ added
        /\ Forall (fun p => penalty_user_id p = uid) added)
  /\ (exists pings,
        user_activity d' = user_activity d ++ pings
        /\ Forall (fun a => activity_user_id a = uid) pings).

(** *** Reading a trace *)

Definition is_list_query (call : Request * Reply) : bool :=
  match call.1 with
  | UsersSelectAll => true
  | _ => false
  end.

(** What a removal mark leaves of a penalty record. *)
Definition penalty_identity (p : Penalty) : uuid * uuid * Z * Z :=
  (penalty_id p, penalty_user_id p, penalty_date p, penalty_created_at p).

(** ** The home screen: the verse of the day *)

(** A JavaScript string by its UTF-16 code units: the text the user
    types is not restricted to ASCII. *)
Definition JsString : Type := list N.

(** The code units of an ASCII literal. *)
Definition utf16 (s : string) : JsString :=
  map Ascii.N_of_ascii (String.list_ascii_of_string s).

(** ECMAScript's WhiteSpace and LineTerminator code points (all of them
    in the basic plane): TAB, LF, VT, FF, CR, SP, NBSP, U+1680,
    U+2000..U+200A, LS, PS, U+202F, U+205F, U+3000 and ZWNBSP. *)
Definition isWhiteSpace (c : N) : bool :=
  ((9 <=? c) && (c <=? 13) || (c =? 32) || (c =? 160) || (c =? 5760)
   || (8192 <=? c) && (c <=? 8202) || (c =? 8232) || (c =? 8233)
   || (c =? 8239) || (c =? 8287) || (c =? 12288) || (c =? 65279))%N.

(** [String.prototype.trim] *)
Fixpoint trimStart (s : JsString) : JsString :=
  match s with
  | c :: rest => if isWhiteSpace c then trimStart rest else s
  | [] => []
  end.

Definition trim (s : JsString) : JsString :=
  rev (trimStart (rev (trimStart s))).

Record Verse := mkVerse {
  verse_id : uuid;
  verse_user_id : uuid;
  verse_text : JsString;
  submitted_date : Z;
  day_name : string;
  verse_created_at : Z }.

(** The requests of the home screen on [verses]. *)
Inductive VerseRequest :=
| VersesSelectOfDay (user_id : uuid) (date : Z)
| VersesInsert (user_id : uuid) (text : JsString) (day : string) (date : Z).

(** The home screen over the world of the hooks: the [verses] table, the
    requests sent on it, the screen's state and its own [useCache]. *)
Record Home := mkHome {
  world : World;
  verses : list Verse;
  verse_calls : list (VerseRequest * Reply);
  verseText : JsString;
  hasSubmittedToday : bool;
  isSubmitting : bool;
  submissionCache : useCache.Hook bool }.

Definition with_world (f : World -> World) (h : Home) : Home :=
  mkHome (f (world h)) (verses h) (verse_calls h) (verseText h) (hasSubmittedToday h)
    (isSubmitting h) (submissionCache h).

(** Asynchronous code of the screen. *)
Definition Screen (A : Type) : Type := Home -> Completion A * Home.

Module screen.

Definition ret {A} (a : A) : Screen A := fun h => (Returns a, h).

Definition bind {A B} (c : Screen A) (k : A -> Screen B) : Screen B :=
  fun h => match c h with
           | (Returns a, h') => k a h'
           | (Throws e, h') => (Throws e, h')
           end.

Definition try_catch {A} (body : Screen A) (handler : Thrown -> Screen A) : Screen A :=
  fun h => match body h with
           | (Returns a, h') => (Returns a, h')
           | (Throws e, h') => handler e h'
           end.

Definition try_finally {A} (body : Screen A) (finalizer : Screen unit) : Screen A :=
  fun h => match body h with
           | (r, h') => match finalizer h' with
                        | (Returns _, h'') => (r, h'')
                        | (Throws e, h'') => (Throws e, h'')
                        end
           end.

Definition throw {A} (e : Thrown) : Screen A := fun h => (Throws e, h).
Definition gets {A} (f : Home -> A) : Screen A := fun h => (Returns (f h), h).
Definition modify (f : Home -> Home) : Screen unit := fun h => (Returns tt, f h).

(** Code of the hooks run from the screen. *)
Definition lift {A} (c : Async A) : Screen A :=
  fun h => match c (world h) with
           | (r, w) => (r, with_world (fun _ => w) h)
           end.

Definition exec {A} (c : Screen A) (h : Home) : Home := snd (c h).
Definition completion {A} (c : Screen A) (h : Home) : Completion A := fst (c h).

End screen.

Declare Scope screen_scope.
Delimit Scope screen_scope with screen.
Notation "x <- c ;; k" := (screen.bind c (fun x => k))
  (at level 100, c at next level, right associativity) : screen_scope.
Notation "c ;; k" := (screen.bind c (fun _ => k))
  (at level 100, right associativity) : screen_scope.

(** A request on [verses]: the reply is consumed from the same script and
    advances the same clock as the requests of the hooks. *)
Definition verse_answered (rq : VerseRequest) (h : Home) : Home :=
  mkHome
    (with_env (fun e =>
       mkEnv (now e + elapsed (next_reply (world h))) (tz e) (tl (replies e)) (netinfo e))
       (world h))
    (verses h) (verse_calls h ++ [(rq, next_reply (world h))]) (verseText h)
    (hasSubmittedToday h) (isSubmitting h) (submissionCache h).

Definition verse_remote {A} (rq : VerseRequest)
    (serve : Z -> Home -> Response A * Home) : Screen (Response A) :=
  fun h =>
    match fault (next_reply (world h)) with
    | Some Rejects => (Throws Rejected, verse_answered rq h)
    | Some (ReturnsError code) => (Returns (failed code), verse_answered rq h)
    | None =>
        let h1 := verse_answered rq h in
        let '(resp, h2) := serve (now (env (world h1))) h1 in
        (Returns resp, h2)
    end.

Definition verse_of_day (uid : uuid) (day : Z) (v : Verse) : bool :=
  N.eqb (verse_user_id v) uid && (submitted_date v =? day).

(** [from('verses').select('*').eq('user_id', uid).eq('submitted_date', day)
    .single()] *)
Definition verses_select_of_day (uid : uuid) (day : Z) : Screen (Response Verse) :=
  verse_remote (VersesSelectOfDay uid day)
    (fun _ h => (single (List.filter (verse_of_day uid day) (verses h)), h)).

(** [from('verses').insert({ user_id, verse_text, day_name, submitted_date })]:
    a fresh id, [created_at = now()], the foreign key on [user_id]
    (23503); the schema puts no uniqueness on (user, date). *)
Definition verses_insert (uid : uuid) (text : JsString) (day : string) (date : Z)
    : Screen (Response unit) :=
  verse_remote (VersesInsert uid text day date)
    (fun t h =>
       let d := db (world h) in
       if user_exists uid d
       then (no_content,
             mkHome
               (with_db (fun _ => mkDatabase (users d) (penalties d) (user_activity d)
                                    (N.succ (next_uuid d))) (world h))
               (verses h ++ [mkVerse (next_uuid d) uid text date day t])
               (verse_calls h) (verseText h) (hasSubmittedToday h) (isSubmitting h)
               (submissionCache h))
       else (failed "23503", h)).

Definition setVerseText (s : JsString) : Screen unit :=
  screen.modify (fun h =>
    mkHome (world h) (verses h) (verse_calls h) s (hasSubmittedToday h) (isSubmitting h)
      (submissionCache h)).

Definition setHasSubmittedToday (b : bool) : Screen unit :=
  screen.modify (fun h =>
    mkHome (world h) (verses h) (verse_calls h) (verseText h) b (isSubmitting h)
      (submissionCache h)).

Definition setIsSubmitting (b : bool) : Screen unit :=
  screen.modify (fun h =>
    mkHome (world h) (verses h) (verse_calls h) (verseText h) (hasSubmittedToday h) b
      (submissionCache h)).

Definition getSubmissionCache (key : string) : Screen (option bool) := fun h =>
  let '(v, c) := useCache.get key (now (env (world h))) (submissionCache h) in
  (Returns v,
   mkHome (world h) (verses h) (verse_calls h) (verseText h) (hasSubmittedToday h)
     (isSubmitting h) c).

Definition setSubmissionCache (key : string) (v : bool) (ttl_ms : Z) : Screen unit := fun h =>
  (Returns tt,
   mkHome (world h) (verses h) (verse_calls h) (verseText h) (hasSubmittedToday h)
     (isSubmitting h)
     (useCache.set key v ttl_ms (now (env (world h))) (submissionCache h))).

(** The key [`verse_${currentUser.id}_${today}`]. *)
Definition verseCacheKey (uid : uuid) (today : Z) : string :=
  "verse_" ++ pretty uid ++ "_" ++ pretty today.

Definition five_minutes : Z := 5 * 60 * 1000.

(** [checkTodaySubmission()] *)
Definition checkTodaySubmission : Screen unit :=
  (me <- screen.gets (fun h => currentUser (userManager (world h))) ;;
   match me with
   | None => screen.ret tt
   | Some cu =>
       screen.try_catch
         (today <- screen.gets (fun h => isoDate (newDate (world h))) ;;
          let cacheKey := verseCacheKey (id cu) today in
          cachedSubmission <- getSubmissionCache cacheKey ;;
          match cachedSubmission with
          | Some cached => setHasSubmittedToday cached
          | None =>
              found <- verses_select_of_day (id cu) today ;;
              let hasSubmitted :=
                match data found with Some _ => true | None => false end
                && negb (has_error found) in
              setHasSubmittedToday hasSubmitted ;;
              setSubmissionCache cacheKey hasSubmitted five_minutes
          end)
         (fun e => screen.lift (console_error "Error checking today submission:" e))
   end)%screen.

(** [getDay()]: the local day of the week, Sunday being 0 (the epoch
    began on a Thursday). *)
Definition getDay (d : Date) : Z := ((epochMs d + tzOffsetMs d) / 86400000 + 4) mod 7.

Definition dayNames : list string :=
  ["Sunday"; "Monday"; "Tuesday"; "Wednesday"; "Thursday"; "Friday"; "Saturday"].

Definition cutoffTime : Z := 22 * 60 + 30.

(** The test [currentTime >= cutoffTime] of [submitVerse]. *)
Definition pastCutoff (hour minute : Z) : bool := cutoffTime <=? hour * 60 + minute.

(** [submitVerse()] *)
Definition submitVerse : Screen unit :=
  (me <- screen.gets (fun h => currentUser (userManager (world h))) ;;
   text <- screen.gets verseText ;;
   match me with
   | Some cu =>
       match trim text with
       | [] => screen.lift (Alert_alert "Error" "Please enter a Bible verse")
       | _ :: _ =>
         submitted <- screen.gets hasSubmittedToday ;;
         if submitted
         then screen.lift (Alert_alert "Already Submitted"
                             "You have already submitted a verse today")
         else
           now <- screen.gets (fun h => newDate (world h)) ;;
           if pastCutoff (getHours now) (getMinutes now)
           then screen.lift
                  (Alert_alert "Too Late!"
                     "Verse submission is not allowed after 10:30 PM. You will receive a penalty.")
           else
             screen.try_finally
               (screen.try_catch
                  (setIsSubmitting true ;;
                   let dayName := nth (Z.to_nat (getDay now)) dayNames "" in
                   inserted <- verses_insert (id cu) (trim text) dayName (isoDate now) ;;
                   match error inserted with
                   | Some code => screen.throw (PostgrestError code)
                   | None =>
                       screen.lift (Alert_alert "Success" "Bible verse submitted successfully!") ;;
                       setVerseText [] ;;
                       setHasSubmittedToday true ;;
                       today <- screen.gets (fun h => isoDate (newDate (world h))) ;;
                       setSubmissionCache (verseCacheKey (id cu) today) true five_minutes
                   end)
                  (fun e =>
                     screen.lift (console_error "Error submitting verse:" e) ;;
                     screen.lift (Alert_alert "Error" "Failed to submit verse. Please try again.")))
               (setIsSubmitting false)
       end
   | None => screen.lift (Alert_alert "Error" "Please enter a Bible verse")
   end)%screen.

(** A home screen just mounted over a world of the hooks. *)
Definition home_over (w : World) (text : JsString) : Home :=
  mkHome w [] [] text false false useCache.initial.

(** ** The verses screen: sections by day *)

(** The properties every object literal inherits from
    [Object.prototype] (ECMAScript, Annex B included); each is a function
    or an object, hence truthy, and none is an array. *)
Definition object_prototype_names : list string :=
  ["constructor"; "hasOwnProperty"; "isPrototypeOf"; "propertyIsEnumerable";
   "toLocaleString"; "toString"; "valueOf"; "__proto__";
   "__defineGetter__"; "__defineSetter__"; "__lookupGetter__"; "__lookupSetter__"].

Definition inherited (key : string) : bool :=
  existsb (String.eqb key) object_prototype_names.

(** What [grouped[day]] reads on an object created as [{}] whose own
    properties are lists of verses. *)
Inductive Property :=
| Own (dayVerses : list Verse)
| Inherited
| Undefined.

Definition read_property (grouped : gmap string (list Verse)) (key : string) : Property :=
  match grouped !! key with
  | Some dayVerses => Own dayVerses
  | None => if inherited key then Inherited else Undefined
  end.

(** One turn of [verses.forEach]: [None] is the TypeError of
    [grouped[day].push] when what is read is not an array. *)
Definition group_verse (grouped : gmap string (list Verse)) (verse : Verse)
    : option (gmap string (list Verse)) :=
  let day := day_name verse in
  let grouped' := match read_property grouped day with
                  | Undefined => <[day := []]> grouped
                  | _ => grouped
                  end in
  match read_property grouped' day with
  | Own dayVerses => Some (<[day := dayVerses ++ [verse]]> grouped')
  | _ => None
  end.

(** [groupVersesByDay()], on the list the screen holds; [None] when it
    throws. *)
Definition groupVersesByDay (vs : list Verse) : option (gmap string (list Verse)) :=
  fold_left (fun acc verse => match acc with
                              | Some grouped => group_verse grouped verse
                              | None => None
                              end)
            vs (Some ∅).

Definition dayOrder : list string :=
  ["Monday"; "Tuesday"; "Wednesday"; "Thursday"; "Friday"; "Saturday"; "Sunday"].

(** The sections the list renders: [dayOrder.filter(day => groupedVerses[day])],
    each with [groupedVerses[day]]; [None] when the grouping has thrown. *)
Definition daySections (vs : list Verse) : option (list (string * list Verse)) :=
  match groupVersesByDay vs with
  | None => None
  | Some groupedVerses =>
      Some (map (fun day => (day, default [] (groupedVerses !! day)))
              (List.filter
                 (fun day => match read_property groupedVerses day with
                             | Undefined => false
                             | _ => true
                             end)
                 dayOrder))
  end.

(** The verses of a day, in the order of the list. *)
Definition of_day (day : string) (vs : list Verse) : list Verse :=
  List.filter (fun v => String.eqb (day_name v) day) vs.

(** What an object used as a map holds under a key whose list is [l]. *)
Definition some_if_nonempty {A} (l : list A) : option (list A) :=
  match l with [] => None | _ => Some l end.

(** ** useRealtimeUpdates *)

Inductive Table := UsersTable | VersesTable | PenaltiesTable.

Inductive EventType := INSERT | UPDATE | DELETE.

(** A [postgres_changes] payload: [payload_new] is [payload.new] read as a
    [User] (on the [users] table). *)
Record Change := mkChange {
  change_table : Table;
  eventType : EventType;
  payload_new : option User }.

(** The props of one render; a callback is represented by whether it was
    passed. *)
Record RealtimeProps := mkRealtimeProps {
  rt_currentUser : option User;
  onUserUpdate : bool;
  onUsersListUpdate : bool;
  onVerseUpdate : bool }.

(** A callback invoked, with its argument. *)
Inductive Notification :=
| UserUpdated (u : User)
| UsersListUpdated
| VerseUpdated.

(** [callback?.(...)] *)
Definition invoke (given : bool) (n : Notification) : list Notification :=
  if given then [n] else [].

Definition on_users_change (p : RealtimeProps) (payload : Change) : list Notification :=
  match eventType payload, payload_new payload with
  | UPDATE, Some updatedUser =>
      match rt_currentUser p with
      | Some cu =>
          if N.eqb (id updatedUser) (id cu)
          then invoke (onUserUpdate p) (UserUpdated updatedUser)
          else []
      | None => []
      end
      ++ invoke (onUsersListUpdate p) UsersListUpdated
  | INSERT, _ => invoke (onUsersListUpdate p) UsersListUpdated
  | _, _ => []
  end.

Definition on_verses_change (p : RealtimeProps) : list Notification :=
  invoke (onVerseUpdate p) VerseUpdated.

Definition on_penalties_change (p : RealtimeProps) : list Notification :=
  invoke (onUsersListUpdate p) UsersListUpdated
  ++ match rt_currentUser p with
     | Some cu => invoke (onUserUpdate p) (UserUpdated cu)
     | None => []
     end.

(** The handler [setupSubscriptions] registers on a table, closed over the
    props of its render. *)
Definition handler (t : Table) (p : RealtimeProps) (payload : Change) : list Notification :=
  match t with
  | UsersTable => on_users_change p payload
  | VersesTable => on_verses_change p
  | PenaltiesTable => on_penalties_change p
  end.

(** The client's live channels and the hook's ref. *)
Record Subscription := mkSubscription {
  sub_handle : nat;
  sub_table : Table;
  sub_props : RealtimeProps }.

Record Realtime := mkRealtime {
  subscriptionsRef : list nat;
  channels : list Subscription;
  next_subscription : nat }.

Definition no_realtime : Realtime := mkRealtime [] [] 0.

Definition unsubscribe (handle : nat) (rt : Realtime) : Realtime :=
  mkRealtime (subscriptionsRef rt)
    (List.filter (fun s => negb (Nat.eqb (sub_handle s) handle)) (channels rt))
    (next_subscription rt).

Definition subscribe (t : Table) (p : RealtimeProps) (rt : Realtime) : nat * Realtime :=
  (next_subscription rt,
   mkRealtime (subscriptionsRef rt)
     (channels rt ++ [mkSubscription (next_subscription rt) t p])
     (S (next_subscription rt))).

(** [subscriptionsRef.current.forEach(sub => sub.unsubscribe())] *)
Definition unsubscribe_all (rt : Realtime) : Realtime :=
  fold_left (fun r handle => unsubscribe handle r) (subscriptionsRef rt) rt.

Definition setupSubscriptions (p : RealtimeProps) (rt : Realtime) : Realtime :=
  let rt0 := unsubscribe_all rt in
  let rt1 := mkRealtime [] (channels rt0) (next_subscription rt0) in
  let '(userSubscription, rt2) := subscribe UsersTable p rt1 in
  let '(verseSubscription, rt3) := subscribe VersesTable p rt2 in
  let '(penaltySubscription, rt4) := subscribe PenaltiesTable p rt3 in
  mkRealtime [userSubscription; verseSubscription; penaltySubscription]
    (channels rt4) (next_subscription rt4).

(** The effect: set up on mount and whenever the props change, clean up
    before the next run and on unmount. *)
Inductive RealtimeEvent :=
| Render (p : RealtimeProps)
| Unmount.

Definition realtime_after (ev : RealtimeEvent) (rt : Realtime) : Realtime :=
  match ev with
  | Render p => setupSubscriptions p (unsubscribe_all rt)
  | Unmount => unsubscribe_all rt
  end.

Definition table_eqb (a b : Table) : bool :=
  match a, b with
  | UsersTable, UsersTable | VersesTable, VersesTable | PenaltiesTable, PenaltiesTable => true
  | _, _ => false
  end.

(** What a change on a table makes the live channels call. *)
Definition deliver (payload : Change) (rt : Realtime) : list Notification :=
  flat_map (fun s =>
              if table_eqb (sub_table s) (change_table payload)
              then handler (sub_table s) (sub_props s) payload
              else [])
           (channels rt).

(** The ref holds the live channels, if any are left. *)
Definition channels_tracked (rt : Realtime) : Prop :=
  channels rt = [] \/ map sub_handle (channels rt) = subscriptionsRef rt.

(** ** useDeviceInfo *)

(** What [expo-device] reports. *)
Record DeviceModule := mkDeviceModule {
  Device_deviceName : option string;
  Device_brand : option string;
  Device_modelName : option string }.

(** [hay.includes(needle)] *)
Definition includes (hay needle : string) : bool :=
  match String.index 0 needle hay with
  | Some _ => true
  | None => false
  end.

(** A [string | null] inside a template literal. *)
Definition interpolate (o : option string) : string := default "null" o.

(** The label [getDeviceName] sets when nothing throws ([Platform.OS],
    [navigator.userAgent] and the fields of [Device] are plain reads). *)
Definition getDeviceName (os userAgent : string) (device : DeviceModule) : string :=
  if String.eqb os "web"
  then
    if includes userAgent "Chrome" then "Chrome Browser"
    else if includes userAgent "Firefox" then "Firefox Browser"
    else if includes userAgent "Safari" then "Safari Browser"
    else "Web Browser"
  else
    match Device_deviceName device with
    | Some name =>
        if String.eqb name ""
        then interpolate (Device_brand device) ++ " " ++ interpolate (Device_modelName device)
        else name
    | None => interpolate (Device_brand device) ++ " " ++ interpolate (Device_modelName device)
    end.

(** * Properties *)

(** ** The penalty window *)

(** C2. For all [hour] and [minute], with [m = hour*60 + minute],
    [isInPenaltyPeriod] answers true exactly when [m >= 1350] or
    [m <= 330]; it is true at 22:30 and 05:30 and false at 22:29 and
    05:31.  The hook's function is this test on the clock's local hour
    and minute. *)
Theorem isInPenaltyPeriod_window :
  (forall hour minute : Z,
      isInPenaltyPeriodAt hour minute = true
      <-> (hour * 60 + minute >= 1350 \/ hour * 60 + minute <= 330))
  /\ (forall w, isInPenaltyPeriod w
                = (Returns (isInPenaltyPeriodAt (getHours (newDate w)) (getMinutes (newDate w))), w))
  /\ isInPenaltyPeriodAt 22 30 = true
  /\ isInPenaltyPeriodAt 5 30 = true
  /\ isInPenaltyPeriodAt 22 29 = false
  /\ isInPenaltyPeriodAt 5 31 = false.
Proof.
  repeat split; try reflexivity.
  - unfold isInPenaltyPeriodAt, penaltyStart, penaltyEnd.
    intros H. apply orb_true_iff in H as [H | H]; [left | right]; lia.
  - unfold isInPenaltyPeriodAt, penaltyStart, penaltyEnd.
    intros [H | H]; apply orb_true_iff; [left | right]; lia.
Qed.

(** ** The cache *)

Section CacheFacts.
Context {T : Type}.
Implicit Types (h : useCache.Hook T) (k : string) (v : T).

Lemma cache_lookup_set h k v t now :
  useCache.cacheRef (useCache.set k v t now h) !! k = Some (useCache.mkItem v now t).
Proof. unfold useCache.set. simpl. apply lookup_insert_eq. Qed.

Lemma cache_get_fresh h k v t now now' :
  now' - now <= t ->
  useCache.get k now' (useCache.set k v t now h) = (Some v, useCache.set k v t now h).
Proof.
  intros Hage. unfold useCache.get. rewrite cache_lookup_set. simpl.
  destruct (Z.gtb_spec (now' - now) t); [lia | reflexivity].
Qed.

Lemma cache_get_expired h k v t now now' :
  now' - now > t ->
  useCache.get k now' (useCache.set k v t now h)
  = (None, useCache.remove k (useCache.set k v t now h)).
Proof.
  intros Hage. unfold useCache.get. rewrite cache_lookup_set. simpl.
  destruct (Z.gtb_spec (now' - now) t); [reflexivity | lia].
Qed.

Lemma cache_set_set h k v1 t1 now1 v2 t2 now2 :
  useCache.set k v2 t2 now2 (useCache.set k v1 t1 now1 h) = useCache.set k v2 t2 now2 h.
Proof. unfold useCache.set. simpl. by rewrite insert_insert_eq. Qed.

End CacheFacts.

(** C4. For every key [k], value [v] and ttl [t]: a [get] at an instant
    [now'] at which no more than [t] has elapsed since the [set] (at once:
    [now' = now], for a ttl that is not negative) returns [v] and leaves
    the cache alone; a [get] once more than [t] has elapsed returns
    nothing and removes the entry; a later [set] on the key replaces
    value, ttl and write time, whatever was stored. *)
Theorem cache_set_then_get :
  forall (T : Type) (h : useCache.Hook T) (k : string) (v : T) (t now : Z),
    (forall now', now' - now <= t ->
        useCache.get k now' (useCache.set k v t now h) = (Some v, useCache.set k v t now h))
    /\ (0 <= t ->
        fst (useCache.get k now (useCache.set k v t now h)) = Some v)
    /\ (forall now', now' - now > t ->
        fst (useCache.get k now' (useCache.set k v t now h)) = None
        /\ useCache.cacheRef (snd (useCache.get k now' (useCache.set k v t now h))) !! k = None
        /\ useCache.cache (snd (useCache.get k now' (useCache.set k v t now h))) !! k = None)
    /\ (forall v2 t2 now2,
        useCache.set k v2 t2 now2 (useCache.set k v t now h) = useCache.set k v2 t2 now2 h
        /\ useCache.cacheRef (useCache.set k v2 t2 now2 (useCache.set k v t now h)) !! k
           = Some (useCache.mkItem v2 now2 t2)).
Proof.
  intros T h k v t now. repeat split.
  - intros now' Hage. by apply cache_get_fresh.
  - intros Ht. rewrite cache_get_fresh; [reflexivity | lia].
  - by rewrite cache_get_expired.
  - rewrite cache_get_expired by done. simpl. apply lookup_delete_eq.
  - rewrite cache_get_expired by done. simpl. apply lookup_delete_eq.
  - apply cache_set_set.
  - apply cache_lookup_set.
Qed.

Lemma cache_set_then_get_witness :
  fst (useCache.get "k" 1500 (useCache.set "k" 7%Z 1000 1000 useCache.initial)) = Some 7%Z
  /\ fst (useCache.get "k" 1000 (useCache.set "k" 7%Z 1000 1000 useCache.initial)) = Some 7%Z
  /\ fst (useCache.get "k" 2001 (useCache.set "k" 7%Z 1000 1000 useCache.initial)) = None.
Proof.
  destruct (cache_set_then_get Z useCache.initial "k" 7 1000 1000) as (Hfresh & Hnow & Hold & _).
  split; [| split].
  - rewrite (Hfresh 1500); [reflexivity | lia].
  - apply Hnow. lia.
  - apply (Hold 2001). lia.
Defined.
(** * Reasoning about runs *)

(** Reduction of the control flow of a run, then of the record
    projections it leaves behind. *)
Ltac asimpl_in H :=
  lazy [exec completion bind ret throw try_catch try_finally gets modify when
        Date_now console_error Alert_alert exchange
        throw_if_error throw_unless_no_rows isInPenaltyPeriod fire_onPenaltyAdded
        setLoading setCurrentUser setUsers setListLoading
        getCache setCache getListCache setListCache
        failed ok no_content single has_error next_reply answered
        with_db with_env with_eff with_monitoring with_userManager with_settings at_time] in H;
  cbn [db env eff monitoring userManager settings
       with_db with_env with_eff with_monitoring with_userManager with_settings
       now tz replies netinfo calls console alerts penaltyAdded
       isMountedRef lastPingRef currentUser loading mountedRef userCache
       users_state settings_loading refreshing listCache
       users penalties user_activity next_uuid
       data error fst snd newDate at_time epochMs tzOffsetMs
       answered next_reply negb orb andb hd tl elapsed fault
       String.eqb Ascii.eqb Bool.eqb option_list option_rect] in H.

Ltac asimpl :=
  lazy [exec completion bind ret throw try_catch try_finally gets modify when
        Date_now console_error Alert_alert exchange
        throw_if_error throw_unless_no_rows isInPenaltyPeriod fire_onPenaltyAdded
        setLoading setCurrentUser setUsers setListLoading
        getCache setCache getListCache setListCache
        failed ok no_content single has_error next_reply answered
        with_db with_env with_eff with_monitoring with_userManager with_settings at_time];
  cbn [db env eff monitoring userManager settings
       with_db with_env with_eff with_monitoring with_userManager with_settings
       now tz replies netinfo calls console alerts penaltyAdded
       isMountedRef lastPingRef currentUser loading mountedRef userCache
       users_state settings_loading refreshing listCache
       users penalties user_activity next_uuid
       data error fst snd newDate at_time epochMs tzOffsetMs
       answered next_reply negb orb andb hd tl elapsed fault
       String.eqb Ascii.eqb Bool.eqb option_list option_rect].

Section Remote.
Context {A : Type} (rq : Request) (serve : Z -> Database -> Response A * Database).
Implicit Type w : World.

Lemma remote_ok w :
  fault (next_reply w) = None ->
  remote rq serve w
  = (Returns (fst (serve (now (env w) + elapsed (next_reply w)) (db w))),
     with_db (fun _ => snd (serve (now (env w) + elapsed (next_reply w)) (db w)))
       (answered rq w)).
Proof.
  intros H. unfold remote, bind, exchange. rewrite H.
  cbn [answered with_eff with_env env db now].
  destruct (serve _ _). reflexivity.
Qed.

Lemma remote_error w code :
  fault (next_reply w) = Some (ReturnsError code) ->
  remote rq serve w = (Returns (failed code), answered rq w).
Proof. intros H. unfold remote, bind, exchange. rewrite H. reflexivity. Qed.

Lemma remote_rejects w :
  fault (next_reply w) = Some Rejects ->
  remote rq serve w = (Throws Rejected, answered rq w).
Proof. intros H. unfold remote, bind, exchange. rewrite H. reflexivity. Qed.

End Remote.

(** The test a stuck run waits for: the scrutinee at the head of the
    tower of matches. *)
Ltac head_stuck t k :=
  lazymatch t with
  | match ?s with _ => _ end => head_stuck s k
  | fst ?s => head_stuck s k
  | snd ?s => head_stuck s k
  | data ?s => head_stuck s k
  | error ?s => head_stuck s k
  | negb ?s => head_stuck s k
  | orb ?s _ => head_stuck s k
  | andb ?s _ => head_stuck s k
  | ?f ?a =>
      lazymatch f with
      | match ?s with _ => _ end => head_stuck s k
      | _ => k t
      end
  | _ => k t
  end.

(** A fact about the reply a request gets, from the hypotheses. *)
Ltac known_fault :=
  unfold next_reply;
  cbn [env with_db with_env with_eff with_monitoring with_userManager
       with_settings answered replies hd tl at_time];
  assumption.

(** One step of a run kept in [H : run = (res, w')]: a request is split
    on the three ways it can be answered (unless the hypotheses tell),
    any other test on its outcomes (unless the hypotheses tell). *)
Ltac step_in H :=
  lazymatch type of H with
  | ?X = _ =>
      head_stuck X ltac:(fun s =>
        lazymatch s with
        | (_, _) => fail
        | remote ?rq ?serve ?w =>
            first
              [ rewrite (remote_ok rq serve w) in H by known_fault
              | let Hf := fresh "Hfault" in
                destruct (fault (next_reply w)) as [[?code|]|] eqn:Hf;
                [ rewrite (remote_error rq serve w _ Hf) in H
                | rewrite (remote_rejects rq serve w Hf) in H
                | rewrite (remote_ok rq serve w Hf) in H ];
                unfold next_reply in Hf;
                cbn [env with_db with_env with_eff with_monitoring
                     with_userManager with_settings answered replies hd tl at_time] in Hf ]
        | _ =>
            first
              [ progress
                  (repeat match goal with
                          | Heq : ?l = _ |- _ =>
                              lazymatch Heq with H => fail | _ => idtac end;
                              match s with context [l] => rewrite Heq in H end
                          end)
              | destruct s eqn:? ]
        end)
  end;
  asimpl_in H.

Ltac run_in H := asimpl_in H; repeat step_in H.

(** ** Facts about the tables *)

Lemma stored_after_update t uid patch d c :
  set_penalty_count patch = Some c ->
  user_exists uid d = true ->
  stored_penalty_count uid (update_users t uid patch d) = Some c.
Proof.
  intros Hc. unfold stored_penalty_count, user_exists, update_users. simpl.
  induction (users d) as [|u l IH]; simpl; [discriminate|].
  destruct (N.eqb (id u) uid) eqn:E; simpl.
  - intros _. rewrite E. simpl. by rewrite Hc.
  - rewrite E. exact IH.
Qed.

Lemma no_faults_tail l :
  Forall (fun r => fault r = None) l -> Forall (fun r => fault r = None) (tl l).
Proof. destruct 1; simpl; [constructor | assumption]. Qed.

Lemma no_faults_head l :
  Forall (fun r => fault r = None) l -> fault (hd ok_reply l) = None.
Proof. destruct 1; simpl; [reflexivity | assumption]. Qed.

(** ** Penalty application *)

(** C9. [addPenalty] checks the participant and the penalty window
    itself before anything else: when no participant is resolved or the
    clock is outside the window, the call returns with the world as it
    was: no query, no insert, no update, whoever calls it. *)
Theorem addPenalty_rechecks_window :
  forall (cu : option User) (cb : bool) (w : World),
    cu = None \/ isInPenaltyPeriodOn (newDate w) = false ->
    addPenalty cu cb w = (Returns tt, w).
Proof.
  intros cu cb w [-> | Hout]; [reflexivity |].
  destruct cu as [u |]; [| reflexivity].
  unfold addPenalty. asimpl. rewrite Hout. reflexivity.
Qed.

Lemma addPenalty_rechecks_window_witness :
  isInPenaltyPeriodOn (newDate (sample_world t_12_00 [] online)) = false
  /\ addPenalty (Some alice) true (sample_world t_12_00 [] online)
     = (Returns tt, sample_world t_12_00 [] online).
Proof.
  split; [reflexivity |].
  apply addPenalty_rechecks_window. right. reflexivity.
Defined.



Lemma active_records_one uid day d :
  length (active_records uid day d) = 1%nat -> exists p, active_records uid day d = [p].
Proof.
  destruct (active_records uid day d) as [| p [| q l]]; simpl; try discriminate. eauto.
Qed.

(** The call that finds no active record for the day: it inserts one and
    writes the count. *)
Lemma addPenalty_inserts cu cb w :
  isInPenaltyPeriodOn (newDate w) = true ->
  isMountedRef (monitoring w) = true ->
  no_faults w ->
  user_exists (id cu) (db w) = true ->
  active_records (id cu) (isoDate (newDate w)) (db w) = [] ->
  exists p,
    penalties (db (exec (addPenalty (Some cu) cb) w)) = penalties (db w) ++ [p]
    /\ active_on (id cu) (isoDate (newDate w)) p = true
    /\ stored_penalty_count (id cu) (db (exec (addPenalty (Some cu) cb) w))
       = Some (penalty_count cu + 1)
    /\ no_faults (exec (addPenalty (Some cu) cb) w).
Proof.
  intros Hwin Hmount Hok Huser Hnone. unfold exec, active_records, no_faults in *.
  assert (H1 := no_faults_head _ Hok).
  assert (H2 := no_faults_head _ (no_faults_tail _ Hok)).
  assert (H3 := no_faults_head _ (no_faults_tail _ (no_faults_tail _ Hok))).
  destruct (addPenalty (Some cu) cb w) as [res w'] eqn:Hrun.
  unfold addPenalty, penalties_select_active, penalties_insert, users_update in Hrun.
  run_in Hrun.
  all: injection Hrun as <- <-; cbn [snd db env penalties replies].
  all: eexists; split; [reflexivity |]; split; [| split].
  all: try (apply stored_after_update; [reflexivity | assumption]).
  all: try (by repeat apply no_faults_tail).
  all: unfold active_on; cbn [penalty_user_id penalty_date removed_by is_active];
    by rewrite N.eqb_refl, Z.eqb_refl.
Qed.

(** A call that finds the day's active record leaves the tables alone. *)
Lemma addPenalty_existing cu cb w :
  fault (next_reply w) = None ->
  length (active_records (id cu) (isoDate (newDate w)) (db w)) = 1%nat ->
  db (exec (addPenalty (Some cu) cb) w) = db w
  /\ (no_faults w -> no_faults (exec (addPenalty (Some cu) cb) w)).
Proof.
  intros H1 Hone. apply active_records_one in Hone as [p Hp].
  unfold exec, active_records, no_faults, next_reply in *.
  destruct (addPenalty (Some cu) cb w) as [res w'] eqn:Hrun.
  unfold addPenalty, penalties_select_active, penalties_insert, users_update in Hrun.
  run_in Hrun.
  all: injection Hrun as <- <-; cbn [snd db env replies]; split; [by destruct (db w) |].
  all: try done.
  all: intros Hok; by repeat apply no_faults_tail.
Qed.

Lemma addPenalty_sequence_existing uid day rest : forall w,
  Forall (fun inv : option User * bool * Z =>
            exists u, inv.1.1 = Some u /\ id u = uid
                      /\ isoDate (newDate (at_time inv.2 w)) = day) rest ->
  no_faults w ->
  length (active_records uid day (db w)) = 1%nat ->
  db (addPenalty_sequence rest w) = db w.
Proof.
  induction rest as [| [[cu cb] t] rest IH]; intros w Hall Hok Hone; [reflexivity |].
  apply Forall_cons in Hall as [(u & Hu & Hid & Hday) Hrest].
  cbn [fst snd] in Hu, Hday. subst cu uid day.
  cbn [addPenalty_sequence].
  assert (Hok' : no_faults (at_time t w)) by exact Hok.
  destruct (addPenalty_existing u cb (at_time t w)) as [Hdb Hnf].
  - apply no_faults_head. exact Hok.
  - exact Hone.
  - rewrite IH.
    + exact Hdb.
    + eapply Forall_impl; [exact Hrest |]. intros inv (u' & ? & ? & ?). exists u'. auto.
    + auto.
    + rewrite Hdb. exact Hone.
Qed.

(** C1, as the code has it. Take a resolved participant the store knows,
    with no active penalty record for the day, and invoke [addPenalty] one
    call after the other, every call for that participant and on that
    day, the first one inside the penalty window with the hook mounted,
    no store call failing.  However many calls follow the first, the
    store ends with exactly one active record for the participant and the
    day, and with [penalty_count] set to the count of the first call's
    snapshot plus one: an increment of exactly one when that snapshot is
    current.  And a call that finds exactly one active record for today
    changes no table. *)
Theorem addPenalty_sequence_once :
  (forall (cu : User) (cb : bool) (t : Z) (rest : list (option User * bool * Z))
          (w : World) (day : Z),
      Forall (fun inv : option User * bool * Z =>
                exists u, inv.1.1 = Some u /\ id u = id cu
                          /\ isoDate (newDate (at_time inv.2 w)) = day)
             ((Some cu, cb, t) :: rest) ->
      isInPenaltyPeriodOn (newDate (at_time t w)) = true ->
      isMountedRef (monitoring w) = true ->
      no_faults w ->
      user_exists (id cu) (db w) = true ->
      active_records (id cu) day (db w) = [] ->
      length (active_records (id cu) day
                (db (addPenalty_sequence ((Some cu, cb, t) :: rest) w))) = 1%nat
      /\ stored_penalty_count (id cu)
           (db (addPenalty_sequence ((Some cu, cb, t) :: rest) w))
         = Some (penalty_count cu + 1)
      /\ (stored_penalty_count (id cu) (db w) = Some (penalty_count cu) ->
          stored_penalty_count (id cu)
            (db (addPenalty_sequence ((Some cu, cb, t) :: rest) w))
          = Z.succ <$> stored_penalty_count (id cu) (db w)))
  /\ (forall (cu : User) (cb : bool) (w : World),
      fault (next_reply w) = None ->
      length (active_records (id cu) (isoDate (newDate w)) (db w)) = 1%nat ->
      db (exec (addPenalty (Some cu) cb) w) = db w).
Proof.
  split.
  - intros cu cb t rest w day Hall Hwin Hmount Hok Huser Hnone.
    apply Forall_cons in Hall as [(u & Hu & _ & Hday) Hrest].
    cbn [fst snd] in Hday. subst day.
    cbn [addPenalty_sequence].
    destruct (addPenalty_inserts cu cb (at_time t w)) as (p & Hp & Hact & Hcount & Hnf);
      try assumption.
    set (w1 := exec (addPenalty (Some cu) cb) (at_time t w)) in *.
    assert (Hone : length (active_records (id cu) (isoDate (newDate (at_time t w))) (db w1)) = 1%nat).
    { unfold active_records in *. rewrite Hp, List.filter_app.
      change (db (at_time t w)) with (db w). rewrite Hnone. simpl. by rewrite Hact. }
    rewrite (addPenalty_sequence_existing (id cu) (isoDate (newDate (at_time t w))) rest w1).
    + split; [exact Hone |]. split; [exact Hcount |].
      intros Hcur. rewrite Hcur, Hcount. reflexivity.
    + eapply Forall_impl; [exact Hrest |]. intros inv (u' & ? & ? & ?). exists u'. auto.
    + exact Hnf.
    + exact Hone.
  - intros cu cb w H1 Hone. by apply addPenalty_existing.
Qed.

Lemma addPenalty_sequence_once_witness :
  length (active_records (id alice) 0
            (db (addPenalty_sequence
                   [(Some alice, true, t_22_31); (Some alice, true, t_22_31 + 120000);
                    (Some alice, false, t_22_31 + 240000)]
                   (sample_world 0 [] online)))) = 1%nat
  /\ stored_penalty_count (id alice)
       (db (addPenalty_sequence
              [(Some alice, true, t_22_31); (Some alice, true, t_22_31 + 120000);
               (Some alice, false, t_22_31 + 240000)]
              (sample_world 0 [] online)))
     = Some (5 + 1).
Proof.
  destruct addPenalty_sequence_once as [Hseq _].
  destruct (Hseq alice true t_22_31
              [(Some alice, true, t_22_31 + 120000); (Some alice, false, t_22_31 + 240000)]
              (sample_world 0 [] online) 0) as (Hone & Hcount & _).
  - repeat constructor; exists alice; repeat split; reflexivity.
  - reflexivity.
  - reflexivity.
  - constructor.
  - reflexivity.
  - reflexivity.
  - split; [exact Hone | exact Hcount].
Defined.

(** C1 does not hold as stated: the count written is the snapshot's plus
    one.  [alice] has 5 penalties in the store and no active record for
    the day; the hook still holds a snapshot that says 3.  Two calls in a
    row inside the window, nothing failing, leave exactly one active
    record, and a stored count of 4, not 6. *)
Lemma addPenalty_sequence_stale_snapshot :
  let w := sample_world t_22_31 [] online in
  let w' := addPenalty_sequence
              [(Some alice_stale, true, t_22_31); (Some alice_stale, true, t_22_31)] w in
  active_records (id alice) 0 (db w) = []
  /\ stored_penalty_count (id alice) (db w) = Some 5
  /\ length (active_records (id alice) 0 (db w')) = 1%nat
  /\ stored_penalty_count (id alice) (db w') = Some 4
  /\ stored_penalty_count (id alice) (db w') <> Some (5 + 1).
Proof. vm_compute. repeat split; discriminate. Qed.

(** ** What a call of [addPenalty] can do *)

Ltac trace_suffix :=
  rewrite <- ?app_assoc; first [ reflexivity | symmetry; apply app_nil_r ].

Ltac use_faults :=
  repeat match goal with
         | Hf : fault _ = _ |- _ => rewrite Hf
         | Hn : negb _ = false |- _ => apply negb_false_iff in Hn
         | Hn : negb _ = true |- _ => apply negb_true_iff in Hn
         | He : String.eqb _ _ = _ |- _ => rewrite He
         end.

Ltac judge :=
  cbn [app forallb];
  unfold benign, rejected, is_activity_insert;
  cbn [fst snd];
  use_faults;
  cbn [andb orb negb].

Lemma update_users_keeps_online t uid patch d :
  set_is_online patch = None ->
  map is_online (users (update_users t uid patch d)) = map is_online (users d).
Proof.
  intros Hpatch. unfold update_users. cbn [users]. rewrite map_map.
  apply map_ext. intros u. destruct (N.eqb (id u) uid); [| reflexivity].
  unfold apply_user_update. cbn [is_online]. by rewrite Hpatch.
Qed.

Lemma addPenalty_outcome cu cb w res w' :
  addPenalty cu cb w = (res, w') ->
  res = Returns tt
  /\ exists new,
      calls (eff w') = calls (eff w) ++ new
      /\ ((console (eff w') = console (eff w) /\ forallb benign new = true)
          \/ exists e, console (eff w') = console (eff w) ++ [("Error adding penalty:", e)])
      /\ forallb (fun c => negb (is_activity_insert c)) new = true
      /\ user_activity (db w') = user_activity (db w)
      /\ map is_online (users (db w')) = map is_online (users (db w)).
Proof.
  intros Hrun. destruct cu as [cu |].
  2:{ injection Hrun as <- <-. split; [reflexivity |]. exists []. rewrite app_nil_r.
      repeat split; auto. }
  unfold addPenalty, penalties_select_active, penalties_insert, users_update in Hrun.
  run_in Hrun.
  all: injection Hrun as <- <-; cbn [db eff calls console user_activity users];
    (split; [reflexivity |]); eexists; (split; [trace_suffix |]).
  all: judge.
  all: split; [first [ left; split; reflexivity | right; eexists; reflexivity ] |].
  all: repeat split; try reflexivity.
  all: rewrite update_users_keeps_online by reflexivity; reflexivity.
Qed.

Lemma benign_not_rejected c : benign c = true -> negb (rejected c) = true.
Proof. unfold benign, rejected. destruct (fault c.2) as [[code |] |]; auto. Qed.

Lemma forallb_benign_not_rejected l :
  forallb benign l = true -> forallb (fun c => negb (rejected c)) l = true.
Proof.
  induction l as [| c l IH]; simpl; [reflexivity |].
  intros [Hc Hl]%andb_true_iff. rewrite benign_not_rejected by assumption. auto.
Qed.

(** In a run of [pingServer] that reached [addPenalty]: what that call
    did. *)
Ltac absorb_addPenalty :=
  match goal with
  | Hadd : addPenalty _ _ _ = (_, _) |- _ =>
      apply addPenalty_outcome in Hadd as (Hres & new & Hcalls & Hlog & Hnoping & Hactivity & Honline);
      try discriminate Hres; clear Hres;
      cbn [db eff calls console user_activity users] in Hcalls, Hlog, Hactivity, Honline
  end.

Lemma pingServer_logs cu cb w res w' :
  pingServer cu cb w = (res, w') ->
  res = Returns tt /\
     exists new,
        calls (eff w') = calls (eff w) ++ new
        /\ ((console (eff w') = console (eff w)
             /\ forallb (fun c => negb (rejected c)) new = true)
            \/ exists entries,
                entries <> [] /\ console (eff w') = console (eff w) ++ entries).
Proof.
  intros Hrun. destruct cu as [cu |].
  2:{ injection Hrun as <- <-. split; [reflexivity|]. exists []. rewrite app_nil_r. auto. }
  unfold pingServer, NetInfo_fetch, users_select_id, user_activity_insert, users_update in Hrun.
  run_in Hrun.
  all: injection Hrun as <- <-;
    repeat match goal with a : unit |- _ => destruct a end;
    (split; [reflexivity|]).
  all: try absorb_addPenalty.
  all: cbn [db eff calls console user_activity users].
  all: try (eexists; (split; [trace_suffix |]); judge;
       first [ left; split; reflexivity | right; eexists; split; [| reflexivity]; discriminate ]).
  all: rewrite Hcalls; eexists; (split; [trace_suffix |]);
    destruct Hlog as [[Hsame Hbenign] | [e Hlogged]];
    [ left; split; [exact Hsame |];
      rewrite ?forallb_app; judge; by apply forallb_benign_not_rejected
    | right; eexists; split; [| rewrite Hlogged; trace_suffix]; discriminate ].
Qed.

(** C8, as the code has it.  For every script of store and device
    failures, [addPenalty] and [pingServer] return normally: nothing is
    propagated to the caller.  [addPenalty] turns every failure of its
    requests into one [console.error] entry: if it logs nothing, every
    reply was benign.  [pingServer] logs every rejected promise: if it
    logs nothing, no call was rejected. *)
Theorem ticks_never_throw :
  forall (cu : option User) (cb : bool) (w : World),
    completion (addPenalty cu cb) w = Returns tt
    /\ completion (pingServer cu cb) w = Returns tt
    /\ (exists new,
          calls (eff (exec (addPenalty cu cb) w)) = calls (eff w) ++ new
          /\ ((console (eff (exec (addPenalty cu cb) w)) = console (eff w)
               /\ forallb benign new = true)
              \/ exists e,
                  console (eff (exec (addPenalty cu cb) w))
                  = console (eff w) ++ [("Error adding penalty:", e)]))
    /\ (exists new,
          calls (eff (exec (pingServer cu cb) w)) = calls (eff w) ++ new
          /\ ((console (eff (exec (pingServer cu cb) w)) = console (eff w)
               /\ forallb (fun c => negb (rejected c)) new = true)
              \/ exists entries,
                  entries <> []
                  /\ console (eff (exec (pingServer cu cb) w)) = console (eff w) ++ entries)).
Proof.
  intros cu cb w. unfold completion, exec.
  destruct (addPenalty cu cb w) as [res1 w1] eqn:Hadd.
  destruct (pingServer cu cb w) as [res2 w2] eqn:Hping.
  apply addPenalty_outcome in Hadd as (-> & new1 & Hcalls1 & Hlog1 & _).
  apply pingServer_logs in Hping as (-> & new2 & Hcalls2 & Hlog2).
  cbn [fst snd]. repeat split; eauto.
Qed.

(** C8 does not hold as stated: a failure of one of [pingServer]'s own
    writes is not logged.  The device is offline and the store answers
    the status update with an error: the tick returns, the update did not
    happen, and the console is empty. *)
Lemma pingServer_drops_write_error :
  let failing := mkReply 10 (Some (ReturnsError "503")) in
  let w := sample_world t_12_00 [ok_reply; failing] offline in
  let w' := exec (pingServer (Some alice) true) w in
  completion (pingServer (Some alice) true) w = Returns tt
  /\ calls (eff w')
     = [(NetInfoFetch, ok_reply);
        (UsersUpdate (id alice) (mkUserUpdate None (Some t_12_00) (Some false) None) false,
         failing)]
  /\ db w' = db w
  /\ console (eff w') = [].
Proof. vm_compute. repeat split. Qed.



Lemma no_ping_among new :
  forallb (fun c => negb (is_activity_insert c)) new = true ->
  existsb is_activity_insert new = false.
Proof.
  induction new as [| c l IH]; simpl; [reflexivity |].
  intros [Hc Hl]%andb_true_iff. apply negb_true_iff in Hc. rewrite Hc. auto.
Qed.

Lemma update_users_online t uid patch d :
  map is_online (users (update_users t uid patch d))
  = map (fun x => if N.eqb (id x) uid
                  then default (is_online x) (set_is_online patch)
                  else is_online x) (users d).
Proof.
  unfold update_users. cbn [users]. rewrite map_map. apply map_ext.
  intros x. by destruct (N.eqb (id x) uid).
Qed.

Lemma probe_rows uid d (ids : list uuid) :
  map id (List.filter (fun u => N.eqb (id u) uid) (users d)) = ids ->
  length (List.filter (fun u => N.eqb (id u) uid) (users d)) = length ids.
Proof. intros <-. by rewrite length_map. Qed.

Ltac find_in := cbn [In app]; repeat first [ left; reflexivity | right ].

(** C7, as the code has it.  On a tick that reaches a connected device
    (mounted hook, guard passed, connectivity check resolved): if the
    existence read resolves, [pingServer] sends an insert into
    [user_activity] exactly when the read came back with an error or the
    measured response time (from the start of the tick to the read's
    answer) is above 1000 ms.  A tick whose read succeeded within 1000 ms
    leaves [user_activity] alone and still sends the update with
    [is_online = true], which sets the flag of the participant's row if it
    succeeds.  Otherwise the ping carries the response time and whether
    the read succeeded; it is appended if the insert succeeds and the
    participant's row exists, and [user_activity] is left as it was if
    the insert fails or the row is missing.  If the read is rejected, the
    tick ends in its [catch]: no insert and no update are sent and
    [user_activity] is as before. *)
Theorem pingServer_activity_ping :
  forall (u : User) (cb : bool) (w : World),
    isMountedRef (monitoring w) = true ->
    15000 <= now (env w) - lastPingRef (monitoring w) ->
    fault (next_reply w) = None ->
    truthy (isConnected (netinfo (env w)))
    && truthy (isInternetReachable (netinfo (env w))) = true ->
    let r1 := hd ok_reply (tl (replies (env w))) in
    let r2 := hd ok_reply (tl (tl (replies (env w)))) in
    let latency := elapsed (next_reply w) + elapsed r1 in
    let readOk := probe_succeeds (id u) r1 (db w) in
    let w' := exec (pingServer (Some u) cb) w in
    (fault r1 = Some Rejects ->
     calls (eff w') = calls (eff w) ++ [(NetInfoFetch, next_reply w); (UsersSelectId (id u), r1)]
     /\ db w' = db w
     /\ console (eff w') = console (eff w) ++ [("Ping error:", Rejected)])
    /\ (fault r1 <> Some Rejects ->
        exists new,
          calls (eff w') = calls (eff w) ++ new
          /\ (existsb is_activity_insert new = true <-> (readOk = false \/ latency > 1000))
          /\ (readOk = true -> latency <= 1000 ->
              user_activity (db w') = user_activity (db w)
              /\ exists r,
                  In (UsersUpdate (id u)
                        (mkUserUpdate None
                           (Some (now (env w) + elapsed (next_reply w) + elapsed r1))
                           (Some true) None)
                        false, r) new
                  /\ (fault r = None ->
                      map is_online (users (db w'))
                      = map (fun x => if N.eqb (id x) (id u) then true else is_online x)
                            (users (db w))))
          /\ (readOk = false \/ latency > 1000 ->
              In (UserActivityInsert (id u)
                    (now (env w) + elapsed (next_reply w) + elapsed r1) latency readOk, r2) new
              /\ (fault r2 = None -> user_exists (id u) (db w) = true ->
                  user_activity (db w')
                  = user_activity (db w)
                    ++ [mkActivity (next_uuid (db w)) (id u)
                          (now (env w) + elapsed (next_reply w) + elapsed r1) latency readOk
                          (now (env w) + elapsed (next_reply w) + elapsed r1 + elapsed r2)])
              /\ (fault r2 <> None \/ user_exists (id u) (db w) = false ->
                  user_activity (db w') = user_activity (db w)))).
Proof.
  intros u cb w Hmount Hdebounce Hnet Hconn r1 r2 latency readOk w'.
  subst r1 r2 latency readOk w'.
  apply Z.ltb_ge in Hdebounce. unfold exec, next_reply in *.
  destruct (pingServer (Some u) cb w) as [res w'] eqn:Hrun. cbn [snd].
  split; intros Hread.
  { unfold pingServer, NetInfo_fetch, users_select_id, user_activity_insert, users_update
      in Hrun.
    run_in Hrun.
    all: try (cbn [andb] in Hconn; discriminate Hconn).
    all: try congruence.
    injection Hrun as <- <-. cbn [db eff calls console].
    split; [by rewrite <- app_assoc |]. split; reflexivity. }
  unfold pingServer, NetInfo_fetch, users_select_id, user_activity_insert, users_update in Hrun.
  run_in Hrun.
  all: try (cbn [andb] in Hconn; discriminate Hconn).
  all: try congruence.
  all: injection Hrun as <- <-; try absorb_addPenalty.
  all: destruct (user_exists (id u) (db w)) eqn:Hexists.
  all: cbn [fst snd db eff calls penalties user_activity users error data orb andb negb] in *.
  all: unfold probe_succeeds; use_faults;
       try match goal with
           | Hrows : map id (List.filter _ _) = _ |- _ =>
               rewrite (probe_rows _ _ _ Hrows); cbn [length Nat.eqb]
           end.
  all: repeat match goal with
         | H : context [?a + ?b + ?c - ?a] |- _ =>
             replace (a + b + c - a) with (b + c) in H by lia
         | |- context [?a + ?b + ?c - ?a] =>
             replace (a + b + c - a) with (b + c) by lia
         | H : (_ >? _) = _ |- _ => rewrite Z.gtb_ltb in H
         | H : (_ <? _) = true |- _ => apply Z.ltb_lt in H
         | H : (_ <? _) = false |- _ => apply Z.ltb_ge in H
         end.
  all: try rewrite Hcalls; eexists; (split; [trace_suffix |]).
  all: cbn [existsb app]; try rewrite (no_ping_among _ Hnoping);
       unfold is_activity_insert; cbn [fst snd orb].
  all: split; [split; intros; try first [ congruence | lia | auto; fail | right; lia | left; reflexivity ] |].
  all: try (split;
    [ intros Hok Hlat; try congruence; try lia;
      (split; [first [reflexivity | exact Hactivity] |]);
      eexists; (split; [solve [find_in] |]);
      intros Hr; try congruence;
      rewrite ?Honline; rewrite update_users_online; reflexivity
    | intros Hcond; try (destruct Hcond; first [congruence | lia]);
      (split; [solve [find_in] |]);
      (split;
       [ intros Hr Hu; try congruence;
         first [reflexivity | rewrite Hactivity; reflexivity]
       | intros Hfails; try (destruct Hfails; congruence);
         first [reflexivity | rewrite Hactivity; reflexivity] ]) ]).
Qed.

Lemma pingServer_activity_ping_witness :
  exists new,
    calls (eff (exec (pingServer (Some alice) true)
                  (sample_world t_12_00 [ok_reply; mkReply 1500 None] online)))
    = calls (eff (sample_world t_12_00 [ok_reply; mkReply 1500 None] online)) ++ new
    /\ existsb is_activity_insert new = true
    /\ user_activity (db (exec (pingServer (Some alice) true)
                             (sample_world t_12_00 [ok_reply; mkReply 1500 None] online)))
       = [mkActivity 10%N (id alice) (t_12_00 + 1500) 1500 true (t_12_00 + 1500)].
Proof.
  destruct (pingServer_activity_ping alice true
              (sample_world t_12_00 [ok_reply; mkReply 1500 None] online))
    as [_ Hresolved].
  - reflexivity.
  - vm_compute. discriminate.
  - reflexivity.
  - reflexivity.
  - destruct Hresolved as (new & Hcalls & Hiff & _ & Hping); [discriminate |].
    exists new. split; [exact Hcalls |]. split.
    + apply Hiff. right. reflexivity.
    + destruct Hping as (_ & Happended & _); [right; reflexivity |].
      apply Happended; reflexivity.
Defined.

(** C7 does not hold as stated: a failed read does not make a ping
    appear.  The device is connected, the existence read is answered with
    an error (503) and so is the insert of the ping: the insert was sent,
    its error is not looked at, and [user_activity] is as empty as
    before. *)
Lemma pingServer_ping_insert_fails :
  let failing := mkReply 10 (Some (ReturnsError "503")) in
  let w := sample_world t_12_00 [ok_reply; failing; failing] online in
  let w' := exec (pingServer (Some alice) true) w in
  truthy (isConnected (netinfo (env w))) && truthy (isInternetReachable (netinfo (env w))) = true
  /\ probe_succeeds (id alice) failing (db w) = false
  /\ existsb is_activity_insert (calls (eff w')) = true
  /\ In (UserActivityInsert (id alice) (t_12_00 + 10) 10 false, failing) (calls (eff w'))
  /\ user_activity (db w) = []
  /\ user_activity (db w') = []
  /\ console (eff w') = [].
Proof. vm_compute. repeat split; auto. Qed.

(** The two probe scenarios, run.  At 22:31 with the device connected and
    the store answering at once: the participant is online, no activity
    ping is written, and there is exactly one active penalty record for
    the day, also after a second tick.  At 05:29 (UTC, on the next day)
    with the device disconnected: the participant is offline and nothing
    else is written. *)
Example probe_at_22_31 :
  let w1 := exec (pingServer (Some alice) true) (sample_world t_22_31 [] online) in
  let w2 := exec (pingServer (Some alice) true) (at_time (t_22_31 + 30000) w1) in
  map is_online (users (db w1)) = [true; true]
  /\ user_activity (db w1) = []
  /\ length (active_records (id alice) 0 (db w1)) = 1%nat
  /\ stored_penalty_count (id alice) (db w1) = Some 6
  /\ db w2 = update_users (t_22_31 + 30000) (id alice)
               (mkUserUpdate None (Some (t_22_31 + 30000)) (Some true) None) (db w1).
Proof. vm_compute. repeat split. Qed.

Example probe_at_05_29_unreachable :
  let t := 86400000 + (5 * 60 + 29) * 60000 in
  let w1 := exec (pingServer (Some bob) true) (sample_world t [] offline) in
  isInPenaltyPeriodOn (newDate (sample_world t [] offline)) = true
  /\ map is_online (users (db w1)) = [false; false]
  /\ map last_seen (users (db w1)) = [0; t]
  /\ user_activity (db w1) = []
  /\ penalties (db w1) = [].
Proof. vm_compute. repeat split. Qed.

(** ** Session initialization *)

(** A cache hit: [initializeUser] takes the cached participant and sends
    nothing to the store. *)
Lemma initializeUser_cached deviceName w cached :
  deviceName <> "" ->
  deviceName <> "Unknown Device" ->
  fst (useCache.get (userCacheKey deviceName) (now (env w)) (userCache (userManager w)))
  = Some (Some cached) ->
  db (exec (initializeUser deviceName) w) = db w
  /\ calls (eff (exec (initializeUser deviceName) w)) = calls (eff w)
  /\ (mountedRef (userManager w) = true ->
      currentUser (userManager (exec (initializeUser deviceName) w)) = Some cached).
Proof.
  intros Hname Hknown Hhit.
  apply String.eqb_neq in Hname, Hknown. unfold exec.
  destruct (initializeUser deviceName w) as [res w'] eqn:Hrun.
  unfold initializeUser, users_select_by_device, users_insert, users_update_returning in Hrun.
  rewrite Hname, Hknown in Hrun.
  run_in Hrun.
  all: cbn [fst] in Hhit; try discriminate Hhit.
  all: injection Hhit as ->.
  all: injection Hrun as <- <-; cbn [snd db eff calls userManager currentUser].
  all: repeat split; try reflexivity; intros; congruence.
Qed.

Lemma filter_nil_existsb {A} (f : A -> bool) l :
  List.filter f l = [] -> existsb f l = false.
Proof.
  induction l as [| x l IH]; simpl; [reflexivity |].
  destruct (f x); [discriminate | exact IH].
Qed.

(** C5. For a resolved device label (not empty, not the placeholder)
    that no participant of the store carries and for which the cache
    holds no unexpired participant, [initializeUser], its two requests
    succeeding, inserts a participant with [is_online = true] and
    [penalty_count = 0] (the column's default) and caches it under the
    label's key with a ttl of two minutes.  A second [initializeUser] for
    the label at most two minutes later sends nothing to the store and
    takes the cached participant as the current user. *)
Theorem initializeUser_creates_and_caches :
  forall (deviceName : string) (w : World),
    deviceName <> "" ->
    deviceName <> "Unknown Device" ->
    (forall cached,
        fst (useCache.get (userCacheKey deviceName) (now (env w)) (userCache (userManager w)))
        <> Some (Some cached)) ->
    List.filter (fun u => String.eqb (device_name u) deviceName) (users (db w)) = [] ->
    fault (next_reply w) = None ->
    fault (hd ok_reply (tl (replies (env w)))) = None ->
    exists u,
      users (db (exec (initializeUser deviceName) w)) = users (db w) ++ [u]
      /\ device_name u = deviceName
      /\ is_online u = true
      /\ penalty_count u = 0
      /\ useCache.cacheRef (userCache (userManager (exec (initializeUser deviceName) w)))
           !! userCacheKey deviceName
         = Some (useCache.mkItem (Some u)
                   (now (env (exec (initializeUser deviceName) w))) (2 * 60 * 1000))
      /\ forall dt,
          dt <= 2 * 60 * 1000 ->
          db (exec (initializeUser deviceName)
                (at_time (now (env (exec (initializeUser deviceName) w)) + dt)
                   (exec (initializeUser deviceName) w)))
          = db (exec (initializeUser deviceName) w)
          /\ calls (eff (exec (initializeUser deviceName)
                           (at_time (now (env (exec (initializeUser deviceName) w)) + dt)
                              (exec (initializeUser deviceName) w))))
             = calls (eff (exec (initializeUser deviceName) w))
          /\ (mountedRef (userManager w) = true ->
              currentUser (userManager
                 (exec (initializeUser deviceName)
                    (at_time (now (env (exec (initializeUser deviceName) w)) + dt)
                       (exec (initializeUser deviceName) w))))
              = Some u).
Proof.
  intros deviceName w Hname Hknown Hmiss Hnew Hselect Hinsert.
  assert (Hfree := filter_nil_existsb _ _ Hnew).
  pose proof Hname as Hname'. pose proof Hknown as Hknown'.
  apply String.eqb_neq in Hname', Hknown'. unfold next_reply in *.
  assert (Hw : exists res w1, initializeUser deviceName w = (res, w1))
    by (destruct (initializeUser deviceName w); eauto).
  destruct Hw as (res & w1 & Hrun).
  replace (exec (initializeUser deviceName) w) with w1
    by (unfold exec; rewrite Hrun; reflexivity).
  unfold initializeUser, users_select_by_device, users_insert, users_update_returning in Hrun.
  rewrite Hname', Hknown' in Hrun.
  run_in Hrun.
  all: try (exfalso; eapply Hmiss; reflexivity).
  all: injection Hrun as <- <-; cbn [db env eff users now userManager userCache calls].
  all: eexists; (split; [reflexivity |]); cbn [device_name is_online penalty_count].
  all: do 3 (split; [reflexivity |]).
  all: split; [apply cache_lookup_set |].
  all: intros dt Hdt.
  all: match goal with
       | |- context [exec (initializeUser ?name) ?w2] =>
           destruct (initializeUser_cached name w2
                       (mkUser (next_uuid (db w)) deviceName 0
                          (now (env w) + elapsed (hd ok_reply (replies (env w))))
                          true
                          (now (env w) + elapsed (hd ok_reply (replies (env w)))
                           + elapsed (hd ok_reply (tl (replies (env w)))))
                          (now (env w) + elapsed (hd ok_reply (replies (env w)))
                           + elapsed (hd ok_reply (tl (replies (env w)))))))
             as (Hdb & Hcalls & Hcurrent); try assumption
       end.
  all: try (cbn [at_time with_env env now userManager userCache];
            rewrite cache_get_fresh; [reflexivity | unfold two_minutes; lia]).
  all: split; [exact Hdb |]; split; [exact Hcalls |]; intros Hmounted.
  all: try discriminate Hmounted.
  all: apply Hcurrent; reflexivity.
Qed.

Lemma initializeUser_creates_and_caches_witness :
  exists u,
    users (db (exec (initializeUser "DeviceC") (sample_world t_12_00 [] online)))
    = [alice; bob; u]
    /\ device_name u = "DeviceC" /\ is_online u = true /\ penalty_count u = 0
    /\ calls (eff (exec (initializeUser "DeviceC")
                     (at_time (t_12_00 + 60000)
                        (exec (initializeUser "DeviceC") (sample_world t_12_00 [] online)))))
       = calls (eff (exec (initializeUser "DeviceC") (sample_world t_12_00 [] online))).
Proof.
  destruct (initializeUser_creates_and_caches "DeviceC" (sample_world t_12_00 [] online))
    as (u & Husers & Hname & Honline & Hcount & _ & Hsecond).
  - discriminate.
  - discriminate.
  - intros cached. vm_compute. discriminate.
  - reflexivity.
  - reflexivity.
  - reflexivity.
  - exists u. repeat (split; [assumption |]).
    destruct (Hsecond 60000) as (_ & Hcalls & _); [lia |].
    exact Hcalls.
Defined.

(** ** Penalty reduction *)

Lemma same_penalty_data_refl d : same_penalty_data d d.
Proof. split; auto. Qed.

Lemma same_penalty_data_trans d1 d2 d3 :
  same_penalty_data d1 d2 -> same_penalty_data d2 d3 -> same_penalty_data d1 d3.
Proof. intros [Hp1 Hc1] [Hp2 Hc2]. split; [congruence | auto]. Qed.

Lemma status_update_keeps_penalty_data t uid patch d :
  set_penalty_count patch = None ->
  same_penalty_data d (update_users t uid patch d).
Proof.
  intros Hpatch. split; [reflexivity |].
  intros uid0 c. unfold stored_penalty_count, update_users. cbn [users].
  induction (users d) as [| u l IH]; cbn [map List.find]; [auto |].
  destruct (N.eqb (id u) uid) eqn:Hu; cbn [id apply_user_update];
    destruct (N.eqb (id u) uid0); auto.
  unfold apply_user_update. cbn. by rewrite Hpatch.
Qed.

Lemma new_user_keeps_penalty_data d u n :
  same_penalty_data d (mkDatabase (users d ++ [u]) (penalties d) (user_activity d) n).
Proof.
  split; [reflexivity |].
  intros uid c. unfold stored_penalty_count. cbn [users].
  induction (users d) as [| v l IH]; cbn [app List.find]; [discriminate |].
  destruct (N.eqb (id v) uid); auto.
Qed.

Lemma loadUsers_reads_only w res w' : loadUsers w = (res, w') -> db w' = db w.
Proof.
  intros Hrun. unfold loadUsers, users_select_all in Hrun.
  run_in Hrun.
  all: injection Hrun as <- <-; reflexivity.
Qed.

Lemma refreshUser_keeps_penalty_data deviceName w res w' :
  refreshUser deviceName w = (res, w') -> same_penalty_data (db w) (db w').
Proof.
  intros Hrun.
  unfold refreshUser, initializeUser, users_select_by_device, users_insert,
    users_update_returning in Hrun.
  run_in Hrun.
  all: injection Hrun as <- <-; cbn [db].
  all: first [ apply same_penalty_data_refl
             | by apply status_update_keeps_penalty_data
             | apply new_user_keeps_penalty_data ].
Qed.

Lemma latest_some rows : rows <> [] -> exists p, latest rows = Some p.
Proof.
  destruct rows as [| p rest]; [congruence |]. intros _. cbn [latest].
  destruct (latest rest) as [q |]; [| eauto].
  destruct (penalty_created_at q >? penalty_created_at p); eauto.
Qed.

Lemma latest_spec rows p :
  latest rows = Some p ->
  In p rows /\ forall q, In q rows -> penalty_created_at q <= penalty_created_at p.
Proof.
  revert p. induction rows as [| r rest IH]; intros p; cbn [latest]; [discriminate |].
  destruct (latest rest) as [q |] eqn:Hrest.
  - destruct (IH q eq_refl) as [Hin Hmax].
    destruct (Z.gtb_spec (penalty_created_at q) (penalty_created_at r)); intros [= <-].
    + split; [by right |]. intros x [<- | Hx]; [lia | auto].
    + split; [by left |]. intros x [<- | Hx]; [lia |]. specialize (Hmax x Hx). lia.
  - intros [= <-]. destruct rest as [| r' rest'].
    + split; [by left |]. intros x [<- | []]. lia.
    + exfalso. cbn [latest] in Hrest. destruct (latest rest') as [q |]; [| discriminate].
      destruct (penalty_created_at q >? penalty_created_at r'); discriminate.
Qed.

(** With unique ids, an update by id touches exactly one row. *)
Lemma update_by_id_one (f : Penalty -> Penalty) rows p :
  List.NoDup (map penalty_id rows) ->
  In p rows ->
  exists before after,
    rows = before ++ p :: after
    /\ map (fun q => if N.eqb (penalty_id q) (penalty_id p) then f q else q) rows
       = before ++ f p :: after.
Proof.
  intros Hunique Hin. apply in_split in Hin as (before & after & ->).
  exists before, after. split; [reflexivity |].
  rewrite map_app in Hunique. cbn [map] in Hunique.
  apply NoDup_remove in Hunique as [_ Hfresh].
  rewrite map_app. cbn [map]. rewrite N.eqb_refl.
  assert (Hkeep : forall l, ~ In (penalty_id p) (map penalty_id l) ->
            map (fun q => if N.eqb (penalty_id q) (penalty_id p) then f q else q) l = l).
  { induction l as [| q l IH]; cbn [map]; [reflexivity |]. intros Hnot.
    destruct (N.eqb_spec (penalty_id q) (penalty_id p)) as [Heq | Hne].
    - exfalso. apply Hnot. left. exact Heq.
    - rewrite IH; [reflexivity |]. intros Hl. apply Hnot. by right. }
  rewrite !Hkeep; [reflexivity | |].
  - intros Hl. apply Hfresh. apply in_or_app. by right.
  - intros Hl. apply Hfresh. apply in_or_app. by left.
Qed.

(** C3, as the code has it.  With a [penalty_count] of 0 in the row it
    is given, [reducePenalty] sends nothing to the store and changes no
    table.  With a count [k > 0], a resolved current user, the dialog
    confirmed, the three requests succeeding and at least one active
    record of the participant in the store, it resolves exactly one
    record: an active one of that participant with the greatest
    [created_at], which gets [removed_by] and [removed_at]; every other
    record is as it was; and the stored count is [k - 1], which is not
    negative.  With a count [k > 0] and no active record of the
    participant in the store, the confirmed dialog leads to the look-up
    alone: it finds nothing, the alert 'No penalties found to reduce' is
    shown, and no table, no state of the hooks and nothing in the console
    changes. *)
Theorem reducePenalty_resolves_latest :
  (forall (deviceName : string) (user : User) (pressed : AlertButton) (w : World),
      penalty_count user = 0 ->
      db (exec (reducePenalty deviceName user pressed) w) = db w
      /\ calls (eff (exec (reducePenalty deviceName user pressed) w)) = calls (eff w))
  /\ (forall (deviceName : string) (user reducer : User) (w : World),
      currentUser (userManager w) = Some reducer ->
      0 < penalty_count user ->
      fault (next_reply w) = None ->
      fault (hd ok_reply (tl (replies (env w)))) = None ->
      fault (hd ok_reply (tl (tl (replies (env w))))) = None ->
      user_exists (id user) (db w) = true ->
      List.NoDup (map penalty_id (penalties (db w))) ->
      List.filter (active_of (id user)) (penalties (db w)) <> [] ->
      exists before p after stamp,
        penalties (db w) = before ++ p :: after
        /\ active_of (id user) p = true
        /\ (forall q, In q (penalties (db w)) -> active_of (id user) q = true ->
                      penalty_created_at q <= penalty_created_at p)
        /\ penalties (db (exec (reducePenalty deviceName user Reduce) w))
           = before
             ++ mkPenalty (penalty_id p) (penalty_user_id p) (penalty_date p)
                  (Some (id reducer)) (Some stamp) (penalty_created_at p)
             :: after
        /\ stored_penalty_count (id user) (db (exec (reducePenalty deviceName user Reduce) w))
           = Some (penalty_count user - 1)
        /\ 0 <= penalty_count user - 1)
  /\ (forall (deviceName : string) (user reducer : User) (w : World),
      currentUser (userManager w) = Some reducer ->
      0 < penalty_count user ->
      fault (next_reply w) = None ->
      List.filter (active_of (id user)) (penalties (db w)) = [] ->
      let w' := exec (reducePenalty deviceName user Reduce) w in
      db w' = db w
      /\ calls (eff w') = calls (eff w) ++ [(PenaltiesSelectLatestActive (id user), next_reply w)]
      /\ alerts (eff w')
         = alerts (eff w)
           ++ [("Reduce Penalty", ("Reduce one penalty for " ++ device_name user ++ "?")%string);
               ("Error", "No penalties found to reduce")]
      /\ console (eff w') = console (eff w)
      /\ userManager w' = userManager w
      /\ settings w' = settings w).
Proof.
  split; [| split].
  - intros deviceName user pressed w Hzero. apply Z.eqb_eq in Hzero. unfold exec.
    destruct (reducePenalty deviceName user pressed w) as [res w'] eqn:Hrun.
    unfold reducePenalty in Hrun. run_in Hrun.
    all: injection Hrun as <- <-; split; reflexivity.
  - intros deviceName user reducer w Hme Hpos Hfind Hmark Hcount Huser Hunique Hsome.
    unfold next_reply in *.
    destruct (latest_some _ Hsome) as [p Hlatest].
    assert (Hk : (penalty_count user =? 0) = false) by (apply Z.eqb_neq; lia).
    unfold exec.
    destruct (reducePenalty deviceName user Reduce w) as [res w'] eqn:Hrun.
    unfold reducePenalty, penalties_select_latest_active, penalties_update, users_update in Hrun.
    run_in Hrun.
    all: injection Hrun as <- <-; cbn [snd db].
    all: apply loadUsers_reads_only in Heqp0; cbn [db] in Heqp0.
    all: try (apply refreshUser_keeps_penalty_data in Heqp1 as [Hrecords Hcounts];
              rewrite Heqp0 in Hrecords, Hcounts).
    all: destruct (latest_spec _ _ Hlatest) as [Hin Hmax];
         apply filter_In in Hin as [Hin Hactive].
    all: destruct (update_by_id_one
                     (apply_penalty_update
                        (mkPenaltyUpdate (Some (id reducer))
                           (Some (now (env w) + elapsed (hd ok_reply (replies (env w)))))))
                     (penalties (db w)) p Hunique Hin) as (before & after & Hsplit & Hmap).
    all: exists before, p, after, (now (env w) + elapsed (hd ok_reply (replies (env w)))).
    all: split; [exact Hsplit |]; split; [exact Hactive |].
    all: split; [intros q Hq Hqa; apply Hmax; apply filter_In; auto |].
    all: split; [rewrite ?Hrecords, ?Heqp0; cbn [update_users penalties]; exact Hmap |].
    all: split; [| lia].
    all: try apply Hcounts; rewrite ?Heqp0.
    all: etransitivity;
         [apply stored_after_update; [reflexivity | exact Huser] | f_equal; lia].
  - intros deviceName user reducer w Hme Hpos Hfind Hnone. cbv zeta.
    unfold next_reply in *.
    assert (Hk : (penalty_count user =? 0) = false) by (apply Z.eqb_neq; lia).
    unfold exec.
    destruct (reducePenalty deviceName user Reduce w) as [res w'] eqn:Hrun.
    unfold reducePenalty, penalties_select_latest_active, penalties_update, users_update in Hrun.
    run_in Hrun.
    all: try match goal with
             | Hrow : option_list (latest []) = _ :: _ |- _ => discriminate Hrow
             end.
    injection Hrun as <- <-; cbn [snd db eff calls alerts console userManager settings].
    repeat split. by rewrite <- app_assoc.
Qed.

Lemma reducePenalty_resolves_latest_witness :
  exists stamp,
    penalties (db (exec (reducePenalty "DeviceB" alice Reduce) penalized_world))
    = [mkPenalty 7%N 1%N 0 None None 100;
       mkPenalty 8%N 1%N 1 (Some (id bob)) (Some stamp) 200;
       mkPenalty 9%N 2%N 1 None None 300]
    /\ stored_penalty_count (id alice)
         (db (exec (reducePenalty "DeviceB" alice Reduce) penalized_world))
       = Some (5 - 1).
Proof.
  destruct reducePenalty_resolves_latest as (_ & Hreduce & _).
  destruct (Hreduce "DeviceB" alice bob penalized_world)
    as (before & p & after & stamp & Hsplit & Hactive & Hmax & Hpen & Hcount & _).
  - reflexivity.
  - reflexivity.
  - reflexivity.
  - reflexivity.
  - reflexivity.
  - reflexivity.
  - cbn. repeat constructor; cbn; intuition discriminate.
  - discriminate.
  - exists stamp. split; [| exact Hcount].
    rewrite Hpen. clear Hpen Hcount.
    change (penalties (db penalized_world)) with sample_penalties in Hsplit, Hmax.
    unfold sample_penalties in Hsplit, Hmax.
    destruct before as [| b0 [| b1 [| b2 before]]]; cbn [app] in Hsplit.
    + injection Hsplit as <- <-. exfalso.
      assert (Hlate : 200 <= 100)
        by (apply (Hmax (mkPenalty 8%N 1%N 1 None None 200));
            [right; left; reflexivity | reflexivity]).
      lia.
    + injection Hsplit as <- <- <-. reflexivity.
    + injection Hsplit as <- <- <- <-. discriminate Hactive.
    + exfalso. injection Hsplit as _ _ _ Hrest. destruct before; discriminate Hrest.
Defined.

(** C3 does not hold as stated: a positive count does not make the
    reduction happen.  [bob] is the current participant; [alice] has a
    [penalty_count] of 5 and no active penalty record; the dialog is
    confirmed.  The look-up finds no row, the screen alerts "No penalties
    found to reduce", no record is resolved and the count stays 5. *)
Lemma reducePenalty_without_active_record :
  let w := sample_world t_12_00 [] online in
  let w' := exec (reducePenalty "DeviceB" alice Reduce) w in
  penalty_count alice = 5
  /\ currentUser (userManager w) = Some bob
  /\ id alice <> id bob
  /\ db w' = db w
  /\ stored_penalty_count (id alice) (db w') = Some 5
  /\ stored_penalty_count (id alice) (db w') <> Some (5 - 1)
  /\ calls (eff w') = [(PenaltiesSelectLatestActive (id alice), ok_reply)]
  /\ alerts (eff w')
     = [("Reduce Penalty", "Reduce one penalty for DeviceA?");
        ("Error", "No penalties found to reduce")].
Proof. vm_compute. repeat split; discriminate. Qed.

(** * Further properties *)

(** ** The cache beyond set-then-get *)

(** X1. After [remove(k)] the key reads [null] at any time and nothing
    is stored under it; every other key reads as before; after [clear()]
    every key reads [null]. *)
Theorem cache_remove_clear {T : Type} (h : useCache.Hook T) (k : string) (now : Z) :
  fst (useCache.get k now (useCache.remove k h)) = None
  /\ useCache.cacheRef (useCache.remove k h) !! k = None
  /\ (forall k', k' <> k ->
        fst (useCache.get k' now (useCache.remove k h)) = fst (useCache.get k' now h))
  /\ fst (useCache.get k now (useCache.clear h)) = None
  /\ useCache.cacheRef (useCache.clear h) = ∅.
Proof.
  unfold useCache.get, useCache.remove, useCache.clear. cbn [useCache.cacheRef].
  rewrite lookup_delete_eq, lookup_empty. repeat split.
  intros k' Hne. rewrite lookup_delete_ne by congruence.
  destruct (useCache.cacheRef h !! k') as [item |]; [| reflexivity].
  by destruct (now - useCache.timestamp item >? useCache.ttl item).
Qed.

Lemma cache_remove_clear_witness :
  fst (useCache.get "b" 5 (useCache.remove "a"
         (useCache.set "b" 2%Z 10 0 (useCache.set "a" 1%Z 10 0 useCache.initial))))
  = Some 2%Z.
Proof.
  destruct (cache_remove_clear
              (useCache.set "b" 2%Z 10 0 (useCache.set "a" 1%Z 10 0 useCache.initial))
              "a" 5) as (_ & _ & Hother & _).
  rewrite Hother by discriminate. reflexivity.
Defined.

(** X2. Keys do not interfere: what [get(k')] returns is changed neither
    by a [set] on another key nor by a [get] on another key, even one that
    evicts its entry. *)
Theorem cache_keys_independent {T : Type} (h : useCache.Hook T) (k k' : string) (v : T)
    (t now now' : Z) :
  k' <> k ->
  fst (useCache.get k' now' (useCache.set k v t now h)) = fst (useCache.get k' now' h)
  /\ fst (useCache.get k' now' (snd (useCache.get k now h))) = fst (useCache.get k' now' h).
Proof.
  intros Hne. split.
  - unfold useCache.get, useCache.set. cbn [useCache.cacheRef].
    rewrite lookup_insert_ne by congruence.
    destruct (useCache.cacheRef h !! k') as [item |]; [| reflexivity].
    by destruct (now' - useCache.timestamp item >? useCache.ttl item).
  - unfold useCache.get at 2.
    destruct (useCache.cacheRef h !! k) as [item |]; [| reflexivity].
    destruct (now - useCache.timestamp item >? useCache.ttl item); [| reflexivity].
    cbn [snd]. unfold useCache.get. cbn [useCache.cacheRef].
    rewrite lookup_delete_ne by congruence.
    destruct (useCache.cacheRef h !! k') as [item' |]; [| reflexivity].
    by destruct (now' - useCache.timestamp item' >? useCache.ttl item').
Qed.

Lemma cache_keys_independent_witness :
  fst (useCache.get "b" 5 (useCache.set "a" 1%Z 10 3 (useCache.set "b" 2%Z 10 0 useCache.initial)))
  = Some 2%Z.
Proof.
  destruct (cache_keys_independent (useCache.set "b" 2%Z 10 0 useCache.initial)
              "a" "b" 1%Z 10 3 5) as [Hset _]; [discriminate |].
  rewrite Hset. reflexivity.
Defined.




(** ** The monitoring hook's timers *)

Lemma tracked_cleared tm :
  timers_tracked tm ->
  let tm1 := match pingIntervalRef tm with
             | Some h => clearInterval h tm
             | None => tm
             end in
  intervals (match penaltyCheckRef tm1 with
             | Some h => clearInterval h tm1
             | None => tm1
             end) = [].
Proof.
  destruct tm as [p c ivs n l]. unfold timers_tracked. cbn [intervals pingIntervalRef penaltyCheckRef].
  intros [Hrefs _].
  destruct p as [p |], c as [c |]; cbn [option_list option_rect app] in Hrefs;
    cbn [clearInterval intervals pingIntervalRef penaltyCheckRef].
  - destruct ivs as [| [a ?] [| [b ?] [| ? ?]]]; try discriminate Hrefs.
    cbn in Hrefs. injection Hrefs as -> ->. cbn [List.filter fst].
    rewrite Nat.eqb_refl. cbn [negb].
    destruct (Nat.eqb c p) eqn:Hcp; cbn [negb List.filter fst]; [reflexivity |].
    by rewrite Nat.eqb_refl.
  - destruct ivs as [| [a ?] [| ? ?]]; try discriminate Hrefs.
    cbn in Hrefs. injection Hrefs as ->. cbn [List.filter fst].
    by rewrite Nat.eqb_refl.
  - destruct ivs as [| [a ?] [| ? ?]]; try discriminate Hrefs.
    cbn in Hrefs. injection Hrefs as ->. cbn [List.filter fst].
    by rewrite Nat.eqb_refl.
  - by destruct ivs.
Qed.

Lemma start_timers_shape tm :
  timers_tracked tm ->
  start_timers tm
  = mkTimers (Some (next_handle tm)) (Some (S (next_handle tm)))
      [(next_handle tm, (PingTask, 30000)); (S (next_handle tm), (PenaltyCheckTask, 120000))]
      (S (S (next_handle tm))) (appStateListener tm).
Proof.
  intros Htracked. pose proof (tracked_cleared tm Htracked) as Hclear.
  unfold start_timers, setInterval.
  destruct tm as [p c ivs n l].
  destruct p as [p |], c as [c |];
    cbn [clearInterval intervals pingIntervalRef penaltyCheckRef next_handle appStateListener] in *;
    rewrite Hclear; reflexivity.
Qed.

Lemma stopMonitoring_shape tm :
  timers_tracked tm ->
  stopMonitoring tm = mkTimers None None [] (next_handle tm) (appStateListener tm).
Proof.
  intros Htracked. pose proof (tracked_cleared tm Htracked) as Hclear.
  unfold stopMonitoring.
  destruct tm as [p c ivs n l].
  destruct p as [p |], c as [c |];
    cbn [clearInterval intervals pingIntervalRef penaltyCheckRef next_handle appStateListener] in *;
    rewrite ?Hclear; try reflexivity.
Qed.

Lemma timers_after_tracked ev tm :
  timers_tracked tm -> timers_tracked (timers_after ev tm).
Proof.
  intros Htracked.
  assert (Hstart : timers_tracked (start_timers tm)).
  { rewrite start_timers_shape by assumption. split; [reflexivity |].
    cbn [intervals next_handle]. repeat constructor; cbn [fst]; lia. }
  assert (Hstop : timers_tracked (stopMonitoring tm)).
  { rewrite stopMonitoring_shape by assumption. split; [reflexivity | constructor]. }
  destruct ev as [| | s]; cbn [timers_after]; try assumption.
  destruct (String.eqb s "active"); [assumption |].
  destruct (String.eqb s "background" || String.eqb s "inactive"); assumption.
Qed.

(** X4. Timers never pile up. Whatever sequence of starts, stops and
    app-state changes the hook goes through, every registered interval is
    held by one of the two refs; a start leaves exactly the 30 s ping and
    the 120 s penalty check, whatever ran before; a stop (and the states
    [background] and [inactive]) leaves none; an app state other than
    [active], [background] and [inactive] changes nothing. *)
Theorem timers_never_leak (evs : list MonitorEvent) :
  let tm := fold_left (fun t ev => timers_after ev t) evs no_timers in
  timers_tracked tm
  /\ map snd (intervals (timers_after Start tm))
     = [(PingTask, 30000); (PenaltyCheckTask, 120000)]
  /\ map snd (intervals (timers_after (AppState "active") tm))
     = [(PingTask, 30000); (PenaltyCheckTask, 120000)]
  /\ intervals (timers_after Stop tm) = []
  /\ intervals (timers_after (AppState "background") tm) = []
  /\ intervals (timers_after (AppState "inactive") tm) = []
  /\ (forall s, s <> "active" -> s <> "background" -> s <> "inactive" ->
        timers_after (AppState s) tm = tm).
Proof.
  cbv zeta.
  assert (Htracked : timers_tracked (fold_left (fun t ev => timers_after ev t) evs no_timers)).
  { assert (Hinit : timers_tracked no_timers) by (split; [reflexivity | constructor]).
    revert Hinit. generalize no_timers. induction evs as [| ev evs IH]; intros tm Htm.
    - exact Htm.
    - cbn [fold_left]. apply IH. by apply timers_after_tracked. }
  split; [exact Htracked |].
  cbn [timers_after String.eqb Ascii.eqb Bool.eqb orb].
  rewrite start_timers_shape, stopMonitoring_shape by assumption.
  repeat split.
  intros s Ha Hb Hi.
  apply String.eqb_neq in Ha, Hb, Hi. by rewrite Ha, Hb, Hi.
Qed.

Lemma timers_never_leak_witness :
  timers_after (AppState "extension")
    (fold_left (fun t ev => timers_after ev t) [Start; AppState "active"; Start] no_timers)
  = mkTimers (Some 5%nat) (Some 6%nat)
      [(5%nat, (PingTask, 30000)); (6%nat, (PenaltyCheckTask, 120000))] 7 false.
Proof.
  destruct (timers_never_leak [Start; AppState "active"; Start]) as (_ & _ & _ & _ & _ & _ & Hother).
  rewrite Hother by discriminate. reflexivity.
Defined.

(** ** What a tick may touch *)

Lemma only_own_rows_refl uid d : only_own_rows uid d d.
Proof.
  repeat split; exists []; (split; [symmetry; apply app_nil_r | constructor]).
Qed.

Lemma only_own_rows_trans uid d1 d2 d3 :
  only_own_rows uid d1 d2 -> only_own_rows uid d2 d3 -> only_own_rows uid d1 d3.
Proof.
  intros (Hu & (a & Ha & Fa) & (p & Hp & Fp)) (Hu' & (a' & Ha' & Fa') & (p' & Hp' & Fp')).
  split; [congruence |]. split.
  - exists (a ++ a'). split; [rewrite Ha', Ha; symmetry; apply app_assoc | by apply Forall_app].
  - exists (p ++ p'). split; [rewrite Hp', Hp; symmetry; apply app_assoc | by apply Forall_app].
Qed.

Lemma only_own_rows_update t uid patch d : only_own_rows uid d (update_users t uid patch d).
Proof.
  split.
  - unfold update_users. cbn [users]. rewrite map_map. apply map_ext. intros x.
    unfold others. destruct (N.eqb (id x) uid) eqn:Hx; [| by rewrite Hx].
    cbn [apply_user_update id]. by rewrite Hx.
  - split; exists []; (split; [symmetry; apply app_nil_r | constructor]).
Qed.

Lemma only_own_rows_penalty uid d day t n :
  only_own_rows uid d
    (mkDatabase (users d) (penalties d ++ [mkPenalty (next_uuid d) uid day None None t])
       (user_activity d) n).
Proof.
  split; [reflexivity |]. split.
  - eexists. split; [reflexivity | by repeat constructor].
  - exists []. split; [symmetry; apply app_nil_r | constructor].
Qed.

Lemma only_own_rows_ping uid d a b c t n :
  only_own_rows uid d
    (mkDatabase (users d) (penalties d)
       (user_activity d ++ [mkActivity (next_uuid d) uid a b c t]) n).
Proof.
  split; [reflexivity |]. split.
  - exists []. split; [symmetry; apply app_nil_r | constructor].
  - eexists. split; [reflexivity | by repeat constructor].
Qed.

Lemma db_eta d : mkDatabase (users d) (penalties d) (user_activity d) (next_uuid d) = d.
Proof. by destruct d. Qed.

Ltac own_rows :=
  first
    [ apply only_own_rows_refl
    | apply only_own_rows_penalty
    | apply only_own_rows_ping
    | apply only_own_rows_update
    | eapply only_own_rows_trans; [| first [ apply only_own_rows_update
                                            | apply only_own_rows_penalty
                                            | apply only_own_rows_ping ] ];
      own_rows ].

(** What one call of [addPenalty] can have done. *)
Lemma addPenalty_effects cu cb w res w' :
  addPenalty (Some cu) cb w = (res, w') ->
  monitoring w' = monitoring w
  /\ userManager w' = userManager w
  /\ settings w' = settings w
  /\ only_own_rows (id cu) (db w) (db w')
  /\ user_activity (db w') = user_activity (db w)
  /\ (penalties (db w') = penalties (db w)
      \/ exists p, penalties (db w') = penalties (db w) ++ [p])
  /\ (penaltyAdded (eff w') = penaltyAdded (eff w)
      \/ penaltyAdded (eff w') = S (penaltyAdded (eff w))
         /\ cb = true
         /\ (exists p, penalties (db w') = penalties (db w) ++ [p])
         /\ stored_penalty_count (id cu) (db w') = Some (penalty_count cu + 1)).
Proof.
  intros Hrun. unfold addPenalty, penalties_select_active, penalties_insert, users_update in Hrun.
  run_in Hrun.
  all: injection Hrun as <- <-; cbn [monitoring userManager settings db eff penaltyAdded].
  all: rewrite ?db_eta.
  all: repeat match goal with |- _ /\ _ => split end; try reflexivity.
  all: try own_rows.
  all: try (left; reflexivity).
  all: try (right; eexists; reflexivity).
  all: right; repeat split; try (eexists; reflexivity).
  all: apply stored_after_update; [reflexivity | assumption].
Qed.

(** The outcome of a write whose response is dropped still depends on
    the foreign key. *)
Ltac split_user_exists :=
  repeat match goal with
         | |- context [if user_exists ?u ?d then _ else _] => destruct (user_exists u d) eqn:?
         | H : context [if user_exists ?u ?d then _ else _] |- _ =>
             destruct (user_exists u d) eqn:?
         end;
  cbn [fst snd] in *.

(** What one call of [pingServer] can have done. *)
Lemma pingServer_effects cu cb w res w' :
  pingServer (Some cu) cb w = (res, w') ->
  userManager w' = userManager w
  /\ settings w' = settings w
  /\ isMountedRef (monitoring w') = isMountedRef (monitoring w)
  /\ only_own_rows (id cu) (db w) (db w')
  /\ (penalties (db w') = penalties (db w)
      \/ exists p, penalties (db w') = penalties (db w) ++ [p])
  /\ (penaltyAdded (eff w') = penaltyAdded (eff w)
      \/ penaltyAdded (eff w') = S (penaltyAdded (eff w))
         /\ cb = true
         /\ (exists p, penalties (db w') = penalties (db w) ++ [p])
         /\ stored_penalty_count (id cu) (db w') = Some (penalty_count cu + 1))
  /\ (isMountedRef (monitoring w) = true ->
      (now (env w) - lastPingRef (monitoring w) <? 15000) = false ->
      lastPingRef (monitoring w') = now (env w)).
Proof.
  intros Hrun.
  unfold pingServer, NetInfo_fetch, users_select_id, user_activity_insert, users_update in Hrun.
  run_in Hrun.
  all: injection Hrun as <- <-.
  all: split_user_exists.
  all: try match goal with
           | Hadd : addPenalty _ _ _ = (_, _) |- _ =>
               apply addPenalty_effects in Hadd
                 as (Hmon & Hum & Hset & Hown & Hact & Hpen & Hcb);
               unfold update_users in Hact, Hpen, Hcb;
               cbn [monitoring userManager settings db eff penaltyAdded
                    isMountedRef penalties user_activity] in Hmon, Hum, Hset, Hown, Hact, Hpen, Hcb
           end.
  all: cbn [monitoring userManager settings db eff penaltyAdded isMountedRef penalties].
  all: rewrite ?db_eta.
  all: repeat match goal with |- _ /\ _ => split end; try reflexivity; try congruence.
  all: try (rewrite Hmon; reflexivity).
  all: try first [ own_rows | eapply only_own_rows_trans; [| exact Hown]; own_rows ].
  all: try assumption.
  all: try (left; reflexivity).
  all: intros Hmounted Haccepted; cbn [lastPingRef]; try congruence.
  all: try (rewrite Hmon; reflexivity).
Qed.

Lemma penaltyCheck_effects cu cb w res w' :
  penaltyCheck (Some cu) cb w = (res, w') ->
  monitoring w' = monitoring w
  /\ userManager w' = userManager w
  /\ settings w' = settings w
  /\ only_own_rows (id cu) (db w) (db w')
  /\ (penalties (db w') = penalties (db w)
      \/ exists p, penalties (db w') = penalties (db w) ++ [p])
  /\ (penaltyAdded (eff w') = penaltyAdded (eff w)
      \/ penaltyAdded (eff w') = S (penaltyAdded (eff w))
         /\ cb = true
         /\ (exists p, penalties (db w') = penalties (db w) ++ [p])
         /\ stored_penalty_count (id cu) (db w') = Some (penalty_count cu + 1)).
Proof.
  unfold penaltyCheck, bind, isInPenaltyPeriod, gets, ret.
  destruct (isInPenaltyPeriodOn (newDate w)).
  - intros Hadd. apply addPenalty_effects in Hadd. tauto.
  - intros [= <- <-].
    repeat match goal with |- _ /\ _ => split end;
      first [ reflexivity | apply only_own_rows_refl | by left ].
Qed.

(** X5. What a tick of either interval itself writes, up to the moment
    it invokes [onPenaltyAdded] (its last step, when it gets that far):
    in [users] only the row of the participant the hook was rendered
    with changes, and [penalties] and [user_activity] only gain records
    of that participant.  A tick that does not invoke the callback also
    leaves the state of the participant hook and of the settings screen
    as it was; what the callback does once invoked ([refreshUser] on the
    home screen) belongs to the caller and is not part of the statement.
    Without a participant a tick changes nothing at all. *)
Theorem tick_touches_only_own_rows (task : TimerTask) (cb : bool) (w : World) :
  (forall u : User,
      let w' := exec (fire task (Some u) cb) w in
      only_own_rows (id u) (db w) (db w')
      /\ (penaltyAdded (eff w') = penaltyAdded (eff w) ->
          userManager w' = userManager w /\ settings w' = settings w))
  /\ fire task None cb w = (Returns tt, w).
Proof.
  split.
  - intros u. cbv zeta. unfold exec.
    destruct (fire task (Some u) cb w) as [res w'] eqn:Hrun. cbn [snd].
    destruct task; cbn [fire] in Hrun.
    + apply pingServer_effects in Hrun. tauto.
    + apply penaltyCheck_effects in Hrun. tauto.
  - destruct task; [reflexivity |].
    cbv [fire penaltyCheck bind isInPenaltyPeriod gets addPenalty ret].
    by destruct (isInPenaltyPeriodOn (newDate w)).
Qed.

Lemma tick_touches_only_own_rows_witness :
  let w := sample_world t_12_00 [] online in
  userManager (exec (fire PingTask (Some alice) true) w) = userManager w
  /\ map (others (id alice)) (users (db (exec (fire PingTask (Some alice) true) w)))
     = [None; Some bob].
Proof.
  cbv zeta.
  destruct (proj1 (tick_touches_only_own_rows PingTask true (sample_world t_12_00 [] online))
              alice) as [(Hrows & _) Hstate].
  split; [apply Hstate; reflexivity |].
  rewrite Hrows. reflexivity.
Defined.

(** X6. One tick adds at most one penalty record and fires
    [onPenaltyAdded] at most once; the callback is fired only if the
    caller passed one, a record was appended in this tick, and the count
    now stored for the participant is the count of the hook's snapshot
    plus one. *)
Theorem onPenaltyAdded_fired_once (task : TimerTask) (u : User) (cb : bool) (w : World) :
  let w' := exec (fire task (Some u) cb) w in
  (penalties (db w') = penalties (db w)
   \/ exists p, penalties (db w') = penalties (db w) ++ [p])
  /\ (penaltyAdded (eff w') = penaltyAdded (eff w)
      \/ penaltyAdded (eff w') = S (penaltyAdded (eff w))
         /\ cb = true
         /\ (exists p, penalties (db w') = penalties (db w) ++ [p])
         /\ stored_penalty_count (id u) (db w') = Some (penalty_count u + 1)).
Proof.
  cbv zeta. unfold exec.
  destruct (fire task (Some u) cb w) as [res w'] eqn:Hrun. cbn [snd].
  destruct task; cbn [fire] in Hrun.
  - apply pingServer_effects in Hrun. tauto.
  - apply penaltyCheck_effects in Hrun. tauto.
Qed.

Lemma pingServer_too_soon cu cb w :
  isMountedRef (monitoring w) = false \/ now (env w) - lastPingRef (monitoring w) < 15000 ->
  pingServer cu cb w = (Returns tt, w).
Proof.
  intros Hskip. destruct cu as [u |]; [| reflexivity].
  cbv [pingServer bind gets Date_now ret].
  destruct (isMountedRef (monitoring w)); cbn [negb]; [| reflexivity].
  destruct Hskip as [Hm | Hsoon]; [discriminate |].
  apply Z.ltb_lt in Hsoon. by rewrite Hsoon.
Qed.

(** X7. The 15 s guard of [pingServer]. A probe that is let through
    records the instant it started at, whatever its requests then do;
    until 15 s after that instant every further probe, and with it a
    further [startMonitoring] (the app coming to the foreground again),
    returns at once: no request, no write, no log. *)
Theorem pingServer_debounce (u : User) (cb : bool) (w : World) :
  isMountedRef (monitoring w) = true ->
  15000 <= now (env w) - lastPingRef (monitoring w) ->
  let w1 := exec (pingServer (Some u) cb) w in
  lastPingRef (monitoring w1) = now (env w)
  /\ forall (cu' : option User) (cb' : bool) (t : Z),
      t - now (env w) < 15000 ->
      pingServer cu' cb' (at_time t w1) = (Returns tt, at_time t w1)
      /\ forall tm,
          startMonitoring cu' cb' tm (at_time t w1) = (Returns (start_timers tm), at_time t w1).
Proof.
  intros Hmounted Hdue. cbv zeta. unfold exec.
  destruct (pingServer (Some u) cb w) as [res w1] eqn:Hrun. cbn [snd].
  apply pingServer_effects in Hrun as (_ & _ & _ & _ & _ & _ & Hlast).
  assert (Hstamp : lastPingRef (monitoring w1) = now (env w)).
  { apply Hlast; [exact Hmounted | by apply Z.ltb_ge]. }
  split; [exact Hstamp |].
  intros cu' cb' t Hsoon.
  assert (Hskip : pingServer cu' cb' (at_time t w1) = (Returns tt, at_time t w1)).
  { apply pingServer_too_soon. right.
    unfold at_time, with_env. cbn [env monitoring now]. by rewrite Hstamp. }
  split; [exact Hskip |].
  intros tm. unfold startMonitoring, bind. by rewrite Hskip.
Qed.

Lemma pingServer_debounce_witness :
  let w1 := exec (pingServer (Some alice) true) (sample_world t_22_31 [] online) in
  exec (pingServer (Some alice) true) (at_time (t_22_31 + 14999) w1) = at_time (t_22_31 + 14999) w1.
Proof.
  cbv zeta.
  destruct (pingServer_debounce alice true (sample_world t_22_31 [] online)) as [_ Hnext];
    [reflexivity | by apply Z.leb_le |].
  destruct (Hnext (Some alice) true (t_22_31 + 14999)) as [Hskip _]; [by apply Z.ltb_lt |].
  unfold exec at 1. by rewrite Hskip.
Defined.

Lemma addPenalty_unmounted cu cb w :
  isMountedRef (monitoring w) = false -> addPenalty cu cb w = (Returns tt, w).
Proof.
  intros Hm. destruct cu as [u |]; [| reflexivity].
  cbv [addPenalty bind isInPenaltyPeriod gets ret]. rewrite Hm.
  by destruct (isInPenaltyPeriodOn (newDate w)).
Qed.

Lemma fire_unmounted task cu cb w :
  isMountedRef (monitoring w) = false -> fire task cu cb w = (Returns tt, w).
Proof.
  intros Hm. destruct task; cbn [fire].
  - apply pingServer_too_soon. by left.
  - cbv [penaltyCheck bind isInPenaltyPeriod gets ret].
    destruct (isInPenaltyPeriodOn (newDate w)); [| reflexivity].
    by apply addPenalty_unmounted.
Qed.

(** X8. The effect's cleanup silences the hook: it clears both
    intervals, removes the app-state listener and marks the hook
    unmounted, after which a tick that still arrives (of either interval,
    with any props, at any time) does nothing.  And an effect that runs
    without a participant starts nothing: no interval, no listener, no
    request. *)
Theorem unmounted_hook_is_silent (tm : Timers) (w : World) :
  timers_tracked tm ->
  (exists tm' w1,
      monitoringCleanup tm w = (Returns tm', w1)
      /\ intervals tm' = []
      /\ appStateListener tm' = false
      /\ db w1 = db w
      /\ calls (eff w1) = calls (eff w)
      /\ forall task cu cb t, fire task cu cb (at_time t w1) = (Returns tt, at_time t w1))
  /\ (forall cb,
        completion (monitoringEffect None cb tm) w = Returns tm
        /\ db (exec (monitoringEffect None cb tm) w) = db w
        /\ calls (eff (exec (monitoringEffect None cb tm) w)) = calls (eff w)).
Proof.
  intros Htracked. split; [| by intros cb].
  eexists _, _. split; [reflexivity |].
  rewrite stopMonitoring_shape by assumption.
  repeat split.
  intros task cu cb t. by apply fire_unmounted.
Qed.

Lemma unmounted_hook_is_silent_witness :
  exists tm' w1,
    monitoringCleanup (start_timers no_timers) (sample_world t_22_31 [] online) = (Returns tm', w1)
    /\ intervals tm' = []
    /\ exec (fire PenaltyCheckTask (Some alice) true) (at_time (t_22_31 + 120000) w1)
       = at_time (t_22_31 + 120000) w1.
Proof.
  destruct (unmounted_hook_is_silent (start_timers no_timers) (sample_world t_22_31 [] online))
    as [(tm' & w1 & Hrun & Hnone & _ & _ & _ & Hsilent) _].
  { split; [reflexivity | repeat constructor]. }
  exists tm', w1. repeat split; [exact Hrun | exact Hnone |].
  unfold exec. by rewrite Hsilent.
Defined.

(** X9. A penalty record is added by a probe only when the device
    reported a reachable connection, the connectivity check resolved and
    the existence read came back without error: a participant the probe
    could not reach is never penalised by it. *)
Theorem pingServer_penalises_only_when_reached (u : User) (cb : bool) (w : World) :
  penalties (db (exec (pingServer (Some u) cb) w)) <> penalties (db w) ->
  truthy (isConnected (netinfo (env w))) && truthy (isInternetReachable (netinfo (env w))) = true
  /\ fault (next_reply w) = None
  /\ probe_succeeds (id u) (hd ok_reply (tl (replies (env w)))) (db w) = true.
Proof.
  unfold exec. destruct (pingServer (Some u) cb w) as [res w'] eqn:Hrun. cbn [snd].
  unfold pingServer, NetInfo_fetch, users_select_id, user_activity_insert, users_update in Hrun.
  run_in Hrun.
  all: injection Hrun as <- <-; split_user_exists.
  all: cbn [db penalties]; unfold update_users; cbn [penalties].
  all: intros Hchanged; try (exfalso; apply Hchanged; reflexivity).
  all: unfold probe_succeeds, next_reply.
  all: repeat match goal with
              | Hf : fault _ = _ |- _ => rewrite Hf
              | Ht : truthy _ = _ |- _ => rewrite Ht
              end.
  all: match goal with
       | Hrows : map id _ = [_] |- _ => rewrite (probe_rows _ _ _ Hrows)
       end.
  all: by repeat split.
Qed.

Lemma pingServer_penalises_only_when_reached_witness :
  penalties (db (exec (pingServer (Some alice) true) (sample_world t_22_31 [] online))) <> []
  /\ probe_succeeds (id alice) ok_reply (db (sample_world t_22_31 [] online)) = true.
Proof.
  assert (Hadded : penalties (db (exec (pingServer (Some alice) true)
                                    (sample_world t_22_31 [] online)))
                   <> penalties (db (sample_world t_22_31 [] online)))
    by (vm_compute; discriminate).
  split; [exact Hadded |].
  exact (proj2 (proj2 (pingServer_penalises_only_when_reached alice true
                         (sample_world t_22_31 [] online) Hadded))).
Defined.

Lemma active_records_inserted uid day d t n us acts :
  List.filter (active_on uid day) (penalties d) = [] ->
  active_records uid day
    (mkDatabase us (penalties d ++ [mkPenalty (next_uuid d) uid day None None t]) acts n)
  = [mkPenalty (next_uuid d) uid day None None t].
Proof.
  intros Hnone. unfold active_records. cbn [penalties].
  rewrite List.filter_app, Hnone. cbn [List.filter app].
  unfold active_on, is_active. cbn [penalty_user_id penalty_date removed_by].
  by rewrite N.eqb_refl, Z.eqb_refl.
Qed.

(** X10. When the record of the day has been inserted and the write of
    the count then comes back with an error, [addPenalty] stops there: the
    record stays, no row of [users] has changed, the error is logged and
    the callback is not fired.  Every later call for the participant on
    that date finds the record and writes nothing, so the count is not
    caught up by a later tick. *)
Theorem addPenalty_count_write_not_retried (cu : User) (cb : bool) (w : World) (code : string) :
  isInPenaltyPeriodOn (newDate w) = true ->
  isMountedRef (monitoring w) = true ->
  fault (next_reply w) = None ->
  fault (hd ok_reply (tl (replies (env w)))) = None ->
  fault (hd ok_reply (tl (tl (replies (env w))))) = Some (ReturnsError code) ->
  user_exists (id cu) (db w) = true ->
  active_records (id cu) (isoDate (newDate w)) (db w) = [] ->
  let w1 := exec (addPenalty (Some cu) cb) w in
  (exists p,
      penalties (db w1) = penalties (db w) ++ [p]
      /\ active_records (id cu) (isoDate (newDate w)) (db w1) = [p])
  /\ users (db w1) = users (db w)
  /\ console (eff w1) = console (eff w) ++ [("Error adding penalty:", PostgrestError code)]
  /\ penaltyAdded (eff w1) = penaltyAdded (eff w)
  /\ forall (cu' : User) (cb' : bool) (t : Z),
      id cu' = id cu ->
      isoDate (newDate (at_time t w1)) = isoDate (newDate w) ->
      fault (next_reply (at_time t w1)) = None ->
      db (exec (addPenalty (Some cu') cb') (at_time t w1)) = db w1.
Proof.
  intros Hperiod Hmounted Hf0 Hf1 Hf2 Hexists Hnone. cbv zeta.
  change (exec (addPenalty (Some cu) cb) w) with (snd (addPenalty (Some cu) cb w)).
  destruct (addPenalty (Some cu) cb w) as [res w1] eqn:Hrun. cbn [snd].
  unfold active_records in Hnone.
  unfold addPenalty, penalties_select_active, penalties_insert, users_update in Hrun.
  unfold next_reply in Hf0.
  run_in Hrun; try congruence.
  injection Hrun as <- <-; cbn [db eff console penaltyAdded penalties users].
  pose proof (active_records_inserted (id cu) (isoDate (newDate w)) (db w)
                (now (env w) + elapsed (hd ok_reply (replies (env w)))
                 + elapsed (hd ok_reply (tl (replies (env w)))))
                (N.succ (next_uuid (db w))) (users (db w)) (user_activity (db w)) Hnone)
    as Hone.
  split; [eexists; split; [reflexivity | exact Hone] |].
  split; [reflexivity |]. split; [congruence |]. split; [reflexivity |].
  intros cu' cb' t Hid Hday Hok.
  apply addPenalty_existing; [exact Hok |].
  rewrite Hid, Hday. unfold at_time, with_env. cbn [db]. by rewrite Hone.
Qed.

Lemma addPenalty_count_write_not_retried_witness :
  let w := sample_world t_22_31 [ok_reply; ok_reply; mkReply 5 (Some (ReturnsError "57014"))]
             online in
  let w1 := exec (addPenalty (Some alice) true) w in
  length (penalties (db w1)) = 1%nat
  /\ stored_penalty_count (id alice) (db w1) = Some 5
  /\ stored_penalty_count (id alice)
       (db (exec (addPenalty (Some alice) true) (at_time (t_22_31 + 120000) w1))) = Some 5.
Proof.
  cbv zeta.
  destruct (addPenalty_count_write_not_retried alice true
              (sample_world t_22_31 [ok_reply; ok_reply; mkReply 5 (Some (ReturnsError "57014"))]
                 online) "57014")
    as ((p & Hadded & _) & Husers & _ & _ & Hlater); try reflexivity.
  split; [by rewrite Hadded |].
  split; [unfold stored_penalty_count; by rewrite Husers |].
  rewrite (Hlater alice true (t_22_31 + 120000)); reflexivity.
Defined.

(** ** The participant hook beyond the first launch *)

(** X11. [initializeUser] never throws.  With an unresolved device label
    it changes nothing.  Otherwise a mounted hook always ends with
    [loading = false], an unmounted one has its [currentUser] and
    [loading] left as they were, and either the console is untouched or
    exactly one entry 'Error initializing user:' was logged, in which
    case [currentUser] is unchanged. *)
Theorem initializeUser_settles (deviceName : string) (w : World) :
  let w' := exec (initializeUser deviceName) w in
  completion (initializeUser deviceName) w = Returns tt
  /\ (deviceName = "" \/ deviceName = "Unknown Device" -> w' = w)
  /\ (deviceName <> "" -> deviceName <> "Unknown Device" ->
      mountedRef (userManager w) = true -> loading (userManager w') = false)
  /\ (mountedRef (userManager w) = false ->
      currentUser (userManager w') = currentUser (userManager w)
      /\ loading (userManager w') = loading (userManager w))
  /\ (console (eff w') = console (eff w)
      \/ exists e,
          console (eff w') = console (eff w) ++ [("Error initializing user:", e)]
          /\ currentUser (userManager w') = currentUser (userManager w)).
Proof.
  cbv zeta. unfold exec, completion.
  destruct (initializeUser deviceName w) as [res w'] eqn:Hrun. cbn [fst snd].
  unfold initializeUser, users_select_by_device, users_update_returning, users_insert in Hrun.
  run_in Hrun.
  all: injection Hrun as <- <-.
  all: repeat match goal with a : unit |- _ => destruct a end.
  all: split; [reflexivity |].
  all: cbn [userManager eff console currentUser loading mountedRef].
  all: split;
    [ intros [E | E]; try reflexivity;
      match goal with
      | H : (?d =? ?s)%string = false, E : ?d = ?s |- _ =>
          apply String.eqb_neq in H; contradiction
      end |].
  all: split;
    [ intros Hn Hn' Hm;
      first [ reflexivity | discriminate Hm
            | match goal with
              | H : (_ =? _)%string = true |- _ => apply String.eqb_eq in H; contradiction
              end ] |].
  all: split; [intros Hm; first [discriminate Hm | split; reflexivity] |].
  all: first [ left; reflexivity | right; eexists; split; reflexivity ].
Qed.


Lemma initializeUser_settles_witness :
  loading (userManager (exec (initializeUser "DeviceA") (sample_world t_12_00 [] online))) = false.
Proof.
  destruct (initializeUser_settles "DeviceA" (sample_world t_12_00 [] online))
    as (_ & _ & Hloading & _).
  apply Hloading; [discriminate | discriminate | reflexivity].
Defined.

Lemma filter_id_updated t uid patch d :
  List.filter (fun x => N.eqb (id x) uid) (users (update_users t uid patch d))
  = map (apply_user_update t patch) (List.filter (fun x => N.eqb (id x) uid) (users d)).
Proof.
  unfold update_users. cbn [users].
  induction (users d) as [| x l IH]; [reflexivity |].
  cbn [map List.filter]. destruct (N.eqb (id x) uid) eqn:Hx.
  - cbn [apply_user_update id]. rewrite Hx. cbn [map]. by rewrite IH.
  - by rewrite Hx.
Qed.

Lemma stored_count_kept t uid patch d :
  set_penalty_count patch = None ->
  stored_penalty_count uid (update_users t uid patch d) = stored_penalty_count uid d.
Proof.
  intros Hkeep. unfold stored_penalty_count, update_users. cbn [users].
  induction (users d) as [| x l IH]; [reflexivity |].
  cbn [map List.find]. destruct (N.eqb (id x) uid) eqn:Hx.
  - cbn [apply_user_update id]. rewrite Hx. simpl. by rewrite Hkeep.
  - by rewrite Hx.
Qed.

Lemma stored_count_of_row uid d u :
  List.filter (fun x => N.eqb (id x) uid) (users d) = [u] ->
  stored_penalty_count uid d = Some (penalty_count u).
Proof.
  unfold stored_penalty_count. induction (users d) as [| x l IH]; [discriminate |].
  cbn [List.filter List.find]. destruct (N.eqb (id x) uid); [| exact IH].
  by intros [= ->].
Qed.

(** X12. A participant the store already knows is not created again.
    When the label is resolved, the cache has nothing for it, the store
    holds exactly one row with that label (and that id) and both calls
    succeed, [initializeUser] adds no row: it stamps [last_seen] and sets
    [is_online] on that row and leaves its [penalty_count], and every
    other row, as they are; the updated row is cached for two minutes and
    becomes [currentUser] of a mounted hook. *)
Theorem initializeUser_known_participant (deviceName : string) (u : User) (w : World) :
  deviceName <> "" ->
  deviceName <> "Unknown Device" ->
  (forall cached,
      fst (useCache.get (userCacheKey deviceName) (now (env w)) (userCache (userManager w)))
      <> Some (Some cached)) ->
  List.filter (fun x => String.eqb (device_name x) deviceName) (users (db w)) = [u] ->
  List.filter (fun x => N.eqb (id x) (id u)) (users (db w)) = [u] ->
  fault (next_reply w) = None ->
  fault (hd ok_reply (tl (replies (env w)))) = None ->
  let w' := exec (initializeUser deviceName) w in
  let seen := now (env w) + elapsed (next_reply w) in
  let u' := mkUser (id u) (device_name u) (penalty_count u) seen true (created_at u)
              (now (env w')) in
  users (db w')
  = map (fun x => if N.eqb (id x) (id u) then apply_user_update (now (env w'))
                       (mkUserUpdate None (Some seen) (Some true) None) x else x)
        (users (db w))
  /\ penalties (db w') = penalties (db w)
  /\ stored_penalty_count (id u) (db w') = Some (penalty_count u)
  /\ useCache.cacheRef (userCache (userManager w')) !! userCacheKey deviceName
     = Some (useCache.mkItem (Some u') (now (env w')) (2 * 60 * 1000))
  /\ (mountedRef (userManager w) = true -> currentUser (userManager w') = Some u').
Proof.
  intros Hname Hunknown Hmiss Hrow Hid Hf0 Hf1. cbv zeta. unfold exec.
  destruct (initializeUser deviceName w) as [res w'] eqn:Hrun. cbn [snd].
  apply String.eqb_neq in Hname, Hunknown.
  unfold next_reply in Hf0.
  unfold initializeUser, users_select_by_device, users_update_returning, users_insert in Hrun.
  run_in Hrun.
  all: try (exfalso; eapply Hmiss; reflexivity).
  all: match goal with
       | Hrows : List.filter _ (users (update_users _ _ _ _)) = _ |- _ =>
           rewrite filter_id_updated, Hid in Hrows; cbn [map] in Hrows;
           try discriminate Hrows; injection Hrows as <-
       end.
  all: injection Hrun as <- <-; cbn [db env eff users now userManager userCache currentUser].
  all: unfold next_reply.
  all: split; [reflexivity |].
  all: split; [reflexivity |].
  all: split; [rewrite stored_count_kept by reflexivity; by apply stored_count_of_row |].
  all: split; [apply cache_lookup_set |].
  all: intros Hm; first [reflexivity | discriminate Hm].
Qed.

Lemma initializeUser_known_participant_witness :
  users (db (exec (initializeUser "DeviceA") (sample_world t_12_00 [] online)))
  = [mkUser 1%N "DeviceA" 5 t_12_00 true 0 t_12_00; bob].
Proof.
  refine (proj1 (initializeUser_known_participant "DeviceA" alice
                   (sample_world t_12_00 [] online) _ _ _ _ _ _ _)).
  - discriminate.
  - discriminate.
  - intros cached. vm_compute. discriminate.
  - reflexivity.
  - reflexivity.
  - reflexivity.
  - reflexivity.
Defined.


(** X13. [refreshUser] goes past the cache.  For a resolved label the
    first thing it sends is the look-up of the participant by device
    label, however fresh the cached entry was; for an unresolved label it
    sends nothing and leaves the store alone. *)
Theorem refreshUser_bypasses_cache (deviceName : string) (w : World) :
  (deviceName <> "" -> deviceName <> "Unknown Device" ->
   exists rest,
     calls (eff (exec (refreshUser deviceName) w))
     = calls (eff w) ++ (UsersSelectByDevice deviceName, next_reply w) :: rest)
  /\ (deviceName = "" \/ deviceName = "Unknown Device" ->
      calls (eff (exec (refreshUser deviceName) w)) = calls (eff w)
      /\ db (exec (refreshUser deviceName) w) = db w).
Proof.
  unfold exec. destruct (refreshUser deviceName w) as [res w'] eqn:Hrun. cbn [snd].
  pose proof (cache_get_fresh (userCache (userManager w)) (userCacheKey deviceName)
                (@None User) 0 (now (env w)) (now (env w)) ltac:(lia)) as Hnull.
  unfold refreshUser, initializeUser, users_select_by_device, users_update_returning,
    users_insert in Hrun.
  run_in Hrun.
  all: injection Hrun as <- <-; cbn [eff calls db].
  all: split;
    [ intros Hn Hn';
      try match goal with
          | H : (_ =? _)%string = true |- _ => apply String.eqb_eq in H; contradiction
          end
    | intros [E | E];
      try match goal with
          | H : (?d =? ?s)%string = false, E : ?d = ?s |- _ =>
              apply String.eqb_neq in H; contradiction
          end ].
  all: try (split; reflexivity).
  all: unfold next_reply; eexists; rewrite <- ?app_assoc; cbn [app]; reflexivity.
Qed.

Lemma refreshUser_bypasses_cache_witness :
  let w1 := exec (initializeUser "DeviceA") (sample_world t_12_00 [] online) in
  calls (eff (exec (initializeUser "DeviceA") w1)) = calls (eff w1)
  /\ exists rest,
      calls (eff (exec (refreshUser "DeviceA") w1))
      = calls (eff w1) ++ (UsersSelectByDevice "DeviceA", ok_reply) :: rest.
Proof.
  split; [reflexivity |].
  apply (proj1 (refreshUser_bypasses_cache "DeviceA"
                  (exec (initializeUser "DeviceA") (sample_world t_12_00 [] online))));
    discriminate.
Defined.

(** X14. [updateUserStatus(isOnline)] for a participant of whom the
    store holds one row (which need not agree with the hook's snapshot
    any more), when the call succeeds: the stored row gets the flag and
    [last_seen], keeps its stored [penalty_count], and no other row and no
    penalty record changes; the updated row, as the store returns it, is
    cached for two minutes under the snapshot's label and becomes
    [currentUser] of a mounted hook, so that an [initializeUser] for that
    label within those two minutes sends nothing and yields the same
    row. *)
Theorem updateUserStatus_refreshes_cache (isOnline : bool) (cu row : User) (w : World) :
  currentUser (userManager w) = Some cu ->
  List.filter (fun x => N.eqb (id x) (id cu)) (users (db w)) = [row] ->
  fault (next_reply w) = None ->
  device_name cu <> "" ->
  device_name cu <> "Unknown Device" ->
  let w' := exec (updateUserStatus isOnline) w in
  let row' := mkUser (id row) (device_name row) (penalty_count row) (now (env w)) isOnline
                (created_at row) (now (env w')) in
  users (db w')
  = map (fun x => if N.eqb (id x) (id cu) then apply_user_update (now (env w'))
                       (mkUserUpdate None (Some (now (env w))) (Some isOnline) None) x else x)
        (users (db w))
  /\ penalties (db w') = penalties (db w)
  /\ stored_penalty_count (id cu) (db w) = Some (penalty_count row)
  /\ stored_penalty_count (id cu) (db w') = Some (penalty_count row)
  /\ useCache.cacheRef (userCache (userManager w')) !! userCacheKey (device_name cu)
     = Some (useCache.mkItem (Some row') (now (env w')) (2 * 60 * 1000))
  /\ (mountedRef (userManager w) = true -> currentUser (userManager w') = Some row')
  /\ forall dt,
      dt <= 2 * 60 * 1000 ->
      let w2 := exec (initializeUser (device_name cu)) (at_time (now (env w') + dt) w') in
      db w2 = db w'
      /\ calls (eff w2) = calls (eff w')
      /\ (mountedRef (userManager w) = true -> currentUser (userManager w2) = Some row').
Proof.
  intros Hme Hid Hf0 Hname Hunknown. cbv zeta.
  change (exec (updateUserStatus isOnline) w) with (snd (updateUserStatus isOnline w)).
  destruct (updateUserStatus isOnline w) as [res w'] eqn:Hrun. cbn [snd].
  unfold next_reply in Hf0.
  unfold updateUserStatus, users_update_returning in Hrun.
  run_in Hrun.
  all: match goal with
       | Hrows : List.filter _ (users (update_users _ _ _ _)) = _ |- _ =>
           rewrite filter_id_updated, Hid in Hrows; cbn [map] in Hrows;
           try discriminate Hrows; injection Hrows as <-
       end.
  all: injection Hrun as <- <-; cbn [db env eff users now userManager userCache currentUser
                                      mountedRef].
  all: split; [reflexivity |].
  all: split; [reflexivity |].
  all: split; [by apply stored_count_of_row |].
  all: split; [rewrite stored_count_kept by reflexivity; by apply stored_count_of_row |].
  all: split; [apply cache_lookup_set |].
  all: split; [intros Hm; first [reflexivity | discriminate Hm] |].
  all: intros dt Hdt.
  all: match goal with
       | |- context [exec (initializeUser ?name) ?w2] =>
           edestruct (initializeUser_cached name w2) as (Hdb & Hcalls & Hcurrent);
             [ exact Hname | exact Hunknown
             | cbn [at_time with_env env now userManager userCache];
               rewrite cache_get_fresh; [reflexivity | unfold two_minutes; lia]
             | ]
       end.
  all: split; [exact Hdb |]; split; [exact Hcalls |]; intros Hmounted.
  all: try discriminate Hmounted.
  all: apply Hcurrent; reflexivity.
Qed.

Lemma updateUserStatus_refreshes_cache_witness :
  let w := with_userManager
             (fun m => mkUserManager (Some alice_stale) (loading m) (mountedRef m) (userCache m))
             (sample_world t_12_00 [mkReply 40 None] online) in
  penalty_count alice_stale = 3
  /\ users (db (exec (updateUserStatus false) w))
     = [mkUser 1%N "DeviceA" 5 t_12_00 false 0 (t_12_00 + 40); bob]
  /\ currentUser (userManager (exec (updateUserStatus false) w))
     = Some (mkUser 1%N "DeviceA" 5 t_12_00 false 0 (t_12_00 + 40)).
Proof.
  cbv zeta. split; [reflexivity |].
  destruct (updateUserStatus_refreshes_cache false alice_stale alice
              (with_userManager
                 (fun m => mkUserManager (Some alice_stale) (loading m) (mountedRef m)
                             (userCache m))
                 (sample_world t_12_00 [mkReply 40 None] online)))
    as (Husers & _ & _ & _ & _ & Hcurrent & _).
  - reflexivity.
  - reflexivity.
  - reflexivity.
  - discriminate.
  - discriminate.
  - split; [rewrite Husers; reflexivity |].
    rewrite Hcurrent; reflexivity.
Defined.

(** X15. [updateUserStatus] without a participant does nothing.  With
    one, when the call fails (an error response or a rejected promise) the
    store, the cache and [currentUser] are as before and the failure is
    logged under 'Error updating user status:'; it never throws. *)
Theorem updateUserStatus_failure (isOnline : bool) (w : World) :
  completion (updateUserStatus isOnline) w = Returns tt
  /\ (currentUser (userManager w) = None -> exec (updateUserStatus isOnline) w = w)
  /\ (currentUser (userManager w) <> None ->
      fault (next_reply w) <> None ->
      let w' := exec (updateUserStatus isOnline) w in
      db w' = db w
      /\ userManager w' = userManager w
      /\ exists e, console (eff w') = console (eff w) ++ [("Error updating user status:", e)]).
Proof.
  unfold exec, completion, next_reply.
  destruct (updateUserStatus isOnline w) as [res w'] eqn:Hrun. cbn [fst snd].
  unfold updateUserStatus, users_update_returning in Hrun.
  run_in Hrun.
  all: injection Hrun as <- <-.
  all: repeat match goal with a : unit |- _ => destruct a end.
  all: split; [reflexivity |].
  all: split; [intros Hnone; first [reflexivity | congruence] |].
  all: intros Hsome Hfails; try congruence.
  all: cbn [db userManager eff console].
  all: split; [reflexivity |]; split; [by destruct (userManager w) |].
  all: eexists; reflexivity.
Qed.

Lemma updateUserStatus_failure_witness :
  let w := sample_world t_12_00 [mkReply 40 (Some Rejects)] online in
  db (exec (updateUserStatus true) w) = db w
  /\ console (eff (exec (updateUserStatus true) w))
     = [("Error updating user status:", Rejected)].
Proof.
  cbv zeta.
  destruct (updateUserStatus_failure true (sample_world t_12_00 [mkReply 40 (Some Rejects)] online))
    as (_ & _ & Hfail).
  destruct Hfail as (Hdb & _ & e & Hlog); [discriminate | discriminate |].
  split; [exact Hdb | reflexivity].
Defined.

(** ** The settings screen: loading the list *)

Lemma loadUsers_of_current_render w :
  loadUsers w = loadUsers_of_render (refreshing (settings w)) w.
Proof. reflexivity. Qed.

(** X16. Pull to refresh on the settings screen, from a render in which
    [refreshing] is false.  The [loadUsers] that [onRefresh] awaits still
    sees [refreshing = false], so while the cached list is no older than
    its minute it is shown again and no request is sent; only without a
    fresh cached list is the store queried (once).  Either way the store
    is left alone and [refreshing] and [loading] are false at the end. *)
Theorem settings_onRefresh_serves_cache (w : World) :
  refreshing (settings w) = false ->
  let w' := exec settings_onRefresh w in
  completion settings_onRefresh w = Returns tt
  /\ db w' = db w
  /\ refreshing (settings w') = false
  /\ settings_loading (settings w') = false
  /\ (forall cached,
        fst (useCache.get "users_list" (now (env w)) (listCache (settings w))) = Some cached ->
        calls (eff w') = calls (eff w) /\ users_state (settings w') = cached)
  /\ (fst (useCache.get "users_list" (now (env w)) (listCache (settings w))) = None ->
      calls (eff w') = calls (eff w) ++ [(UsersSelectAll, next_reply w)]).
Proof.
  intros Hrendered. cbv zeta. unfold exec, completion.
  destruct (settings_onRefresh w) as [res w'] eqn:Hrun. cbn [fst snd].
  unfold settings_onRefresh, loadUsers_of_render, setRefreshing, users_select_all in Hrun.
  run_in Hrun.
  all: injection Hrun as <- <-.
  all: repeat match goal with a : unit |- _ => destruct a end.
  all: cbn [db settings refreshing settings_loading users_state eff calls].
  all: do 4 (split; [reflexivity |]).
  all: split; [intros cached Hhit | intros Hmiss].
  all: try discriminate.
  all: try (injection Hhit as <-; split; reflexivity).
  all: reflexivity.
Qed.

Lemma settings_onRefresh_serves_cache_witness :
  let w1 := exec loadUsers (sample_world t_12_00 [] online) in
  let w2 := exec settings_onRefresh (at_time (t_12_00 + 59000) w1) in
  calls (eff w1) = [(UsersSelectAll, ok_reply)]
  /\ calls (eff w2) = calls (eff w1)
  /\ users_state (settings w2) = [alice; bob].
Proof.
  cbv zeta. split; [reflexivity |].
  destruct (settings_onRefresh_serves_cache
              (at_time (t_12_00 + 59000) (exec loadUsers (sample_world t_12_00 [] online))))
    as (_ & _ & _ & _ & Hcached & _); [reflexivity |].
  destruct (Hcached [alice; bob]) as [Hcalls Hshown]; [reflexivity |].
  split; [exact Hcalls | exact Hshown].
Defined.

(** X17. [loadUsers] never throws and never writes to the store.  In a
    render that is refreshing it queries the store whatever the cache
    holds.  When the query fails, the list on screen stays as it was, one
    entry 'Error loading users:' is logged and the alert 'Failed to load
    users' is shown; when it succeeds the list shown is the one cached for
    the next minute.  Outside a refresh [loading] is false at the end. *)
Theorem loadUsers_outcomes (w : World) :
  let w' := exec loadUsers w in
  completion loadUsers w = Returns tt
  /\ db w' = db w
  /\ (refreshing (settings w) = true ->
      calls (eff w') = calls (eff w) ++ [(UsersSelectAll, next_reply w)])
  /\ (refreshing (settings w) = false -> settings_loading (settings w') = false)
  /\ (calls (eff w') <> calls (eff w) ->
      (fault (next_reply w) <> None ->
       users_state (settings w') = users_state (settings w)
       /\ alerts (eff w') = alerts (eff w) ++ [("Error", "Failed to load users")]
       /\ exists e, console (eff w') = console (eff w) ++ [("Error loading users:", e)])
      /\ (fault (next_reply w) = None ->
          alerts (eff w') = alerts (eff w)
          /\ console (eff w') = console (eff w)
          /\ useCache.cacheRef (listCache (settings w')) !! "users_list"
             = Some (useCache.mkItem (users_state (settings w')) (now (env w')) (60 * 1000)))).
Proof.
  cbv zeta. unfold exec, completion, next_reply.
  destruct (loadUsers w) as [res w'] eqn:Hrun. cbn [fst snd].
  unfold loadUsers, users_select_all in Hrun.
  run_in Hrun.
  all: injection Hrun as <- <-.
  all: repeat match goal with a : unit |- _ => destruct a end.
  all: cbn [db settings refreshing settings_loading users_state eff calls alerts console
            listCache env now].
  all: do 2 (split; [reflexivity |]).
  all: split; [intros Hr; first [discriminate Hr | reflexivity] |].
  all: split; [intros Hr; first [discriminate Hr | reflexivity] |].
  all: intros Hsent; try (exfalso; apply Hsent; reflexivity).
  all: split; [intros Hfails | intros Hok]; try congruence.
  all: try (split; [reflexivity |]; split; [reflexivity |]; eexists; reflexivity).
  all: split; [reflexivity |]; split; [reflexivity |].
  all: apply cache_lookup_set.
Qed.

Lemma loadUsers_outcomes_witness :
  let w := sample_world t_12_00 [mkReply 20 (Some (ReturnsError "PGRST301"))] online in
  users_state (settings (exec loadUsers w)) = users_state (settings w)
  /\ alerts (eff (exec loadUsers w)) = [("Error", "Failed to load users")].
Proof.
  cbv zeta.
  destruct (loadUsers_outcomes (sample_world t_12_00 [mkReply 20 (Some (ReturnsError "PGRST301"))]
                                  online))
    as (_ & _ & _ & _ & Hsent).
  destruct Hsent as [Hfail _]; [discriminate |].
  destruct Hfail as (Hlist & Halert & _); [discriminate |].
  split; [exact Hlist | exact Halert].
Defined.

(** ** Reducing a penalty: the other paths *)

Lemma refreshUser_effects deviceName w res w' :
  refreshUser deviceName w = (res, w') ->
  res = Returns tt
  /\ settings w' = settings w
  /\ penalties (db w') = penalties (db w)
  /\ user_activity (db w') = user_activity (db w)
  /\ alerts (eff w') = alerts (eff w)
  /\ exists new,
      calls (eff w') = calls (eff w) ++ new
      /\ existsb is_list_query new = false.
Proof.
  intros Hrun.
  unfold refreshUser, initializeUser, users_select_by_device, users_update_returning,
    users_insert in Hrun.
  run_in Hrun.
  all: injection Hrun as <- <-; cbn [settings eff calls db alerts].
  all: repeat match goal with a : unit |- _ => destruct a end.
  all: do 5 (split; [reflexivity |]).
  all: eexists; split; [trace_suffix | reflexivity].
Qed.

Lemma loadUsers_never_throws w res w' : loadUsers w = (res, w') -> res = Returns tt.
Proof.
  intros Hrun. unfold loadUsers, users_select_all in Hrun. run_in Hrun.
  all: injection Hrun as <- <-.
  all: repeat match goal with a : unit |- _ => destruct a end; reflexivity.
Qed.

Lemma marks_keep_identity pid patch rows :
  map penalty_identity
    (map (fun p => if N.eqb (penalty_id p) pid then apply_penalty_update patch p else p) rows)
  = map penalty_identity rows.
Proof.
  rewrite map_map. apply map_ext. intros p. by destruct (N.eqb (penalty_id p) pid).
Qed.

(** X18. [reducePenalty] never throws, and it never adds or deletes a
    penalty record: whatever happens, the records keep their id,
    participant, date and creation time (only removal marks can change)
    and [user_activity] is untouched.  Without a current participant
    nothing happens at all; on Cancel only the confirmation has been
    shown: no request, no write. *)
Theorem reducePenalty_only_marks (deviceName : string) (user : User) (pressed : AlertButton)
    (w : World) :
  let w' := exec (reducePenalty deviceName user pressed) w in
  completion (reducePenalty deviceName user pressed) w = Returns tt
  /\ map penalty_identity (penalties (db w')) = map penalty_identity (penalties (db w))
  /\ user_activity (db w') = user_activity (db w)
  /\ (currentUser (userManager w) = None -> w' = w)
  /\ (pressed = Cancel -> db w' = db w /\ calls (eff w') = calls (eff w)).
Proof.
  cbv zeta. unfold exec, completion.
  destruct (reducePenalty deviceName user pressed w) as [res w'] eqn:Hrun. cbn [fst snd].
  unfold reducePenalty, penalties_select_latest_active, penalties_update, users_update in Hrun.
  run_in Hrun.
  all: injection Hrun as <- <-; cbn [db eff calls].
  all: repeat match goal with
              | Hload : loadUsers _ = (_, _) |- _ =>
                  pose proof (loadUsers_never_throws _ _ _ Hload);
                  apply loadUsers_reads_only in Hload; cbn [db] in Hload
              | Hrefresh : refreshUser _ _ = (_, _) |- _ =>
                  apply refreshUser_effects in Hrefresh as (? & _ & Hrecords & Hpings & _ & _)
              end.
  all: repeat match goal with a : unit |- _ => destruct a end.
  all: try congruence.
  all: split; [reflexivity |].
  all: split;
    [ rewrite ?Hrecords, ?Heqp0; unfold update_users; cbn [penalties];
      rewrite ?marks_keep_identity; reflexivity |].
  all: split; [rewrite ?Hpings, ?Heqp0; reflexivity |].
  all: split; [intros Hanon; first [reflexivity | discriminate Hanon] |].
  all: intros Hcancel; first [discriminate Hcancel | split; reflexivity].
Qed.

Lemma reducePenalty_only_marks_witness :
  exec (reducePenalty "DeviceB" alice Cancel) penalized_world
  = with_eff (fun o => mkEffects (calls o) (console o)
                         (alerts o ++ [("Reduce Penalty", "Reduce one penalty for DeviceA?")])
                         (penaltyAdded o)) penalized_world
  /\ db (exec (reducePenalty "DeviceB" alice Cancel) penalized_world) = db penalized_world.
Proof.
  split; [reflexivity |].
  apply (reducePenalty_only_marks "DeviceB" alice Cancel penalized_world). reflexivity.
Defined.


Lemma loadUsers_cached w cached :
  refreshing (settings w) = false ->
  fst (useCache.get "users_list" (now (env w)) (listCache (settings w))) = Some cached ->
  exists s, loadUsers w = (Returns tt, with_settings (fun _ => s) w)
            /\ users_state s = cached.
Proof.
  intros Hrendered Hhit.
  destruct (loadUsers w) as [res w'] eqn:Hrun.
  destruct (useCache.get "users_list" (now (env w)) (listCache (settings w))) as [o h] eqn:Hget.
  cbn [fst] in Hhit. subst o.
  unfold loadUsers in Hrun. run_in Hrun.
  injection Hrun as <- <-. eexists. split; reflexivity.
Qed.

(** X19. After a successful reduction the list on screen comes from the
    cache when it is still fresh.  If the three writes of [reducePenalty]
    succeed and, at the moment the list is reloaded, the cached list is no
    older than its minute (and no refresh is rendering), the list shown
    afterwards is the cached one and the store is not asked for the list
    again, although the stored count has just changed. *)
Theorem reducePenalty_shows_cached_list (deviceName : string) (user reducer : User)
    (cached : list User) (w : World) :
  currentUser (userManager w) = Some reducer ->
  penalty_count user <> 0 ->
  fault (next_reply w) = None ->
  fault (hd ok_reply (tl (replies (env w)))) = None ->
  fault (hd ok_reply (tl (tl (replies (env w))))) = None ->
  List.filter (active_of (id user)) (penalties (db w)) <> [] ->
  refreshing (settings w) = false ->
  fst (useCache.get "users_list"
         (now (env w) + elapsed (next_reply w) + elapsed (hd ok_reply (tl (replies (env w))))
          + elapsed (hd ok_reply (tl (tl (replies (env w))))))
         (listCache (settings w))) = Some cached ->
  let w' := exec (reducePenalty deviceName user Reduce) w in
  users_state (settings w') = cached
  /\ In ("Success", "Penalty reduced successfully!") (alerts (eff w'))
  /\ exists new,
      calls (eff w') = calls (eff w) ++ new
      /\ existsb is_list_query new = false.
Proof.
  intros Hme Hpos Hfind Hmark Hcount Hsome Hrendered Hhit. cbv zeta.
  unfold next_reply in *.
  destruct (latest_some _ Hsome) as [p Hlatest].
  apply Z.eqb_neq in Hpos.
  unfold exec.
  destruct (reducePenalty deviceName user Reduce w) as [res w'] eqn:Hrun. cbn [snd].
  unfold reducePenalty, penalties_select_latest_active, penalties_update, users_update in Hrun.
  run_in Hrun.
  all: match goal with
       | Hload : loadUsers ?w0 = (_, _) |- _ =>
           destruct (loadUsers_cached w0 cached) as (s & Hshown & Hlist);
             [ exact Hrendered | exact Hhit | ];
           rewrite Hshown in Hload; first [ discriminate Hload | injection Hload as <- <- ]
       end.
  all: match goal with
       | Hrefresh : refreshUser _ _ = (_, _) |- _ =>
           apply refreshUser_effects in Hrefresh
             as (Hres & Hsettings & _ & _ & Halerts & new & Hcalls & Hnone);
           cbn [with_settings settings eff calls alerts] in Hsettings, Hcalls, Halerts
       end.
  all: try discriminate Hres.
  injection Hrun as <- <-.
  split; [by rewrite Hsettings |].
  split; [rewrite Halerts; apply in_or_app; right; by left |].
  eexists. split; [rewrite Hcalls; rewrite <- !app_assoc; reflexivity |].
  cbn [app existsb]. exact Hnone.
Qed.

Lemma reducePenalty_shows_cached_list_witness :
  let w1 := exec loadUsers penalized_world in
  let w2 := exec (reducePenalty "DeviceB" alice Reduce) w1 in
  stored_penalty_count (id alice) (db w2) = Some 4
  /\ map penalty_count (users_state (settings w2)) = [5; 2].
Proof.
  cbv zeta. split; [reflexivity |].
  destruct (reducePenalty_shows_cached_list "DeviceB" alice bob [alice; bob]
              (exec loadUsers penalized_world)) as (Hshown & _);
    [ reflexivity | discriminate | reflexivity | reflexivity | reflexivity
    | discriminate | reflexivity | reflexivity | ].
  rewrite Hshown. reflexivity.
Defined.


(** X20. When the latest active record has been marked as removed and
    the write of the count then comes back with an error, [reducePenalty]
    stops there: the record stays marked, no row of [users] has changed
    (the participant keeps the old count), the failure is logged and the
    alert 'Failed to reduce penalty' is shown instead of the success
    alert, and neither the list nor the current participant is
    reloaded. *)
Theorem reducePenalty_count_write_fails (deviceName : string) (user reducer : User)
    (code : string) (w : World) :
  currentUser (userManager w) = Some reducer ->
  penalty_count user <> 0 ->
  fault (next_reply w) = None ->
  fault (hd ok_reply (tl (replies (env w)))) = None ->
  fault (hd ok_reply (tl (tl (replies (env w))))) = Some (ReturnsError code) ->
  List.filter (active_of (id user)) (penalties (db w)) <> [] ->
  let w' := exec (reducePenalty deviceName user Reduce) w in
  exists p,
    latest (List.filter (active_of (id user)) (penalties (db w))) = Some p
    /\ penalties (db w')
       = map (fun q => if N.eqb (penalty_id q) (penalty_id p)
                       then apply_penalty_update
                              (mkPenaltyUpdate (Some (id reducer))
                                 (Some (now (env w) + elapsed (next_reply w)))) q
                       else q)
             (penalties (db w))
    /\ users (db w') = users (db w)
    /\ length (calls (eff w')) = (length (calls (eff w)) + 3)%nat
    /\ console (eff w') = console (eff w) ++ [("Error reducing penalty:", PostgrestError code)]
    /\ alerts (eff w')
       = alerts (eff w)
         ++ [("Reduce Penalty", ("Reduce one penalty for " ++ device_name user ++ "?")%string);
             ("Error", "Failed to reduce penalty")].
Proof.
  intros Hme Hpos Hfind Hmark Hcount Hsome. cbv zeta.
  unfold next_reply in *.
  destruct (latest_some _ Hsome) as [p Hlatest].
  apply Z.eqb_neq in Hpos.
  unfold exec.
  destruct (reducePenalty deviceName user Reduce w) as [res w'] eqn:Hrun. cbn [snd].
  unfold reducePenalty, penalties_select_latest_active, penalties_update, users_update in Hrun.
  run_in Hrun; try congruence.
  injection Hrun as <- <-. cbn [db eff penalties users calls console alerts].
  exists p. split; [exact Hlatest |]. split; [reflexivity |]. split; [reflexivity |].
  split; [rewrite !length_app; cbn [length]; lia |].
  split; [congruence |].
  rewrite <- app_assoc. reflexivity.
Qed.

Lemma reducePenalty_count_write_fails_witness :
  let w := with_env (fun e => mkEnv (now e) (tz e)
                        [ok_reply; ok_reply; mkReply 0 (Some (ReturnsError "40001"))]
                        (netinfo e)) penalized_world in
  stored_penalty_count (id alice) (db (exec (reducePenalty "DeviceB" alice Reduce) w)) = Some 5
  /\ map is_active (penalties (db (exec (reducePenalty "DeviceB" alice Reduce) w)))
     = [true; false; true].
Proof.
  cbv zeta.
  destruct (reducePenalty_count_write_fails "DeviceB" alice bob "40001"
              (with_env (fun e => mkEnv (now e) (tz e)
                           [ok_reply; ok_reply; mkReply 0 (Some (ReturnsError "40001"))]
                           (netinfo e)) penalized_world))
    as (p & Hp & Hrecords & Husers & _);
    [ reflexivity | discriminate | reflexivity | reflexivity | reflexivity | discriminate | ].
  split.
  - unfold stored_penalty_count. rewrite Husers. reflexivity.
  - rewrite Hrecords. injection Hp as <-. reflexivity.
Defined.

(** ** The home screen *)

Ltac ssimpl_in H :=
  lazy [screen.exec screen.completion screen.bind screen.ret screen.throw screen.try_catch
        screen.try_finally screen.gets screen.modify screen.lift
        setVerseText setHasSubmittedToday setIsSubmitting
        getSubmissionCache setSubmissionCache verse_answered with_world
        console_error Alert_alert modify
        failed ok no_content single has_error next_reply
        with_db with_env with_eff] in H;
  cbn [world verses verse_calls verseText hasSubmittedToday isSubmitting submissionCache
       db env eff monitoring userManager settings
       now tz replies netinfo calls console alerts penaltyAdded
       currentUser loading mountedRef userCache
       users penalties user_activity next_uuid
       data error fst snd newDate epochMs tzOffsetMs
       negb orb andb hd tl elapsed fault
       String.eqb Ascii.eqb Bool.eqb] in H.

Section VerseRemote.
Context {A : Type} (rq : VerseRequest) (serve : Z -> Home -> Response A * Home).
Implicit Type h : Home.

Lemma verse_remote_ok h :
  fault (hd ok_reply (replies (env (world h)))) = None ->
  verse_remote rq serve h
  = (Returns (fst (serve (now (env (world h)) + elapsed (hd ok_reply (replies (env (world h)))))
                     (verse_answered rq h))),
     snd (serve (now (env (world h)) + elapsed (hd ok_reply (replies (env (world h)))))
            (verse_answered rq h))).
Proof.
  intros Hok. unfold verse_remote, next_reply. rewrite Hok.
  unfold verse_answered at 1, with_env, next_reply. cbn [world env now].
  by destruct (serve _ _).
Qed.

Lemma verse_remote_error h code :
  fault (hd ok_reply (replies (env (world h)))) = Some (ReturnsError code) ->
  verse_remote rq serve h = (Returns (failed code), verse_answered rq h).
Proof. intros Hf. unfold verse_remote, next_reply. by rewrite Hf. Qed.

Lemma verse_remote_rejects h :
  fault (hd ok_reply (replies (env (world h)))) = Some Rejects ->
  verse_remote rq serve h = (Throws Rejected, verse_answered rq h).
Proof. intros Hf. unfold verse_remote, next_reply. by rewrite Hf. Qed.

End VerseRemote.

Ltac known_reply := cbn [world env replies hd tl]; assumption.

Ltac sstep_in H :=
  lazymatch type of H with
  | ?X = _ =>
      head_stuck X ltac:(fun s =>
        lazymatch s with
        | (_, _) => fail
        | verse_remote ?rq ?serve ?h =>
            first
              [ rewrite (verse_remote_ok rq serve h) in H by known_reply
              | let Hf := fresh "Hfault" in
                destruct (fault (hd ok_reply (replies (env (world h))))) as [[?code|]|] eqn:Hf;
                [ rewrite (verse_remote_error rq serve h _ Hf) in H
                | rewrite (verse_remote_rejects rq serve h Hf) in H
                | rewrite (verse_remote_ok rq serve h Hf) in H ];
                cbn [world env replies hd tl] in Hf ]
        | _ =>
            first
              [ progress
                  (repeat match goal with
                          | Heq : ?l = _ |- _ =>
                              lazymatch Heq with H => fail | _ => idtac end;
                              match s with context [l] => rewrite Heq in H end
                          end)
              | destruct s eqn:? ]
        end)
  end;
  ssimpl_in H.

Ltac srun_in H := ssimpl_in H; repeat sstep_in H.

Lemma dayName_known (d : Date) : In (nth (Z.to_nat (getDay d)) dayNames "") dayNames.
Proof.
  assert (Hrange : 0 <= getDay d < 7) by (apply Z.mod_pos_bound; lia).
  assert (Hnat : (Z.to_nat (getDay d) < 7)%nat) by lia.
  destruct (Z.to_nat (getDay d)) as [| [| [| [| [| [| [| n]]]]]]]; [find_in .. | lia].
Qed.

(** X21. [submitVerse] sends its insert exactly when there is a
    participant, the text is not blank once trimmed, nothing was
    submitted today and the local time is before 22:30.  Otherwise it
    shows one alert and leaves the table, the requests, the text and the
    flags as they were.  The insert it sends carries the text trimmed as
    [String.prototype.trim] does (every ECMAScript white space and line
    terminator, ASCII or not), the UTC date and the name of the local day
    of the week, which is always one of the seven names. *)
Theorem submitVerse_guard (h : Home) :
  let now := newDate (world h) in
  let refused :=
    currentUser (userManager (world h)) = None
    \/ trim (verseText h) = []
    \/ hasSubmittedToday h = true
    \/ pastCutoff (getHours now) (getMinutes now) = true in
  (refused ->
   exists title message,
     submitVerse h = (Returns tt, with_world (exec (Alert_alert title message)) h))
  /\ (~ refused ->
      exists cu dayName,
        currentUser (userManager (world h)) = Some cu
        /\ In dayName dayNames
        /\ dayName = nth (Z.to_nat (getDay now)) dayNames ""
        /\ verse_calls (screen.exec submitVerse h)
           = verse_calls h
             ++ [(VersesInsert (id cu) (trim (verseText h)) dayName (isoDate now),
                  next_reply (world h))]).
Proof.
  cbv zeta. unfold screen.exec.
  destruct (submitVerse h) as [res h'] eqn:Hrun. cbn [snd].
  unfold submitVerse, verses_insert in Hrun.
  srun_in Hrun.
  all: injection Hrun as <- <-; split_user_exists; cbn [verse_calls].
  all: split;
    [ intros Hrefused;
      try (eexists _, _; destruct h; reflexivity)
    | intros Hsent;
      try (exfalso; apply Hsent; tauto) ].
  all: try (destruct Hrefused as [Hr | [Hr | [Hr | Hr]]]; congruence).
  all: eexists _, _; split; [reflexivity |]; split; [apply dayName_known |];
       split; reflexivity.
Qed.

Lemma submitVerse_guard_witness :
  let h := home_over (sample_world t_22_31 [] online) (utf16 "John 3:16") in
  exists title message,
    submitVerse h = (Returns tt, with_world (exec (Alert_alert title message)) h).
Proof.
  apply (proj1 (submitVerse_guard (home_over (sample_world t_22_31 [] online) (utf16 "John 3:16")))).
  right. right. right. reflexivity.
Defined.

(** X22. The refusal at 22:30 and the penalty window.  At every time of
    day at which [submitVerse] refuses for being too late the penalty
    window is open; the window is open while submissions are still
    accepted exactly from midnight to 05:30. *)
Theorem cutoff_within_penalty_window (hour minute : Z) :
  0 <= hour < 24 ->
  0 <= minute < 60 ->
  (pastCutoff hour minute = true -> isInPenaltyPeriodAt hour minute = true)
  /\ (isInPenaltyPeriodAt hour minute = true /\ pastCutoff hour minute = false
      <-> hour * 60 + minute <= 5 * 60 + 30)
  /\ (pastCutoff hour minute = true <-> 22 * 60 + 30 <= hour * 60 + minute).
Proof.
  intros Hh Hm. unfold pastCutoff, cutoffTime, isInPenaltyPeriodAt, penaltyStart, penaltyEnd.
  rewrite orb_true_iff, !Z.leb_le, Z.leb_gt. lia.
Qed.

Lemma cutoff_within_penalty_window_witness :
  isInPenaltyPeriodAt 23 15 = true /\ pastCutoff 5 0 = false.
Proof.
  destruct (cutoff_within_penalty_window 23 15) as (Hlate & _); [lia | lia |].
  destruct (cutoff_within_penalty_window 5 0) as (_ & Hearly & _); [lia | lia |].
  split; [by apply Hlate | apply Hearly; lia].
Defined.

Lemma submitVerse_already_submitted h :
  hasSubmittedToday h = true ->
  verses (screen.exec submitVerse h) = verses h
  /\ verse_calls (screen.exec submitVerse h) = verse_calls h.
Proof.
  intros Hdone. unfold screen.exec.
  destruct (submitVerse h) as [res h'] eqn:Hrun. cbn [snd].
  unfold submitVerse, verses_insert in Hrun.
  srun_in Hrun.
  all: injection Hrun as <- <-; split; reflexivity.
Qed.

Lemma checkTodaySubmission_cached cu b h :
  currentUser (userManager (world h)) = Some cu ->
  fst (useCache.get (verseCacheKey (id cu) (isoDate (newDate (world h))))
         (now (env (world h))) (submissionCache h)) = Some b ->
  verse_calls (screen.exec checkTodaySubmission h) = verse_calls h
  /\ verses (screen.exec checkTodaySubmission h) = verses h
  /\ hasSubmittedToday (screen.exec checkTodaySubmission h) = b.
Proof.
  intros Hme Hhit. unfold screen.exec.
  destruct (checkTodaySubmission h) as [res h'] eqn:Hrun. cbn [snd].
  destruct (useCache.get (verseCacheKey (id cu) (isoDate (newDate (world h))))
              (now (env (world h))) (submissionCache h)) as [o c] eqn:Hget.
  cbn [fst] in Hhit. subst o.
  unfold checkTodaySubmission in Hrun.
  srun_in Hrun.
  injection Hrun as <- <-. repeat split.
Qed.

(** X23. A submission that goes through.  With a participant the store
    knows, a text that is not blank, nothing submitted today, a local time
    before 22:30 and an insert that succeeds, [submitVerse] appends one
    verse (the participant's, with the trimmed text, the UTC date and the
    local day name), clears the text, sets [hasSubmittedToday], ends with
    [isSubmitting = false] and shows the success alert.  After that a
    second [submitVerse] is refused without a request, and a
    [checkTodaySubmission] within five minutes on the same date answers
    from the cache: no request, and the flag stays set. *)
Theorem submitVerse_succeeds (cu : User) (h : Home) :
  currentUser (userManager (world h)) = Some cu ->
  trim (verseText h) <> [] ->
  hasSubmittedToday h = false ->
  pastCutoff (getHours (newDate (world h))) (getMinutes (newDate (world h))) = false ->
  fault (next_reply (world h)) = None ->
  user_exists (id cu) (db (world h)) = true ->
  let h' := screen.exec submitVerse h in
  let sent := newDate (world h) in
  verses h'
  = verses h
    ++ [mkVerse (next_uuid (db (world h))) (id cu) (trim (verseText h)) (isoDate sent)
          (nth (Z.to_nat (getDay sent)) dayNames "") (now (env (world h')))]
  /\ verseText h' = []
  /\ hasSubmittedToday h' = true
  /\ isSubmitting h' = false
  /\ alerts (eff (world h'))
     = alerts (eff (world h)) ++ [("Success", "Bible verse submitted successfully!")]
  /\ (forall t,
        verses (screen.exec submitVerse (with_world (at_time t) h')) = verses h'
        /\ verse_calls (screen.exec submitVerse (with_world (at_time t) h')) = verse_calls h')
  /\ (forall dt,
        dt <= 5 * 60 * 1000 ->
        isoDate (newDate (at_time (now (env (world h')) + dt) (world h')))
        = isoDate (newDate (world h')) ->
        let h2 := screen.exec checkTodaySubmission
                    (with_world (at_time (now (env (world h')) + dt)) h') in
        verse_calls h2 = verse_calls h' /\ hasSubmittedToday h2 = true).
Proof.
  intros Hme Htext Hnot Hearly Hok Hknown. cbv zeta.
  destruct (trim (verseText h)) as [| c text] eqn:Htrim; [congruence |].
  unfold next_reply in Hok.
  change (screen.exec submitVerse h) with (snd (submitVerse h)).
  destruct (submitVerse h) as [res h'] eqn:Hrun. cbn [snd].
  unfold submitVerse, verses_insert in Hrun.
  srun_in Hrun.
  injection Hrun as <- <-.
  cbn [verses verseText hasSubmittedToday isSubmitting world eff alerts env now verse_calls].
  do 5 (split; [reflexivity |]).
  split.
  - intros t. by apply submitVerse_already_submitted.
  - intros dt Hdt Hsame. cbv zeta.
    match goal with
    | |- context [screen.exec checkTodaySubmission ?h2] =>
        destruct (checkTodaySubmission_cached cu true h2) as (Hcalls & _ & Hflag)
    end.
    + exact Hme.
    + cbn [with_world world at_time with_env env now submissionCache newDate tz] in Hsame |- *.
      rewrite Hsame. rewrite cache_get_fresh; [reflexivity | unfold five_minutes; lia].
    + split; [exact Hcalls | exact Hflag].
Qed.

Lemma submitVerse_succeeds_witness :
  let typed := (utf16 "  Psalm 23:1" ++ [160; 8239; 10])%N in
  let h := home_over (sample_world t_12_00 [mkReply 80 None] online) typed in
  verses (screen.exec submitVerse h)
  = [mkVerse 10%N (id bob) (utf16 "Psalm 23:1") 0 "Thursday" (t_12_00 + 80)].
Proof.
  refine (proj1 (submitVerse_succeeds bob
                   (home_over (sample_world t_12_00 [mkReply 80 None] online)
                      (utf16 "  Psalm 23:1" ++ [160; 8239; 10])%N)
                   _ _ _ _ _ _)).
  - reflexivity.
  - discriminate.
  - reflexivity.
  - reflexivity.
  - reflexivity.
  - reflexivity.
Defined.

(** X24. A submission that fails.  When the insert comes back with an
    error, is rejected, or violates the foreign key, no verse is stored,
    the text typed is kept, [hasSubmittedToday] stays false, nothing is
    cached, the failure is logged under 'Error submitting verse:' and the
    alert 'Failed to submit verse. Please try again.' is shown; and
    [isSubmitting] is false again at the end.  [submitVerse] itself never
    throws. *)
Theorem submitVerse_fails (h : Home) :
  screen.completion submitVerse h = Returns tt
  /\ (forall cu,
        currentUser (userManager (world h)) = Some cu ->
        trim (verseText h) <> [] ->
        hasSubmittedToday h = false ->
        pastCutoff (getHours (newDate (world h))) (getMinutes (newDate (world h))) = false ->
        fault (next_reply (world h)) <> None \/ user_exists (id cu) (db (world h)) = false ->
        let h' := screen.exec submitVerse h in
        verses h' = verses h
        /\ verseText h' = verseText h
        /\ hasSubmittedToday h' = false
        /\ isSubmitting h' = false
        /\ submissionCache h' = submissionCache h
        /\ alerts (eff (world h'))
           = alerts (eff (world h)) ++ [("Error", "Failed to submit verse. Please try again.")]
        /\ exists e,
            console (eff (world h'))
            = console (eff (world h)) ++ [("Error submitting verse:", e)]).
Proof.
  unfold screen.exec, screen.completion, next_reply.
  destruct (submitVerse h) as [res h'] eqn:Hrun. cbn [fst snd].
  unfold submitVerse, verses_insert in Hrun.
  srun_in Hrun.
  all: injection Hrun as <- <-.
  all: repeat match goal with a : unit |- _ => destruct a end.
  all: split; [reflexivity |].
  all: intros cu Hme Htext Hnot Hearly Hfails.
  all: try congruence.
  all: cbn [verses verseText hasSubmittedToday isSubmitting submissionCache world eff alerts
            console].
  all: try (destruct Hfails; congruence).
  all: do 6 (split; [first [reflexivity | assumption] |]); eexists; reflexivity.
Qed.

Lemma submitVerse_fails_witness :
  let h := home_over (sample_world t_12_00 [mkReply 80 (Some Rejects)] online) (utf16 "Psalm 23:1") in
  verses (screen.exec submitVerse h) = []
  /\ verseText (screen.exec submitVerse h) = utf16 "Psalm 23:1"
  /\ isSubmitting (screen.exec submitVerse h) = false.
Proof.
  cbv zeta.
  destruct (proj2 (submitVerse_fails
                     (home_over (sample_world t_12_00 [mkReply 80 (Some Rejects)] online)
                        (utf16 "Psalm 23:1"))) bob)
    as (Hverses & Htext & _ & Hsubmitting & _);
    [ reflexivity | discriminate | reflexivity | reflexivity | left; discriminate | ].
  split; [exact Hverses |]. split; [exact Htext | exact Hsubmitting].
Defined.

(** X25. [checkTodaySubmission] when the cache holds nothing for the
    participant's key of the day.  It never throws and never writes to
    the table.  If the read resolves, [hasSubmittedToday] becomes true
    exactly when the read did not fail and the table holds exactly one
    verse of that participant for that date (none, or more than one,
    count as not submitted), and that answer, a failed read's included,
    is cached for five minutes, within which a further check on the same
    date sends no request and gives the same answer.  If the read is
    rejected, the flag is unchanged and the rejection is logged. *)
Theorem checkTodaySubmission_reads (cu : User) (h : Home) :
  currentUser (userManager (world h)) = Some cu ->
  fst (useCache.get (verseCacheKey (id cu) (isoDate (newDate (world h))))
         (now (env (world h))) (submissionCache h)) = None ->
  let today := isoDate (newDate (world h)) in
  let h' := screen.exec checkTodaySubmission h in
  let answer :=
    match fault (next_reply (world h)) with
    | None => Nat.eqb (length (List.filter (verse_of_day (id cu) today) (verses h))) 1
    | Some _ => false
    end in
  screen.completion checkTodaySubmission h = Returns tt
  /\ verses h' = verses h
  /\ verse_calls h' = verse_calls h ++ [(VersesSelectOfDay (id cu) today, next_reply (world h))]
  /\ (fault (next_reply (world h)) = Some Rejects ->
      hasSubmittedToday h' = hasSubmittedToday h
      /\ console (eff (world h'))
         = console (eff (world h)) ++ [("Error checking today submission:", Rejected)])
  /\ (fault (next_reply (world h)) <> Some Rejects ->
      hasSubmittedToday h' = answer
      /\ forall dt,
          dt <= 5 * 60 * 1000 ->
          isoDate (newDate (at_time (now (env (world h')) + dt) (world h'))) = today ->
          let h2 := screen.exec checkTodaySubmission
                      (with_world (at_time (now (env (world h')) + dt)) h') in
          verse_calls h2 = verse_calls h' /\ hasSubmittedToday h2 = answer).
Proof.
  intros Hme Hmiss. cbv zeta. unfold next_reply.
  change (screen.exec checkTodaySubmission h) with (snd (checkTodaySubmission h)).
  unfold screen.completion.
  destruct (checkTodaySubmission h) as [res h'] eqn:Hrun. cbn [fst snd].
  destruct (useCache.get (verseCacheKey (id cu) (isoDate (newDate (world h))))
              (now (env (world h))) (submissionCache h)) as [o c] eqn:Hget.
  cbn [fst] in Hmiss. subst o.
  unfold checkTodaySubmission, verses_select_of_day in Hrun.
  srun_in Hrun.
  all: injection Hrun as <- <-.
  all: cbn [verses verse_calls hasSubmittedToday world eff console env now].
  all: do 3 (split; [reflexivity |]).
  all: split; [intros Hrej; try congruence; split; reflexivity | intros Hres; try congruence].
  all: rewrite ?Hfault.
  all: try (destruct (List.filter (verse_of_day (id cu) (isoDate (newDate (world h))))
                        (verses h)) as [| v [| v' rest]];
            cbn [data error length Nat.eqb andb negb]).
  all: split; [reflexivity |].
  all: intros dt Hdt Hsame; cbv zeta.
  all: match goal with
       | |- _ /\ hasSubmittedToday (screen.exec checkTodaySubmission ?h2) = ?b =>
           destruct (checkTodaySubmission_cached cu b h2) as (Hcalls & _ & Hflag);
             [ exact Hme
             | cbn [with_world world at_time with_env env now submissionCache newDate tz]
                 in Hsame |- *;
               rewrite Hsame; rewrite cache_get_fresh;
               [reflexivity | unfold five_minutes; lia]
             | split; [exact Hcalls | exact Hflag] ]
       end.
Qed.

Lemma checkTodaySubmission_reads_witness :
  let twice := [mkVerse 20%N (id bob) (utf16 "Psalm 23:1") 0 "Thursday" 100;
                mkVerse 21%N (id bob) (utf16 "John 3:16") 0 "Thursday" 200] in
  let h := mkHome (sample_world t_12_00 [] online) twice [] [] true false useCache.initial in
  hasSubmittedToday (screen.exec checkTodaySubmission h) = false.
Proof.
  cbv zeta.
  destruct (checkTodaySubmission_reads bob
              (mkHome (sample_world t_12_00 [] online)
                 [mkVerse 20%N (id bob) (utf16 "Psalm 23:1") 0 "Thursday" 100;
                  mkVerse 21%N (id bob) (utf16 "John 3:16") 0 "Thursday" 200]
                 [] [] true false useCache.initial))
    as (_ & _ & _ & _ & Hresolved); [reflexivity | reflexivity |].
  destruct Hresolved as [Hflag _]; [discriminate |].
  rewrite Hflag. reflexivity.
Defined.

(** ** The verses screen *)

Lemma group_verse_plain grouped v :
  inherited (day_name v) = false ->
  group_verse grouped v
  = Some (<[day_name v := default [] (grouped !! day_name v) ++ [v]]> grouped).
Proof.
  intros Hplain. unfold group_verse, read_property. cbv zeta.
  destruct (grouped !! day_name v) as [l |] eqn:Hday.
  - by rewrite Hday.
  - rewrite Hplain, lookup_insert_eq. by rewrite insert_insert_eq.
Qed.

Lemma group_verse_inherited grouped v :
  inherited (day_name v) = true ->
  grouped !! day_name v = None ->
  group_verse grouped v = None.
Proof.
  intros Hproto Hnone. unfold group_verse, read_property. cbv zeta.
  rewrite Hnone, Hproto. by rewrite Hnone.
Qed.

Lemma group_fold_thrown vs :
  fold_left (fun acc verse => match acc with
                              | Some grouped => group_verse grouped verse
                              | None => None
                              end) vs None = None.
Proof. induction vs as [| v vs IH]; [reflexivity | exact IH]. Qed.

Lemma group_fold_lookup vs : forall (grouped : gmap string (list Verse)) g,
  (forall d, grouped !! d = some_if_nonempty (g d)) ->
  (forall d, inherited d = true -> g d = []) ->
  (existsb (fun v => inherited (day_name v)) vs = true ->
   fold_left (fun acc verse => match acc with
                               | Some grouped => group_verse grouped verse
                               | None => None
                               end) vs (Some grouped) = None)
  /\ (existsb (fun v => inherited (day_name v)) vs = false ->
      exists grouped',
        fold_left (fun acc verse => match acc with
                                    | Some grouped => group_verse grouped verse
                                    | None => None
                                    end) vs (Some grouped) = Some grouped'
        /\ forall d, grouped' !! d = some_if_nonempty (g d ++ of_day d vs)).
Proof.
  induction vs as [| v vs IH]; intros grouped g Hinv Hproto.
  - split; [discriminate |]. intros _. exists grouped. split; [reflexivity |].
    intros d. cbn [of_day List.filter]. rewrite app_nil_r. apply Hinv.
  - cbn [fold_left existsb].
    destruct (inherited (day_name v)) eqn:Hv; cbn [orb].
    + split; [| discriminate]. intros _.
      rewrite group_verse_inherited; [apply group_fold_thrown | exact Hv |].
      rewrite Hinv, (Hproto _ Hv). reflexivity.
    + rewrite group_verse_plain by exact Hv.
      destruct (IH (<[day_name v := default [] (grouped !! day_name v) ++ [v]]> grouped)
                  (fun d => g d ++ of_day d [v])) as [Hthrown Hgrouped].
      * intros d. unfold of_day. cbn [List.filter].
        destruct (String.eqb_spec (day_name v) d) as [-> | Hne].
        -- rewrite lookup_insert_eq, Hinv. by destruct (g d).
        -- rewrite lookup_insert_ne by exact Hne. rewrite app_nil_r. apply Hinv.
      * intros d Hd. rewrite (Hproto d Hd). unfold of_day. cbn [List.filter app].
        destruct (String.eqb_spec (day_name v) d) as [Heq | Hne]; [| reflexivity].
        rewrite Heq in Hv. congruence.
      * split; [exact Hthrown |]. intros Hplain.
        destruct (Hgrouped Hplain) as (grouped' & Hfold & Hlookup).
        exists grouped'. split; [exact Hfold |].
        intros d. rewrite Hlookup, <- app_assoc. f_equal. f_equal.
        unfold of_day. cbn [List.filter]. by destruct (String.eqb (day_name v) d).
Qed.

Lemma groupVersesByDay_lookup vs :
  (existsb (fun v => inherited (day_name v)) vs = true -> groupVersesByDay vs = None)
  /\ (existsb (fun v => inherited (day_name v)) vs = false ->
      exists grouped,
        groupVersesByDay vs = Some grouped
        /\ forall d, grouped !! d = some_if_nonempty (of_day d vs)).
Proof.
  unfold groupVersesByDay.
  apply (group_fold_lookup vs ∅ (fun _ => [])); [| reflexivity].
  intros d. apply lookup_empty.
Qed.

Lemma dayOrder_plain day : In day dayOrder -> inherited day = false.
Proof.
  cbn [dayOrder In]. intros Hin.
  repeat destruct Hin as [<- | Hin]; try reflexivity. destruct Hin.
Qed.

Lemma of_day_some vs day :
  match some_if_nonempty (of_day day vs) with Some _ => true | None => false end
  = existsb (fun v => String.eqb (day_name v) day) vs.
Proof.
  unfold of_day. induction vs as [| v vs IH]; [reflexivity |].
  cbn [List.filter existsb]. destruct (String.eqb (day_name v) day); [reflexivity |].
  exact IH.
Qed.

Lemma daySections_spec vs grouped :
  groupVersesByDay vs = Some grouped ->
  (forall d, grouped !! d = some_if_nonempty (of_day d vs)) ->
  daySections vs
  = Some (map (fun day => (day, of_day day vs))
            (List.filter (fun day => existsb (fun v => String.eqb (day_name v) day) vs)
               dayOrder)).
Proof.
  intros Hgrouped Hlookup. unfold daySections. rewrite Hgrouped. f_equal.
  pose proof (of_day_some vs) as Hsome.
  assert (Hshown : forall day, In day dayOrder ->
             match read_property grouped day with Undefined => false | _ => true end
             = existsb (fun v => String.eqb (day_name v) day) vs).
  { intros day Hday. rewrite <- Hsome. unfold read_property.
    rewrite Hlookup, (dayOrder_plain day Hday).
    by destruct (some_if_nonempty (of_day day vs)). }
  assert (Hfilter : forall (f f' : string -> bool) l,
             (forall x, In x l -> f x = f' x) -> List.filter f l = List.filter f' l).
  { intros f f' l. induction l as [| x l IHl]; intros Hext; [reflexivity |].
    cbn [List.filter]. rewrite (Hext x) by (by left).
    rewrite IHl by (intros y Hy; apply Hext; by right). reflexivity. }
  rewrite (Hfilter _ _ dayOrder Hshown).
  apply map_ext_in. intros day Hin. apply filter_In in Hin as [_ Hex].
  rewrite Hlookup. f_equal.
  destruct (of_day day vs) eqn:Hd; [| reflexivity].
  exfalso. unfold of_day in Hd. apply existsb_exists in Hex as (v & Hv & Hday).
  assert (Hin : In v (List.filter (fun v => String.eqb (day_name v) day) vs))
    by (apply filter_In; auto).
  by rewrite Hd in Hin.
Qed.

(** X26. The sections of the verses screen.  If a verse of the list has
    a [day_name] that names a property every object inherits
    ([constructor], [toString], ...), [groupVersesByDay] throws and
    nothing is rendered.  Otherwise it holds under each day name the
    verses of that day in the order of the list, and nothing under a
    name no verse has; the sections shown are the days of Monday to
    Sunday that have a verse, in that order, each with all its verses,
    and a verse is shown exactly when its [day_name] is one of the seven
    names.  The names [submitVerse] can store are among the seven and
    none of them is inherited, so a list of verses stored by it is
    grouped without a throw and shown in full. *)
Theorem daySections_show_each_day (vs : list Verse) :
  (existsb (fun v => inherited (day_name v)) vs = true ->
   groupVersesByDay vs = None /\ daySections vs = None)
  /\ (existsb (fun v => inherited (day_name v)) vs = false ->
      exists grouped sections,
        groupVersesByDay vs = Some grouped
        /\ daySections vs = Some sections
        /\ (forall d, grouped !! d = match of_day d vs with [] => None | l => Some l end)
        /\ map fst sections
           = List.filter (fun day => existsb (fun v => String.eqb (day_name v) day) vs) dayOrder
        /\ (forall d l, In (d, l) sections -> l = of_day d vs /\ l <> [] /\ In d dayOrder)
        /\ (forall v, In v vs ->
              (In v (concat (map snd sections)) <-> In (day_name v) dayOrder)))
  /\ (forall d, In d dayNames -> In d dayOrder /\ inherited d = false)
  /\ (Forall (fun v => In (day_name v) dayNames) vs ->
      existsb (fun v => inherited (day_name v)) vs = false).
Proof.
  assert (Hnames : forall d, In d dayNames -> In d dayOrder /\ inherited d = false).
  { intros d Hd. assert (Hin : In d dayOrder) by (cbn [dayNames dayOrder In] in *; tauto).
    split; [exact Hin | by apply dayOrder_plain]. }
  assert (Hstored : Forall (fun v => In (day_name v) dayNames) vs ->
                    existsb (fun v => inherited (day_name v)) vs = false).
  { intros Hall. induction Hall as [| v vs' Hv _ IH]; [reflexivity |].
    cbn [existsb]. rewrite (proj2 (Hnames _ Hv)). exact IH. }
  destruct (groupVersesByDay_lookup vs) as [Hthrown Hgrouped].
  split; [| split; [| split; [exact Hnames | exact Hstored]]].
  - intros Hproto. specialize (Hthrown Hproto). split; [exact Hthrown |].
    unfold daySections. by rewrite Hthrown.
  - intros Hplain. destruct (Hgrouped Hplain) as (grouped & Hsome & Hlookup).
    exists grouped. eexists. split; [exact Hsome |].
    split; [by apply (daySections_spec vs grouped) |].
    split; [intros d; rewrite Hlookup; by destruct (of_day d vs) |].
    split; [rewrite map_map; cbn [fst]; by rewrite map_id |].
    split.
    + intros d l Hin. apply in_map_iff in Hin as (day & [= <- <-] & Hday).
      apply filter_In in Hday as [Hknown Hex].
      split; [reflexivity |]. split; [| exact Hknown].
      apply existsb_exists in Hex as (v & Hv & Heq).
      intros Hnil.
      assert (Hin : In v (of_day day vs)) by (apply filter_In; auto).
      by rewrite Hnil in Hin.
    + intros v Hv. rewrite map_map. cbn [snd]. rewrite in_concat. split.
      * intros (l & Hl & Hin). apply in_map_iff in Hl as (day & <- & Hday).
        apply filter_In in Hday as [Hknown _].
        apply filter_In in Hin as [_ Heq]. apply String.eqb_eq in Heq. by rewrite Heq.
      * intros Hknown. exists (of_day (day_name v) vs). split.
        -- apply in_map_iff. exists (day_name v). split; [reflexivity |].
           apply filter_In. split; [exact Hknown |].
           apply existsb_exists. exists v. split; [exact Hv | apply String.eqb_refl].
        -- apply filter_In. split; [exact Hv | apply String.eqb_refl].
Qed.

Lemma daySections_show_each_day_witness :
  let vs := [mkVerse 3%N 1%N (utf16 "c") 2 "Sunday" 30; mkVerse 2%N 2%N (utf16 "b") 1 "Monday" 20;
             mkVerse 1%N 1%N (utf16 "a") 0 "Sunday" 10;
             mkVerse 4%N 1%N (utf16 "d") 0 "Someday" 5] in
  (map fst <$> daySections vs) = Some ["Monday"; "Sunday"]
  /\ daySections (vs ++ [mkVerse 5%N 2%N (utf16 "e") 0 "constructor" 40]) = None.
Proof.
  cbv zeta.
  destruct (daySections_show_each_day
              [mkVerse 3%N 1%N (utf16 "c") 2 "Sunday" 30;
               mkVerse 2%N 2%N (utf16 "b") 1 "Monday" 20;
               mkVerse 1%N 1%N (utf16 "a") 0 "Sunday" 10;
               mkVerse 4%N 1%N (utf16 "d") 0 "Someday" 5])
    as (_ & Hplain & _).
  destruct Hplain as (grouped & sections & _ & Hsections & _ & Hdays & _); [reflexivity |].
  split; [rewrite Hsections; cbn [fmap option_fmap option_map]; rewrite Hdays; reflexivity |].
  apply (proj1 (daySections_show_each_day
                  ([mkVerse 3%N 1%N (utf16 "c") 2 "Sunday" 30;
                    mkVerse 2%N 2%N (utf16 "b") 1 "Monday" 20;
                    mkVerse 1%N 1%N (utf16 "a") 0 "Sunday" 10;
                    mkVerse 4%N 1%N (utf16 "d") 0 "Someday" 5]
                   ++ [mkVerse 5%N 2%N (utf16 "e") 0 "constructor" 40]))).
  reflexivity.
Defined.

(** ** Realtime subscriptions *)

Lemma unsubscribe_all_fold hs : forall rt,
  fold_left (fun r handle => unsubscribe handle r) hs rt
  = mkRealtime (subscriptionsRef rt)
      (List.filter (fun s => negb (existsb (Nat.eqb (sub_handle s)) hs)) (channels rt))
      (next_subscription rt).
Proof.
  induction hs as [| a hs IH]; intros rt.
  - cbn [fold_left existsb negb].
    assert (Hall : forall l : list Subscription, List.filter (fun _ => true) l = l)
      by (induction l as [| x l IHl]; [reflexivity | cbn; by rewrite IHl]).
    rewrite Hall. by destruct rt.
  - cbn [fold_left]. rewrite IH. unfold unsubscribe.
    cbn [subscriptionsRef channels next_subscription]. f_equal.
    induction (channels rt) as [| s l IHl]; [reflexivity |].
    cbn [List.filter existsb].
    destruct (Nat.eqb (sub_handle s) a); cbn [negb orb List.filter]; [exact IHl |].
    destruct (existsb (Nat.eqb (sub_handle s)) hs); cbn [negb]; by rewrite IHl.
Qed.

Lemma unsubscribe_all_tracked rt :
  channels_tracked rt ->
  unsubscribe_all rt = mkRealtime (subscriptionsRef rt) [] (next_subscription rt).
Proof.
  intros Htracked. unfold unsubscribe_all. rewrite unsubscribe_all_fold. f_equal.
  destruct Htracked as [-> | Hrefs]; [reflexivity |].
  rewrite <- Hrefs.
  assert (Hgone : forall l keep,
             (forall s, In s l -> In (sub_handle s) keep) ->
             List.filter (fun s => negb (existsb (Nat.eqb (sub_handle s)) keep)) l = []).
  { induction l as [| s l IHl]; intros keep Hin; [reflexivity |].
    cbn [List.filter].
    assert (Hs : existsb (Nat.eqb (sub_handle s)) keep = true).
    { apply existsb_exists. exists (sub_handle s). split; [apply Hin; by left |].
      apply Nat.eqb_refl. }
    rewrite Hs. cbn [negb]. apply IHl. intros s' Hs'. apply Hin. by right. }
  apply Hgone. intros s Hs. by apply in_map.
Qed.

Lemma setupSubscriptions_shape p rt :
  channels_tracked rt ->
  setupSubscriptions p rt
  = mkRealtime
      [next_subscription rt; S (next_subscription rt); S (S (next_subscription rt))]
      [mkSubscription (next_subscription rt) UsersTable p;
       mkSubscription (S (next_subscription rt)) VersesTable p;
       mkSubscription (S (S (next_subscription rt))) PenaltiesTable p]
      (S (S (S (next_subscription rt)))).
Proof.
  intros Htracked. unfold setupSubscriptions.
  rewrite (unsubscribe_all_tracked rt Htracked). reflexivity.
Qed.

Lemma realtime_after_tracked ev rt :
  channels_tracked rt -> channels_tracked (realtime_after ev rt).
Proof.
  intros Htracked. destruct ev as [p |]; cbn [realtime_after].
  - rewrite setupSubscriptions_shape; [by right |].
    rewrite unsubscribe_all_tracked by assumption. by left.
  - rewrite unsubscribe_all_tracked by assumption. by left.
Qed.

(** X27. One live handler per table, with the props of the latest
    render.  Whatever renders and unmounts came before, after a render
    with props [p] a change on a table is handled exactly once, by the
    handler closed over [p] (no channel of an earlier render is left to
    call stale callbacks or to call twice); after an unmount a change
    calls nothing. *)
Theorem realtime_one_handler_per_table (evs : list RealtimeEvent) (p : RealtimeProps)
    (payload : Change) :
  let rt := fold_left (fun r ev => realtime_after ev r) evs no_realtime in
  deliver payload (realtime_after (Render p) rt) = handler (change_table payload) p payload
  /\ map (fun s => (sub_table s, sub_props s)) (channels (realtime_after (Render p) rt))
     = [(UsersTable, p); (VersesTable, p); (PenaltiesTable, p)]
  /\ map sub_handle (channels (realtime_after (Render p) rt))
     = subscriptionsRef (realtime_after (Render p) rt)
  /\ deliver payload (realtime_after Unmount rt) = [].
Proof.
  cbv zeta.
  assert (Htracked : channels_tracked (fold_left (fun r ev => realtime_after ev r) evs no_realtime)).
  { assert (Hinit : channels_tracked no_realtime) by (by left).
    revert Hinit. generalize no_realtime. induction evs as [| ev evs IH]; intros rt Hrt.
    - exact Hrt.
    - cbn [fold_left]. apply IH. by apply realtime_after_tracked. }
  cbn [realtime_after].
  rewrite setupSubscriptions_shape
    by (rewrite unsubscribe_all_tracked by assumption; by left).
  rewrite unsubscribe_all_tracked by assumption.
  cbn [channels subscriptionsRef next_subscription map sub_table sub_props sub_handle].
  split; [| by repeat split].
  unfold deliver. cbn [channels flat_map sub_table sub_props].
  destruct (change_table payload); cbn [table_eqb app]; by rewrite ?app_nil_r.
Qed.

(** X28. What the handlers pass on.  [onUserUpdate] is only ever called
    with a row that has the current participant's id: the updated row of
    a [users] UPDATE, or, on any change of [penalties], the participant as
    the render knew it (not a row read again).  A [users] DELETE calls
    nothing, and neither does any event on [users] other than INSERT and
    an UPDATE that carries a row; a change of [verses] calls
    [onVerseUpdate] alone. *)
Theorem realtime_notifications (p : RealtimeProps) (payload : Change) :
  (forall t u,
      In (UserUpdated u) (handler t p payload) ->
      onUserUpdate p = true
      /\ exists cu,
          rt_currentUser p = Some cu
          /\ id u = id cu
          /\ (t = PenaltiesTable -> u = cu)
          /\ (t = UsersTable -> eventType payload = UPDATE /\ payload_new payload = Some u)
          /\ t <> VersesTable)
  /\ (eventType payload = DELETE
      \/ (eventType payload = UPDATE /\ payload_new payload = None) ->
      handler UsersTable p payload = [])
  /\ (forall n, In n (handler VersesTable p payload) -> n = VerseUpdated).
Proof.
  split; [| split].
  - intros t u Hin. destruct t; cbn [handler] in Hin.
    + unfold on_users_change, invoke in Hin.
      destruct (eventType payload) eqn:Hev, (payload_new payload) as [updated |] eqn:Hnew,
        (rt_currentUser p) as [cu |] eqn:Hcu, (onUserUpdate p), (onUsersListUpdate p);
        cbn [app In] in Hin; try tauto;
        try (destruct Hin as [Hin | Hin]; [discriminate Hin | tauto]).
      all: destruct (N.eqb (id updated) (id cu)) eqn:Hid; cbn [app In] in Hin;
        try solve [ tauto | destruct Hin as [Hin | Hin]; [discriminate Hin | tauto] ].
      all: destruct Hin as [[= ->] | Hin];
        [| try solve [ tauto | destruct Hin as [Hin | Hin]; [discriminate Hin | tauto] ] ].
      all: apply N.eqb_eq in Hid; split; [reflexivity |]; exists cu;
        repeat split; try congruence.
    + unfold on_verses_change, invoke in Hin.
      destruct (onVerseUpdate p); cbn [In] in Hin; [| tauto].
      destruct Hin as [Hin | Hin]; [discriminate Hin | tauto].
    + unfold on_penalties_change, invoke in Hin.
      destruct (rt_currentUser p) as [cu |] eqn:Hcu, (onUserUpdate p), (onUsersListUpdate p);
        cbn [app In] in Hin; try tauto;
        repeat (destruct Hin as [Hin | Hin]; try discriminate Hin; try tauto).
      all: injection Hin as <-; split; [reflexivity |]; exists cu; repeat split; congruence.
  - intros [Hdel | [Hupd Hnone]]; cbn [handler]; unfold on_users_change.
    + by rewrite Hdel.
    + by rewrite Hupd, Hnone.
  - intros n Hin. cbn [handler] in Hin. unfold on_verses_change, invoke in Hin.
    destruct (onVerseUpdate p); cbn [In] in Hin; [| destruct Hin].
    by destruct Hin as [<- | []].
Qed.

Lemma realtime_notifications_witness :
  handler UsersTable (mkRealtimeProps (Some alice) true true true)
    (mkChange UsersTable DELETE (Some bob)) = [].
Proof.
  apply (proj1 (proj2 (realtime_notifications (mkRealtimeProps (Some alice) true true true)
                         (mkChange UsersTable DELETE (Some bob))))).
  left. reflexivity.
Defined.

(** ** A check that failed, then a submission *)

Lemma checkTodaySubmission_answer cu h :
  currentUser (userManager (world h)) = Some cu ->
  fst (useCache.get (verseCacheKey (id cu) (isoDate (newDate (world h))))
         (now (env (world h))) (submissionCache h)) = None ->
  fault (next_reply (world h)) <> Some Rejects ->
  let h' := screen.exec checkTodaySubmission h in
  hasSubmittedToday h'
  = match fault (next_reply (world h)) with
    | None => Nat.eqb (length (List.filter (verse_of_day (id cu) (isoDate (newDate (world h))))
                                 (verses h))) 1
    | Some _ => false
    end
  /\ verses h' = verses h
  /\ verseText h' = verseText h
  /\ userManager (world h') = userManager (world h)
  /\ db (world h') = db (world h)
  /\ tz (env (world h')) = tz (env (world h))
  /\ now (env (world h')) = now (env (world h)) + elapsed (next_reply (world h))
  /\ replies (env (world h')) = tl (replies (env (world h))).
Proof.
  intros Hme Hmiss Hres. cbv zeta. unfold next_reply in *.
  unfold screen.exec.
  destruct (checkTodaySubmission h) as [res h'] eqn:Hrun. cbn [snd].
  destruct (useCache.get (verseCacheKey (id cu) (isoDate (newDate (world h))))
              (now (env (world h))) (submissionCache h)) as [o c] eqn:Hget.
  cbn [fst] in Hmiss. subst o.
  unfold checkTodaySubmission, verses_select_of_day in Hrun.
  srun_in Hrun.
  all: try congruence.
  all: injection Hrun as <- <-.
  all: cbn [verses verseText hasSubmittedToday world userManager db env tz now replies].
  all: rewrite ?Hfault.
  all: try (destruct (List.filter (verse_of_day (id cu) (isoDate (newDate (world h))))
                        (verses h)) as [| v [| v' rest]];
            cbn [data error length Nat.eqb andb negb]).
  all: repeat split.
Qed.

(** X29. A failed check lets a second verse in.  Suppose the table
    already holds the participant's verse of the day, the cache holds
    nothing for the day, and the read of [checkTodaySubmission] comes back
    with an error.  Then the check answers 'not submitted', so a
    [submitVerse] that follows (text not blank, before 22:30, same UTC
    date, insert succeeding) is not refused and stores a second verse of
    that participant for that date; and from then on every check that
    reads the table (no cached answer, read resolving) answers 'not
    submitted' as well. *)
Theorem failed_check_lets_second_verse_in (cu : User) (code : string) (h : Home) :
  currentUser (userManager (world h)) = Some cu ->
  user_exists (id cu) (db (world h)) = true ->
  length (List.filter (verse_of_day (id cu) (isoDate (newDate (world h)))) (verses h)) = 1%nat ->
  fst (useCache.get (verseCacheKey (id cu) (isoDate (newDate (world h))))
         (now (env (world h))) (submissionCache h)) = None ->
  fault (next_reply (world h)) = Some (ReturnsError code) ->
  fault (hd ok_reply (tl (replies (env (world h))))) = None ->
  trim (verseText h) <> [] ->
  let h1 := screen.exec checkTodaySubmission h in
  pastCutoff (getHours (newDate (world h1))) (getMinutes (newDate (world h1))) = false ->
  isoDate (newDate (world h1)) = isoDate (newDate (world h)) ->
  let h2 := screen.exec submitVerse h1 in
  let today := isoDate (newDate (world h)) in
  hasSubmittedToday h1 = false
  /\ length (List.filter (verse_of_day (id cu) today) (verses h2)) = 2%nat
  /\ forall h3,
      verses h3 = verses h2 ->
      currentUser (userManager (world h3)) = Some cu ->
      isoDate (newDate (world h3)) = today ->
      fst (useCache.get (verseCacheKey (id cu) today) (now (env (world h3)))
             (submissionCache h3)) = None ->
      fault (next_reply (world h3)) <> Some Rejects ->
      hasSubmittedToday (screen.exec checkTodaySubmission h3) = false.
Proof.
  intros Hme Hknown Hone Hmiss Hfail Hok Htext. cbv zeta.
  destruct (checkTodaySubmission_answer cu h Hme Hmiss)
    as (Hflag & Hverses & Hsame & Hum & Hdb & Htz & Hnow & Hreplies); [congruence |].
  rewrite Hfail in Hflag.
  set (h1 := screen.exec checkTodaySubmission h) in *.
  intros Hearly Hday.
  split; [exact Hflag |].
  assert (Htwo : length (List.filter (verse_of_day (id cu) (isoDate (newDate (world h))))
                           (verses (screen.exec submitVerse h1))) = 2%nat).
  { unfold screen.exec.
    destruct (submitVerse h1) as [res h2] eqn:Hrun. cbn [snd].
    assert (Hme1 : currentUser (userManager (world h1)) = Some cu) by (by rewrite Hum).
    assert (Htext1 : exists c text, trim (verseText h1) = c :: text)
      by (rewrite Hsame; destruct (trim (verseText h)); [congruence | eauto]).
    destruct Htext1 as (c & text & Htext1).
    assert (Hok1 : fault (hd ok_reply (replies (env (world h1)))) = None)
      by (by rewrite Hreplies).
    assert (Hknown1 : user_exists (id cu) (db (world h1)) = true) by (by rewrite Hdb).
    unfold submitVerse, verses_insert in Hrun.
    srun_in Hrun.
    injection Hrun as <- <-. cbn [verses].
    rewrite Hverses, List.filter_app, length_app, Hone. cbn [List.filter].
    unfold verse_of_day at 1. cbn [verse_user_id submitted_date].
    rewrite Hday, N.eqb_refl, Z.eqb_refl. reflexivity. }
  split; [exact Htwo |].
  intros h3 Hverses3 Hme3 Hday3 Hmiss3 Hres3.
  rewrite <- Hday3 in Hmiss3.
  destruct (checkTodaySubmission_answer cu h3 Hme3 Hmiss3 Hres3) as (Hflag3 & _).
  rewrite Hflag3, Hverses3, Hday3, Htwo.
  by destruct (fault (next_reply (world h3))).
Qed.

Lemma failed_check_lets_second_verse_in_witness :
  let h := mkHome (sample_world t_12_00 [mkReply 30 (Some (ReturnsError "PGRST301"))] online)
             [mkVerse 20%N (id bob) (utf16 "Psalm 23:1") 0 "Thursday" 100] [] (utf16 "John 3:16") false false
             useCache.initial in
  map verse_text (verses (screen.exec submitVerse (screen.exec checkTodaySubmission h)))
  = [utf16 "Psalm 23:1"; utf16 "John 3:16"]
  /\ length (List.filter (verse_of_day (id bob) 0)
               (verses (screen.exec submitVerse (screen.exec checkTodaySubmission h)))) = 2%nat.
Proof.
  cbv zeta. split; [reflexivity |].
  refine (proj1 (proj2 (failed_check_lets_second_verse_in bob "PGRST301"
            (mkHome (sample_world t_12_00 [mkReply 30 (Some (ReturnsError "PGRST301"))] online)
               [mkVerse 20%N (id bob) (utf16 "Psalm 23:1") 0 "Thursday" 100] [] (utf16 "John 3:16") false false
               useCache.initial) _ _ _ _ _ _ _ _ _))).
  - reflexivity.
  - reflexivity.
  - reflexivity.
  - reflexivity.
  - reflexivity.
  - reflexivity.
  - discriminate.
  - reflexivity.
  - reflexivity.
Defined.

(** ** The device label *)

Lemma initializeUser_looks_up name w :
  name <> "" ->
  name <> "Unknown Device" ->
  (forall cached,
      fst (useCache.get (userCacheKey name) (now (env w)) (userCache (userManager w)))
      <> Some (Some cached)) ->
  exists rest,
    calls (eff (exec (initializeUser name) w))
    = calls (eff w) ++ (UsersSelectByDevice name, next_reply w) :: rest.
Proof.
  intros Hname Hunknown Hmiss.
  apply String.eqb_neq in Hname, Hunknown.
  unfold exec. destruct (initializeUser name w) as [res w'] eqn:Hrun. cbn [snd].
  unfold initializeUser, users_select_by_device, users_update_returning, users_insert in Hrun.
  run_in Hrun.
  all: try (exfalso; eapply Hmiss; reflexivity).
  all: injection Hrun as <- <-; cbn [eff calls].
  all: unfold next_reply; eexists; rewrite <- ?app_assoc; cbn [app]; reflexivity.
Qed.

(** X30. The label [getDeviceName] computes is never empty.  On the web
    it is one of four fixed labels, [Chrome Browser] whenever the user
    agent mentions Chrome (also when it mentions Safari as well), and it
    is never [Unknown Device]; so an [initializeUser] run with a web label
    never stops at its first guard: unless the cache answers, it sends
    the look-up by that label, the same for every client of that
    browser. *)
Theorem getDeviceName_resolved (os userAgent : string) (device : DeviceModule) :
  getDeviceName os userAgent device <> ""
  /\ (os = "web" ->
      In (getDeviceName os userAgent device)
         ["Chrome Browser"; "Firefox Browser"; "Safari Browser"; "Web Browser"]
      /\ getDeviceName os userAgent device <> "Unknown Device"
      /\ (includes userAgent "Chrome" = true ->
          getDeviceName os userAgent device = "Chrome Browser")
      /\ forall w,
          (forall cached,
              fst (useCache.get (userCacheKey (getDeviceName os userAgent device))
                     (now (env w)) (userCache (userManager w)))
              <> Some (Some cached)) ->
          exists rest,
            calls (eff (exec (initializeUser (getDeviceName os userAgent device)) w))
            = calls (eff w)
              ++ (UsersSelectByDevice (getDeviceName os userAgent device), next_reply w) :: rest).
Proof.
  assert (Hweb : os = "web" ->
                 In (getDeviceName os userAgent device)
                    ["Chrome Browser"; "Firefox Browser"; "Safari Browser"; "Web Browser"]).
  { intros ->. unfold getDeviceName. cbn [String.eqb Ascii.eqb Bool.eqb].
    destruct (includes userAgent "Chrome"); [find_in |].
    destruct (includes userAgent "Firefox"); [find_in |].
    destruct (includes userAgent "Safari"); find_in. }
  assert (Hnonempty : getDeviceName os userAgent device <> "").
  { destruct (String.eqb_spec os "web") as [Hos | Hos].
    - specialize (Hweb Hos). cbn [In] in Hweb.
      destruct Hweb as [<- | [<- | [<- | [<- | []]]]]; discriminate.
    - apply String.eqb_neq in Hos. unfold getDeviceName. rewrite Hos.
      assert (Htemplate : forall a b : string, (a ++ " " ++ b)%string <> "")
        by (intros [| c a] b; discriminate).
      destruct (Device_deviceName device) as [name |]; [| apply Htemplate].
      destruct (String.eqb_spec name ""); [apply Htemplate | assumption]. }
  split; [exact Hnonempty |].
  intros Hos. specialize (Hweb Hos).
  assert (Hknown : getDeviceName os userAgent device <> "Unknown Device").
  { cbn [In] in Hweb. destruct Hweb as [<- | [<- | [<- | [<- | []]]]]; discriminate. }
  split; [exact Hweb |]. split; [exact Hknown |]. split.
  - intros Hchrome. subst os. unfold getDeviceName. cbn [String.eqb Ascii.eqb Bool.eqb].
    by rewrite Hchrome.
  - intros w Hmiss. by apply initializeUser_looks_up.
Qed.

Lemma getDeviceName_resolved_witness :
  getDeviceName "web"
    "Mozilla/5.0 (X11; Linux x86_64) AppleWebKit/537.36 (KHTML, like Gecko) Chrome/120.0 Safari/537.36"
    (mkDeviceModule None None None)
  = "Chrome Browser".
Proof.
  apply (getDeviceName_resolved "web"
           "Mozilla/5.0 (X11; Linux x86_64) AppleWebKit/537.36 (KHTML, like Gecko) Chrome/120.0 Safari/537.36"
           (mkDeviceModule None None None)); reflexivity.
Defined.
